(** * SimpleFacilitator: verification and settlement of x402 payments

    A shallow embedding of [src/facilitator.ts].  The class keeps one piece
    of state, the set [usedNonces]; [verify] reads it, [settle] adds to it.
    Methods are written in a small state-and-exception monad so that the
    definitions follow the TypeScript text statement by statement.

    What is taken from outside the file:
    - decoding of the header ([Buffer.from(_, 'base64')], [JSON.parse]) and
      signature recovery ([ethers.verifyTypedData]) are platform and library
      calls; they are variables of the section below;
    - the clock ([Date.now]) and the random digits of the simulated
      transaction hash are arguments of the calls that read them;
    - the section [Facilitator] reads values at their declared TypeScript
      types; the module [Js] embeds the same methods over every document a
      header can hold, whatever its shape, and the section [Agreement] shows
      that the two answer alike on a document of the declared shape;
    - [console.log] and [console.error] are not modelled. *)

From Stdlib Require Import ZArith String Ascii List Bool Lia.
From Stdlib Require QArith.
From stdpp Require Import base gmap strings list.

Local Open Scope Z_scope.

(** ** Data model *)

(** Modelled from the spec: the type declarations of [types.ts], which is
    not among the sources.  The optional domain metadata of a requirement,
    read by the class as [extra?.name] and [extra?.version]. *)
Record Extra := {
  extraName : option string;
  extraVersion : option string
}.

(** Modelled from the spec: the declaration of [PaymentRequirement] in
    [types.ts].  Fields as the data model lists them and as the class and the
    client read them. *)
Record PaymentRequirement := {
  scheme : string;
  network : string;
  maxAmountRequired : string;
  payTo : string;
  asset : string;
  maxTimeoutSeconds : Z;
  extra : option Extra;
  requirementNonce : option string
}.

(** Modelled from the spec: the declaration of [EIP3009Payload] in
    [types.ts].  The authorization body of the 'exact' scheme, with the
    fields and types [createPayment] gives it. *)
Record EIP3009Payload := {
  from : string;
  to : string;
  value : string;
  validAfter : Z;
  validBefore : Z;
  nonce : string;
  signature : string
}.

(** Modelled from the spec: the declaration of [PaymentPayload] in
    [types.ts].  The object carried by the header:
    [{x402Version, scheme, network, payload}]. *)
Record PaymentPayload := {
  x402Version : Z;
  payloadScheme : string;
  payloadNetwork : string;
  payload : EIP3009Payload
}.

(** Modelled from the spec: the declaration of [VerifyResponse] in
    [types.ts].  The two fields every [return] of [verify] writes. *)
Record VerifyResponse := {
  isValid : bool;
  invalidReason : option string
}.

(** Modelled from the spec: the declaration of [SettleResponse] in
    [types.ts].  A field that a [return] of [settle] leaves out is [None]. *)
Record SettleResponse := {
  success : bool;
  txHash : option string;
  networkId : option string;
  error : option string
}.

(** What [chainIds[network] || 1] can evaluate to.  [chainIds] is an object
    literal, so an index expression also finds the members every object
    inherits from [Object.prototype]. *)
Inductive JsChainId :=
| ChainNumber (n : Z)
| ChainInherited (member : string).

Record Domain := {
  domainName : string;
  domainVersion : string;
  chainId : JsChainId;
  verifyingContract : string
}.

Record Message := {
  messageFrom : string;
  messageTo : string;
  messageValue : string;
  messageValidAfter : Z;
  messageValidBefore : Z;
  messageNonce : string
}.

(** The instance state: [private usedNonces: Set<string>]. *)
Record Facilitator := {
  usedNonces : gset string
}.

Definition newFacilitator : Facilitator := {| usedNonces := ∅ |}.

(** ** Exceptions and state *)

(** How a JavaScript computation ends: normally with a value, or by throwing
    an [Error] whose [message] is recorded. *)
Inductive Completion (A : Type) :=
| Normal (a : A)
| Throw (message : string).
Arguments Normal {A} a.
Arguments Throw {A} message.

Definition M (A : Type) : Type := Facilitator -> Completion A * Facilitator.

Definition ret {A} (a : A) : M A := fun s => (Normal a, s).

Definition bind {A B} (m : M A) (k : A -> M B) : M B :=
  fun s =>
    match m s with
    | (Normal a, s') => k a s'
    | (Throw message, s') => (Throw message, s')
    end.

(** [try { body } catch (error) { handler error.message }]: the state reached
    when the exception was thrown is kept. *)
Definition tryCatch {A} (body : M A) (handler : string -> M A) : M A :=
  fun s =>
    match body s with
    | (Normal a, s') => (Normal a, s')
    | (Throw message, s') => handler message s'
    end.

Definition liftCompletion {A} (c : Completion A) : M A := fun s => (c, s).

(** [this.usedNonces.has(n)] *)
Definition hasNonce (n : string) : M bool :=
  fun s => (Normal (bool_decide (n ∈ usedNonces s)), s).

(** [this.usedNonces.add(n)] *)
Definition addNonce (n : string) : M unit :=
  fun s => (Normal tt, {| usedNonces := {[ n ]} ∪ usedNonces s |}).

Notation "x <- c1 ;; c2" := (bind c1 (fun x => c2))
  (at level 100, c1 at next level, right associativity).

(** ** JavaScript operators used by the class *)

(** [a || d] on a value of type [string | null | undefined]: the empty
    string is falsy as well. *)
Definition orDefault (a : option string) (d : string) : string :=
  match a with
  | Some s => if String.eqb s "" then d else s
  | None => d
  end.

Definition lowerAscii (c : ascii) : ascii :=
  let n := nat_of_ascii c in
  if ((65 <=? n)%nat && (n <=? 90)%nat)%bool then ascii_of_nat (n + 32) else c.

(** [s.toLowerCase()], on the ASCII letters (addresses are hexadecimal): a
    letter outside ASCII is left as it is, where JavaScript folds it too. *)
Fixpoint toLowerCase (s : string) : string :=
  match s with
  | EmptyString => EmptyString
  | String c rest => String (lowerAscii c) (toLowerCase rest)
  end.

(** ** getChainId *)

Definition chainIds : list (string * Z) :=
  [ ("base-sepolia", 84532);
    ("base", 8453);
    ("ethereum", 1);
    ("sepolia", 11155111) ]%string.

(** The property names defined on [Object.prototype]. *)
Definition objectPrototypeMembers : list string :=
  [ "constructor"; "__defineGetter__"; "__defineSetter__"; "hasOwnProperty";
    "__lookupGetter__"; "__lookupSetter__"; "isPrototypeOf";
    "propertyIsEnumerable"; "toString"; "valueOf"; "__proto__";
    "toLocaleString" ]%string.

Fixpoint ownProperty (table : list (string * Z)) (key : string) : option Z :=
  match table with
  | [] => None
  | (k, v) :: rest => if String.eqb k key then Some v else ownProperty rest key
  end.

Inductive PropertyRead :=
| OwnNumber (n : Z)
| InheritedMember (member : string)
| Undefined.

(** [table[key]]: own properties first, then the prototype. *)
Definition readProperty (table : list (string * Z)) (key : string) : PropertyRead :=
  match ownProperty table key with
  | Some n => OwnNumber n
  | None =>
      if existsb (String.eqb key) objectPrototypeMembers
      then InheritedMember key
      else Undefined
  end.

(** [return chainIds[network] || 1]: [undefined] and [0] are falsy, functions
    and objects are truthy. *)
Definition getChainId (network : string) : JsChainId :=
  match readProperty chainIds network with
  | OwnNumber n => if n =? 0 then ChainNumber 1 else ChainNumber n
  | InheritedMember member => ChainInherited member
  | Undefined => ChainNumber 1
  end.

(** [getSupported()] *)
Definition getSupported : list (string * string) :=
  [ ("exact", "base-sepolia") ]%string.

(** ** The simulated transaction hash *)

Definition hexDigit (n : nat) : ascii :=
  nth n (list_ascii_of_string "0123456789abcdef") "0"%char.

(** [`0x${Array.from({ length: 64 }, () =>
      Math.floor(Math.random() * 16).toString(16)).join('')}`];
    [random16 i] is the i-th value of [Math.floor(Math.random() * 16)]. *)
Definition fakeTxHash (random16 : nat -> nat) : string :=
  ("0x" +:+
   string_of_list_ascii
     (List.map (fun i => hexDigit (random16 i mod 16)) (seq 0 64)))%string.

(** ** Responses *)

Definition invalid (reason : string) : VerifyResponse :=
  {| isValid := false; invalidReason := Some reason |}.

Definition valid : VerifyResponse :=
  {| isValid := true; invalidReason := None |}.

Definition failure (reason : string) : SettleResponse :=
  {| success := false; txHash := None; networkId := None; error := Some reason |}.

(** The response for a list of checks, each a pair (failed, reason): the
    reason of the first one that failed, [valid] when none did. *)
Fixpoint firstFailure (checks : list (bool * string)) : VerifyResponse :=
  match checks with
  | [] => valid
  | (failed, reason) :: rest =>
      if failed then invalid reason else firstFailure rest
  end.

(** ** Reasons *)

(** The taxonomy of failure reasons as the specification words it (its
    section 7); the class declares no such type and reports texts. *)
Inductive SpecReason :=
| unsupportedVersion
| schemeOrNetworkMismatch
| amountMismatch
| recipientMismatch
| expired
| nonceReused
| badSignature
| malformed
| submissionError.

(** [isPrefixOf p s]: [s] starts with [p]. *)
Fixpoint isPrefixOf (p s : string) : bool :=
  match p, s with
  | EmptyString, _ => true
  | String a p', String b s' => Ascii.eqb a b && isPrefixOf p' s'
  | String _ _, EmptyString => false
  end.

(** The reason of the specification's taxonomy that a text written by the
    class stands for, if any.  The two texts that embed an error message are
    read as [malformed] and [submissionError]. *)
Definition specReasonOf (text : string) : option SpecReason :=
  if String.eqb text "Unsupported x402 version" then Some unsupportedVersion
  else if String.eqb text "Scheme or network mismatch" then Some schemeOrNetworkMismatch
  else if String.eqb text "Payment amount mismatch" then Some amountMismatch
  else if String.eqb text "Payment recipient mismatch" then Some recipientMismatch
  else if String.eqb text "Payment expired" then Some expired
  else if String.eqb text "Nonce already used" then Some nonceReused
  else if String.eqb text "Invalid signature" then Some badSignature
  else if isPrefixOf "Verification failed: " text then Some malformed
  else if isPrefixOf "Settlement failed: " text then Some submissionError
  else None.

(** The texts [verify] can report. *)
Definition verifyReasonText (text : string) : Prop :=
  text ∈ [ "Unsupported x402 version"; "Scheme or network mismatch";
           "Unsupported payment scheme"; "Nonce already used";
           "Payment amount mismatch"; "Payment recipient mismatch";
           "Payment expired"; "Invalid signature" ]%string
  ∨ ∃ message, text = ("Verification failed: " +:+ message)%string.

(** ** A worked payment

    One requirement, one authorization and the headers that carry it, used
    where a statement is evaluated on concrete data.  Each header is the
    base64 text of the JSON document given with it. *)

Definition exampleRequirement : PaymentRequirement :=
  {| scheme := "exact";
     network := "base-sepolia";
     maxAmountRequired := "1000000";
     payTo := "0x742d35Cc6634C0532925a3b844Bc454e4438f44e";
     asset := "0x036CbD53842c5426634e7929541eC2318f3dCF7e";
     maxTimeoutSeconds := 300;
     extra := Some {| extraName := Some "USDC"%string;
                      extraVersion := Some "2"%string |};
     requirementNonce := None |}.

(** The same price offered under a scheme named 'stream'. *)
Definition streamRequirement : PaymentRequirement :=
  {| scheme := "stream";
     network := network exampleRequirement;
     maxAmountRequired := maxAmountRequired exampleRequirement;
     payTo := payTo exampleRequirement;
     asset := asset exampleRequirement;
     maxTimeoutSeconds := maxTimeoutSeconds exampleRequirement;
     extra := extra exampleRequirement;
     requirementNonce := requirementNonce exampleRequirement |}.

Definition exampleNonce : string :=
  "0xa1a1a1a1a1a1a1a1a1a1a1a1a1a1a1a1a1a1a1a1a1a1a1a1a1a1a1a1a1a1a1a1".

Definition exampleSignature : string :=
  "0x5c5c5c5c5c5c5c5c5c5c5c5c5c5c5c5c5c5c5c5c5c5c5c5c5c5c5c5c5c5c5c5c3d3d3d3d3d3d3d3d3d3d3d3d3d3d3d3d3d3d3d3d3d3d3d3d3d3d3d3d3d3d3d3d1b".

Definition exampleAuthorization : EIP3009Payload :=
  {| from := "0xf39Fd6e51aad88F6F4ce6aB8827279cffFb92266";
     to := "0x742d35Cc6634C0532925a3b844Bc454e4438f44e";
     value := "1000000";
     validAfter := 1699999940;
     validBefore := 1700000300;
     nonce := exampleNonce;
     signature := exampleSignature |}.

Definition examplePayment : PaymentPayload :=
  {| x402Version := 1;
     payloadScheme := "exact";
     payloadNetwork := "base-sepolia";
     payload := exampleAuthorization |}.

Definition examplePaymentVersion2 : PaymentPayload :=
  {| x402Version := 2;
     payloadScheme := "exact";
     payloadNetwork := "base-sepolia";
     payload := exampleAuthorization |}.

Definition examplePaymentStream : PaymentPayload :=
  {| x402Version := 1;
     payloadScheme := "stream";
     payloadNetwork := "base-sepolia";
     payload := exampleAuthorization |}.

(** [{x402Version: 1, scheme: 'exact', network: 'base-sepolia', payload:
    {from, to, value: '1000000', validAfter: 1699999940,
    validBefore: 1700000300, nonce, signature}}] *)
Definition exampleHeader : string :=
  "eyJ4NDAyVmVyc2lvbiI6MSwic2NoZW1lIjoiZXhhY3QiLCJuZXR3b3JrIjoiYmFzZS1zZXBvbGlhIiwicGF5bG9hZCI6eyJmcm9tIjoiMHhmMzlGZDZlNTFhYWQ4OEY2RjRjZTZhQjg4MjcyNzljZmZGYjkyMjY2IiwidG8iOiIweDc0MmQzNUNjNjYzNEMwNTMyOTI1YTNiODQ0QmM0NTRlNDQzOGY0NGUiLCJ2YWx1ZSI6IjEwMDAwMDAiLCJ2YWxpZEFmdGVyIjoxNjk5OTk5OTQwLCJ2YWxpZEJlZm9yZSI6MTcwMDAwMDMwMCwibm9uY2UiOiIweGExYTFhMWExYTFhMWExYTFhMWExYTFhMWExYTFhMWExYTFhMWExYTFhMWExYTFhMWExYTFhMWExYTFhMWExYTEiLCJzaWduYXR1cmUiOiIweDVjNWM1YzVjNWM1YzVjNWM1YzVjNWM1YzVjNWM1YzVjNWM1YzVjNWM1YzVjNWM1YzVjNWM1YzVjNWM1YzVjNWMzZDNkM2QzZDNkM2QzZDNkM2QzZDNkM2QzZDNkM2QzZDNkM2QzZDNkM2QzZDNkM2QzZDNkM2QzZDNkM2QzZDNkMWIifX0=".

(** The same document with [x402Version: 2]. *)
Definition exampleHeaderVersion2 : string :=
  "eyJ4NDAyVmVyc2lvbiI6Miwic2NoZW1lIjoiZXhhY3QiLCJuZXR3b3JrIjoiYmFzZS1zZXBvbGlhIiwicGF5bG9hZCI6eyJmcm9tIjoiMHhmMzlGZDZlNTFhYWQ4OEY2RjRjZTZhQjg4MjcyNzljZmZGYjkyMjY2IiwidG8iOiIweDc0MmQzNUNjNjYzNEMwNTMyOTI1YTNiODQ0QmM0NTRlNDQzOGY0NGUiLCJ2YWx1ZSI6IjEwMDAwMDAiLCJ2YWxpZEFmdGVyIjoxNjk5OTk5OTQwLCJ2YWxpZEJlZm9yZSI6MTcwMDAwMDMwMCwibm9uY2UiOiIweGExYTFhMWExYTFhMWExYTFhMWExYTFhMWExYTFhMWExYTFhMWExYTFhMWExYTFhMWExYTFhMWExYTFhMWExYTEiLCJzaWduYXR1cmUiOiIweDVjNWM1YzVjNWM1YzVjNWM1YzVjNWM1YzVjNWM1YzVjNWM1YzVjNWM1YzVjNWM1YzVjNWM1YzVjNWM1YzVjNWMzZDNkM2QzZDNkM2QzZDNkM2QzZDNkM2QzZDNkM2QzZDNkM2QzZDNkM2QzZDNkM2QzZDNkM2QzZDNkM2QzZDNkMWIifX0=".

(** The same document with [scheme: 'stream']. *)
Definition exampleHeaderStream : string :=
  "eyJ4NDAyVmVyc2lvbiI6MSwic2NoZW1lIjoic3RyZWFtIiwibmV0d29yayI6ImJhc2Utc2Vwb2xpYSIsInBheWxvYWQiOnsiZnJvbSI6IjB4ZjM5RmQ2ZTUxYWFkODhGNkY0Y2U2YUI4ODI3Mjc5Y2ZmRmI5MjI2NiIsInRvIjoiMHg3NDJkMzVDYzY2MzRDMDUzMjkyNWEzYjg0NEJjNDU0ZTQ0MzhmNDRlIiwidmFsdWUiOiIxMDAwMDAwIiwidmFsaWRBZnRlciI6MTY5OTk5OTk0MCwidmFsaWRCZWZvcmUiOjE3MDAwMDAzMDAsIm5vbmNlIjoiMHhhMWExYTFhMWExYTFhMWExYTFhMWExYTFhMWExYTFhMWExYTFhMWExYTFhMWExYTFhMWExYTFhMWExYTFhMWExIiwic2lnbmF0dXJlIjoiMHg1YzVjNWM1YzVjNWM1YzVjNWM1YzVjNWM1YzVjNWM1YzVjNWM1YzVjNWM1YzVjNWM1YzVjNWM1YzVjNWM1YzVjM2QzZDNkM2QzZDNkM2QzZDNkM2QzZDNkM2QzZDNkM2QzZDNkM2QzZDNkM2QzZDNkM2QzZDNkM2QzZDNkM2QzZDFiIn19".

(** A decoder that knows the three headers above.  On the empty header,
    as on any other, it throws what [JSON.parse] throws on the empty text. *)
Definition exampleDecodeHeader (paymentHeader : string) : Completion PaymentPayload :=
  if String.eqb paymentHeader exampleHeader then Normal examplePayment
  else if String.eqb paymentHeader exampleHeaderVersion2 then Normal examplePaymentVersion2
  else if String.eqb paymentHeader exampleHeaderStream then Normal examplePaymentStream
  else Throw "Unexpected end of JSON input".

(** A stand-in for signature recovery: [exampleSignature] is taken to be the
    payer's signature of the example authorization under the domain of the
    example requirement; over anything else it recovers another address, and
    any other signature text is refused. *)
Definition exampleVerifyTypedData (domain : Domain) (message : Message)
    (sig : string) : Completion string :=
  if String.eqb sig exampleSignature then
    if String.eqb (domainName domain) "USDC"
       && String.eqb (domainVersion domain) "2"
       && match chainId domain with ChainNumber n => n =? 84532 | _ => false end
       && String.eqb (verifyingContract domain) (asset exampleRequirement)
       && String.eqb (messageFrom message) (from exampleAuthorization)
       && String.eqb (messageTo message) (to exampleAuthorization)
       && String.eqb (messageValue message) (value exampleAuthorization)
       && (messageValidAfter message =? validAfter exampleAuthorization)
       && (messageValidBefore message =? validBefore exampleAuthorization)
       && String.eqb (messageNonce message) (nonce exampleAuthorization)
    then Normal (from exampleAuthorization)
    else Normal "0x000000000000000000000000000000000000dEaD"
  else Throw "invalid signature".

(** The clock reading of the examples: five minutes before the example
    authorization expires. *)
Definition exampleNow : Z := 1700000000.

(** A source of random digits: the i-th digit is [i] modulo 16. *)
Definition exampleRandom16 (i : nat) : nat := (i mod 16)%nat.

(** [p] with another [validAfter]. *)
Definition withValidAfter (validAfter' : Z) (p : EIP3009Payload) : EIP3009Payload :=
  {| from := from p;
     to := to p;
     value := value p;
     validAfter := validAfter';
     validBefore := validBefore p;
     nonce := nonce p;
     signature := signature p |}.

Definition withPayload (p : EIP3009Payload) (pp : PaymentPayload) : PaymentPayload :=
  {| x402Version := x402Version pp;
     payloadScheme := payloadScheme pp;
     payloadNetwork := payloadNetwork pp;
     payload := p |}.

(** Whether a call of [settle] ended with [success: true]. *)
Definition succeeded (outcome : Completion SettleResponse * Facilitator) : bool :=
  match fst outcome with
  | Normal response => success response
  | Throw _ => false
  end.

(** Whether a call of [verify] ended with [isValid: true]. *)
Definition accepted (outcome : Completion VerifyResponse * Facilitator) : bool :=
  match fst outcome with
  | Normal response => isValid response
  | Throw _ => false
  end.

(** ** Variations of a requirement and of a payment *)

Definition withPayTo (payTo' : string) (r : PaymentRequirement) : PaymentRequirement :=
  {| scheme := scheme r;
     network := network r;
     maxAmountRequired := maxAmountRequired r;
     payTo := payTo';
     asset := asset r;
     maxTimeoutSeconds := maxTimeoutSeconds r;
     extra := extra r;
     requirementNonce := requirementNonce r |}.

Definition withExtra (extra' : option Extra) (r : PaymentRequirement) : PaymentRequirement :=
  {| scheme := scheme r;
     network := network r;
     maxAmountRequired := maxAmountRequired r;
     payTo := payTo r;
     asset := asset r;
     maxTimeoutSeconds := maxTimeoutSeconds r;
     extra := extra';
     requirementNonce := requirementNonce r |}.

Definition withNetwork (network' : string) (r : PaymentRequirement) : PaymentRequirement :=
  {| scheme := scheme r;
     network := network';
     maxAmountRequired := maxAmountRequired r;
     payTo := payTo r;
     asset := asset r;
     maxTimeoutSeconds := maxTimeoutSeconds r;
     extra := extra r;
     requirementNonce := requirementNonce r |}.

Definition withPayloadNetwork (network' : string) (pp : PaymentPayload) : PaymentPayload :=
  {| x402Version := x402Version pp;
     payloadScheme := payloadScheme pp;
     payloadNetwork := network';
     payload := payload pp |}.

(** ** Texts made of digits *)

Definition isHexDigit (c : ascii) : bool :=
  existsb (Ascii.eqb c) (list_ascii_of_string "0123456789abcdef").

(** A text of the form [0x] followed by [digits] hexadecimal digits. *)
Definition isHexText (digits : nat) (text : string) : Prop :=
  exists rest,
    text = ("0x" +:+ rest)%string
    /\ String.length rest = digits
    /\ forallb isHexDigit (list_ascii_of_string rest) = true.

Definition digitChar (d : Z) : ascii := hexDigit (Z.to_nat d).

(** The decimal digits of [n], most significant first, put before [acc]. *)
Fixpoint digitsOf (fuel : nat) (n : Z) (acc : string) : string :=
  match fuel with
  | O => acc
  | S fuel' =>
      let acc' := String (digitChar (n mod 10)) acc in
      if n / 10 =? 0 then acc' else digitsOf fuel' (n / 10) acc'
  end.

(** [n.toString()] of a [BigInt]. *)
Definition bigIntToString (n : Z) : string :=
  if n <? 0
  then String "-" (digitsOf (S (Z.to_nat (Z.log2 (- n)))) (- n) "")
  else digitsOf (S (Z.to_nat (Z.log2 n))) n "".

(** [s.padStart(targetLength, fill)] for a one-character [fill]. *)
Definition padStart (targetLength : nat) (fill : ascii) (s : string) : string :=
  (string_of_list_ascii (repeat fill (targetLength - String.length s)) +:+ s)%string.

Definition isDigit (c : ascii) : bool :=
  ((48 <=? nat_of_ascii c)%nat && (nat_of_ascii c <=? 57)%nat)%bool.

Definition isDigits (s : string) : bool :=
  negb (String.eqb s "") && forallb isDigit (list_ascii_of_string s).

(** The number a text of decimal digits denotes, read after [acc]. *)
Fixpoint decimalValueFrom (acc : Z) (s : string) : Z :=
  match s with
  | EmptyString => acc
  | String c rest =>
      decimalValueFrom (acc * 10 + (Z.of_nat (nat_of_ascii c) - 48)) rest
  end.

Definition decimalValue (s : string) : Z := decimalValueFrom 0 s.

(** ** The client

    [client.ts]: the functions that build a payment for a requirement and
    print an amount.  Signing ([wallet.signTypedData]), the encoding of the
    header ([JSON.stringify], [Buffer ... toString('base64')]) and the
    conversion [BigInt(amount)] are library calls and are variables of the
    section; the clock and the random bytes are arguments. *)

Module Client.

(** Modelled from the spec: the class [ethers.Wallet], of which the client
    reads [address] and calls [signTypedData]. *)
Record Wallet := {
  address : string;
  privateKey : string
}.

Definition chainIds : list (string * Z) :=
  [ ("base-sepolia", 84532);
    ("base", 8453);
    ("ethereum", 1);
    ("sepolia", 11155111) ]%string.

(** [return chainIds[network] || 1], as in the class. *)
Definition getChainId (network : string) : JsChainId :=
  match readProperty chainIds network with
  | OwnNumber n => if n =? 0 then ChainNumber 1 else ChainNumber n
  | InheritedMember member => ChainInherited member
  | Undefined => ChainNumber 1
  end.

Definition byteHex (b : nat) : list ascii :=
  [hexDigit (b / 16); hexDigit (b mod 16)].

(** [`0x${randomBytes(32).toString('hex')}`]; [randomByte i] is the i-th
    byte drawn. *)
Definition randomNonce (randomByte : nat -> nat) : string :=
  ("0x" +:+
   string_of_list_ascii
     (List.concat (List.map (fun i => byteHex (randomByte i mod 256)) (seq 0 32))))%string.

(** Modelled from the spec: the declaration of [PaymentRequiredResponse] in
    [types.ts], seen through what the client reads of a response body: [null],
    or an object whose [accepts], when present, lists requirements. *)
Inductive Body :=
| BodyNull
| BodyObject (accepts : option (list PaymentRequirement)).

(** What [fetch] resolves to: the fields the client reads, and what
    [response.json()] gives. *)
Record Response := {
  status : Z;
  ok : bool;
  json : Completion Body
}.

(** A request the client sends: the address, and the [X-PAYMENT] header when
    there is one. *)
Inductive Request :=
| Get (url : string) (xPayment : option string).

(** How [makeX402Request] ends: it returns, or it calls [process.exit(1)]. *)
Inductive Exit :=
| Returned
| Exited (code : Z).

Section Client.

Variable signTypedData : Wallet -> Domain -> Message -> Completion string.

Variable encodeHeader : PaymentPayload -> string.

(** [BigInt(amount)]: the integer, or the [SyntaxError] it throws. *)
Variable bigIntOfString : string -> Completion Z.

Definition createPayment (now : Z) (randomByte : nat -> nat) (wallet : Wallet)
    (requirement : PaymentRequirement) : Completion string :=
  let eip3009Payload :=
    {| from := address wallet;
       to := payTo requirement;
       value := maxAmountRequired requirement;
       validAfter := now - 60;
       validBefore := now + maxTimeoutSeconds requirement;
       nonce := orDefault (requirementNonce requirement) (randomNonce randomByte);
       signature := "" |} in
  let domain :=
    {| domainName := orDefault (e ← extra requirement; extraName e) "USD Coin";
       domainVersion := orDefault (e ← extra requirement; extraVersion e) "2";
       chainId := getChainId (network requirement);
       verifyingContract := asset requirement |} in
  let message :=
    {| messageFrom := from eip3009Payload;
       messageTo := to eip3009Payload;
       messageValue := value eip3009Payload;
       messageValidAfter := validAfter eip3009Payload;
       messageValidBefore := validBefore eip3009Payload;
       messageNonce := nonce eip3009Payload |} in
  match signTypedData wallet domain message with
  | Throw e => Throw e
  | Normal signature' =>
      let eip3009Payload :=
        {| from := from eip3009Payload;
           to := to eip3009Payload;
           value := value eip3009Payload;
           validAfter := validAfter eip3009Payload;
           validBefore := validBefore eip3009Payload;
           nonce := nonce eip3009Payload;
           signature := signature' |} in
      let paymentPayload :=
        {| x402Version := 1;
           payloadScheme := scheme requirement;
           payloadNetwork := network requirement;
           payload := eip3009Payload |} in
      Normal (encodeHeader paymentPayload)
  end.

Definition formatAmount (amount : string) : Completion string :=
  let decimals := 6%nat in
  match bigIntOfString amount with
  | Throw e => Throw e
  | Normal value =>
      let divisor := 10 ^ Z.of_nat decimals in
      let integerPart := Z.quot value divisor in
      let fractionalPart := Z.rem value divisor in
      Normal (bigIntToString integerPart +:+ "." +:+
              padStart decimals "0" (bigIntToString fractionalPart))%string
  end.

(** [new ethers.Wallet(privateKey)]: the wallet, or the error for a key that
    is not one. *)
Variable newWallet : string -> Completion Wallet.

(** [fetch(url, {headers})]: the response, or the network error. *)
Variable fetch : string -> option string -> Completion Response.

(** [SERVER_URL] *)
Variable serverUrl : string.

(** The requests [makeX402Request] sends, in order, and how it ends.  Every
    error thrown inside its [try] block ends in [process.exit(1)]. *)
Definition makeX402Request (now : Z) (randomByte : nat -> nat)
    (endpoint privateKey : string) : list Request * Exit :=
  match newWallet privateKey with
  | Throw _ => ([], Exited 1)
  | Normal wallet =>
      let url := (serverUrl +:+ endpoint)%string in
      match fetch url None with
      | Throw _ => ([Get url None], Exited 1)
      | Normal initialResponse =>
          if negb (status initialResponse =? 402) then
            match json initialResponse with
            | Throw _ => ([Get url None], Exited 1)
            | Normal _ => ([Get url None], Returned)
            end
          else
            match json initialResponse with
            | Throw _ => ([Get url None], Exited 1)
            | Normal BodyNull => ([Get url None], Exited 1)
            | Normal (BodyObject None) => ([Get url None], Exited 1)
            | Normal (BodyObject (Some [])) => ([Get url None], Exited 1)
            | Normal (BodyObject (Some (requirement :: _))) =>
                match formatAmount (maxAmountRequired requirement) with
                | Throw _ => ([Get url None], Exited 1)
                | Normal _ =>
                    match createPayment now randomByte wallet requirement with
                    | Throw _ => ([Get url None], Exited 1)
                    | Normal paymentHeader =>
                        let requests :=
                          [Get url None; Get url (Some paymentHeader)] in
                        match fetch url (Some paymentHeader) with
                        | Throw _ => (requests, Exited 1)
                        | Normal paidResponse =>
                            if negb (ok paidResponse) then (requests, Exited 1)
                            else
                              match json paidResponse with
                              | Throw _ => (requests, Exited 1)
                              | Normal BodyNull => (requests, Exited 1)
                              | Normal (BodyObject _) => (requests, Returned)
                              end
                        end
                    end
                end
            end
      end
  end.

End Client.

(** The payment [createPayment] encodes once [signature'] is the wallet's
    signature. *)
Definition createdPayment (now : Z) (randomByte : nat -> nat) (wallet : Wallet)
    (requirement : PaymentRequirement) (signature' : string) : PaymentPayload :=
  {| x402Version := 1;
     payloadScheme := scheme requirement;
     payloadNetwork := network requirement;
     payload :=
       {| from := address wallet;
          to := payTo requirement;
          value := maxAmountRequired requirement;
          validAfter := now - 60;
          validBefore := now + maxTimeoutSeconds requirement;
          nonce := orDefault (requirementNonce requirement) (randomNonce randomByte);
          signature := signature' |} |}.

End Client.

(** ** The worked payment, on the client's side

    The wallet that makes the example payment, a second wallet, and further
    headers, each again the base64 text of its JSON document. *)

Definition exampleWallet : Client.Wallet :=
  {| Client.address := "0xf39Fd6e51aad88F6F4ce6aB8827279cffFb92266";
     Client.privateKey :=
       "0x1111111111111111111111111111111111111111111111111111111111111111" |}.

Definition secondWallet : Client.Wallet :=
  {| Client.address := "0x70997970C51812dc3A010C7d01b50e0d17dc79C8";
     Client.privateKey :=
       "0x2222222222222222222222222222222222222222222222222222222222222222" |}.

(** Random bytes that are all 0xa1, which give [exampleNonce]. *)
Definition exampleRandomByte (i : nat) : nat := 161%nat.

(** The example requirement with a nonce chosen by the server. *)
Definition requirementWithNonce : PaymentRequirement :=
  {| scheme := scheme exampleRequirement;
     network := network exampleRequirement;
     maxAmountRequired := maxAmountRequired exampleRequirement;
     payTo := payTo exampleRequirement;
     asset := asset exampleRequirement;
     maxTimeoutSeconds := maxTimeoutSeconds exampleRequirement;
     extra := extra exampleRequirement;
     requirementNonce := Some exampleNonce |}.

Definition secondSignature : string :=
  "0x7e7e7e7e7e7e7e7e7e7e7e7e7e7e7e7e7e7e7e7e7e7e7e7e7e7e7e7e7e7e7e7e4f4f4f4f4f4f4f4f4f4f4f4f4f4f4f4f4f4f4f4f4f4f4f4f4f4f4f4f4f4f4f4f1c".

(** What the second wallet builds for [requirementWithNonce] when its clock
    reads 1700000100. *)
Definition secondPayment : PaymentPayload :=
  {| x402Version := 1;
     payloadScheme := "exact";
     payloadNetwork := "base-sepolia";
     payload :=
       {| from := "0x70997970C51812dc3A010C7d01b50e0d17dc79C8";
          to := "0x742d35Cc6634C0532925a3b844Bc454e4438f44e";
          value := "1000000";
          validAfter := 1700000040;
          validBefore := 1700000400;
          nonce := exampleNonce;
          signature := secondSignature |} |}.

Definition otherNonce : string :=
  "0xb2b2b2b2b2b2b2b2b2b2b2b2b2b2b2b2b2b2b2b2b2b2b2b2b2b2b2b2b2b2b2b2".

(** The example payment with another nonce. *)
Definition otherNoncePayment : PaymentPayload :=
  {| x402Version := 1;
     payloadScheme := "exact";
     payloadNetwork := "base-sepolia";
     payload :=
       {| from := from exampleAuthorization;
          to := to exampleAuthorization;
          value := value exampleAuthorization;
          validAfter := validAfter exampleAuthorization;
          validBefore := validBefore exampleAuthorization;
          nonce := otherNonce;
          signature := signature exampleAuthorization |} |}.

(** The example payment for the networks 'polygon' and 'ethereum'. *)
Definition polygonPayment : PaymentPayload :=
  withPayloadNetwork "polygon" examplePayment.

Definition ethereumPayment : PaymentPayload :=
  withPayloadNetwork "ethereum" examplePayment.

Definition polygonRequirement : PaymentRequirement :=
  withNetwork "polygon" exampleRequirement.

Definition secondHeader : string :=
  "eyJ4NDAyVmVyc2lvbiI6MSwic2NoZW1lIjoiZXhhY3QiLCJuZXR3b3JrIjoiYmFzZS1zZXBvbGlhIiwicGF5bG9hZCI6eyJmcm9tIjoiMHg3MDk5Nzk3MEM1MTgxMmRjM0EwMTBDN2QwMWI1MGUwZDE3ZGM3OUM4IiwidG8iOiIweDc0MmQzNUNjNjYzNEMwNTMyOTI1YTNiODQ0QmM0NTRlNDQzOGY0NGUiLCJ2YWx1ZSI6IjEwMDAwMDAiLCJ2YWxpZEFmdGVyIjoxNzAwMDAwMDQwLCJ2YWxpZEJlZm9yZSI6MTcwMDAwMDQwMCwibm9uY2UiOiIweGExYTFhMWExYTFhMWExYTFhMWExYTFhMWExYTFhMWExYTFhMWExYTFhMWExYTFhMWExYTFhMWExYTFhMWExYTEiLCJzaWduYXR1cmUiOiIweDdlN2U3ZTdlN2U3ZTdlN2U3ZTdlN2U3ZTdlN2U3ZTdlN2U3ZTdlN2U3ZTdlN2U3ZTdlN2U3ZTdlN2U3ZTdlN2U0ZjRmNGY0ZjRmNGY0ZjRmNGY0ZjRmNGY0ZjRmNGY0ZjRmNGY0ZjRmNGY0ZjRmNGY0ZjRmNGY0ZjRmNGY0ZjRmMWMifX0=".

Definition otherNonceHeader : string :=
  "eyJ4NDAyVmVyc2lvbiI6MSwic2NoZW1lIjoiZXhhY3QiLCJuZXR3b3JrIjoiYmFzZS1zZXBvbGlhIiwicGF5bG9hZCI6eyJmcm9tIjoiMHhmMzlGZDZlNTFhYWQ4OEY2RjRjZTZhQjg4MjcyNzljZmZGYjkyMjY2IiwidG8iOiIweDc0MmQzNUNjNjYzNEMwNTMyOTI1YTNiODQ0QmM0NTRlNDQzOGY0NGUiLCJ2YWx1ZSI6IjEwMDAwMDAiLCJ2YWxpZEFmdGVyIjoxNjk5OTk5OTQwLCJ2YWxpZEJlZm9yZSI6MTcwMDAwMDMwMCwibm9uY2UiOiIweGIyYjJiMmIyYjJiMmIyYjJiMmIyYjJiMmIyYjJiMmIyYjJiMmIyYjJiMmIyYjJiMmIyYjJiMmIyYjJiMmIyYjIiLCJzaWduYXR1cmUiOiIweDVjNWM1YzVjNWM1YzVjNWM1YzVjNWM1YzVjNWM1YzVjNWM1YzVjNWM1YzVjNWM1YzVjNWM1YzVjNWM1YzVjNWMzZDNkM2QzZDNkM2QzZDNkM2QzZDNkM2QzZDNkM2QzZDNkM2QzZDNkM2QzZDNkM2QzZDNkM2QzZDNkM2QzZDNkMWIifX0=".

Definition polygonHeader : string :=
  "eyJ4NDAyVmVyc2lvbiI6MSwic2NoZW1lIjoiZXhhY3QiLCJuZXR3b3JrIjoicG9seWdvbiIsInBheWxvYWQiOnsiZnJvbSI6IjB4ZjM5RmQ2ZTUxYWFkODhGNkY0Y2U2YUI4ODI3Mjc5Y2ZmRmI5MjI2NiIsInRvIjoiMHg3NDJkMzVDYzY2MzRDMDUzMjkyNWEzYjg0NEJjNDU0ZTQ0MzhmNDRlIiwidmFsdWUiOiIxMDAwMDAwIiwidmFsaWRBZnRlciI6MTY5OTk5OTk0MCwidmFsaWRCZWZvcmUiOjE3MDAwMDAzMDAsIm5vbmNlIjoiMHhhMWExYTFhMWExYTFhMWExYTFhMWExYTFhMWExYTFhMWExYTFhMWExYTFhMWExYTFhMWExYTFhMWExYTFhMWExIiwic2lnbmF0dXJlIjoiMHg1YzVjNWM1YzVjNWM1YzVjNWM1YzVjNWM1YzVjNWM1YzVjNWM1YzVjNWM1YzVjNWM1YzVjNWM1YzVjNWM1YzVjM2QzZDNkM2QzZDNkM2QzZDNkM2QzZDNkM2QzZDNkM2QzZDNkM2QzZDNkM2QzZDNkM2QzZDNkM2QzZDNkM2QzZDFiIn19".

Definition ethereumHeader : string :=
  "eyJ4NDAyVmVyc2lvbiI6MSwic2NoZW1lIjoiZXhhY3QiLCJuZXR3b3JrIjoiZXRoZXJldW0iLCJwYXlsb2FkIjp7ImZyb20iOiIweGYzOUZkNmU1MWFhZDg4RjZGNGNlNmFCODgyNzI3OWNmZkZiOTIyNjYiLCJ0byI6IjB4NzQyZDM1Q2M2NjM0QzA1MzI5MjVhM2I4NDRCYzQ1NGU0NDM4ZjQ0ZSIsInZhbHVlIjoiMTAwMDAwMCIsInZhbGlkQWZ0ZXIiOjE2OTk5OTk5NDAsInZhbGlkQmVmb3JlIjoxNzAwMDAwMzAwLCJub25jZSI6IjB4YTFhMWExYTFhMWExYTFhMWExYTFhMWExYTFhMWExYTFhMWExYTFhMWExYTFhMWExYTFhMWExYTFhMWExYTFhMSIsInNpZ25hdHVyZSI6IjB4NWM1YzVjNWM1YzVjNWM1YzVjNWM1YzVjNWM1YzVjNWM1YzVjNWM1YzVjNWM1YzVjNWM1YzVjNWM1YzVjNWM1YzNkM2QzZDNkM2QzZDNkM2QzZDNkM2QzZDNkM2QzZDNkM2QzZDNkM2QzZDNkM2QzZDNkM2QzZDNkM2QzZDNkM2QxYiJ9fQ==".

Definition payloadEqb (p q : EIP3009Payload) : bool :=
  String.eqb (from p) (from q) && String.eqb (to p) (to q)
  && String.eqb (value p) (value q) && (validAfter p =? validAfter q)
  && (validBefore p =? validBefore q) && String.eqb (nonce p) (nonce q)
  && String.eqb (signature p) (signature q).

Definition paymentEqb (p q : PaymentPayload) : bool :=
  (x402Version p =? x402Version q)
  && String.eqb (payloadScheme p) (payloadScheme q)
  && String.eqb (payloadNetwork p) (payloadNetwork q)
  && payloadEqb (payload p) (payload q).

(** An encoder and a decoder that know the example payment and the four
    payments above. *)
Definition clientEncodeHeader (p : PaymentPayload) : string :=
  if paymentEqb p examplePayment then exampleHeader
  else if paymentEqb p secondPayment then secondHeader
  else if paymentEqb p otherNoncePayment then otherNonceHeader
  else if paymentEqb p polygonPayment then polygonHeader
  else if paymentEqb p ethereumPayment then ethereumHeader
  else "".

Definition clientDecodeHeader (paymentHeader : string) : Completion PaymentPayload :=
  if String.eqb paymentHeader exampleHeader then Normal examplePayment
  else if String.eqb paymentHeader secondHeader then Normal secondPayment
  else if String.eqb paymentHeader otherNonceHeader then Normal otherNoncePayment
  else if String.eqb paymentHeader polygonHeader then Normal polygonPayment
  else if String.eqb paymentHeader ethereumHeader then Normal ethereumPayment
  else Throw "Unexpected end of JSON input".

(** A stand-in for signing: each of the two wallets answers with its
    signature text, any other wallet is refused. *)
Definition exampleSignTypedData (wallet : Client.Wallet) (domain : Domain)
    (message : Message) : Completion string :=
  if String.eqb (Client.address wallet) (Client.address exampleWallet)
  then Normal exampleSignature
  else if String.eqb (Client.address wallet) (Client.address secondWallet)
  then Normal secondSignature
  else Throw "invalid private key".

(** A stand-in for [BigInt(amount)] that reads decimal numerals, with or
    without a minus sign, and the empty text as 0. *)
Definition exampleBigIntOfString (amount : string) : Completion Z :=
  match amount with
  | EmptyString => Normal 0
  | String "-" digits =>
      if isDigits digits then Normal (- decimalValue digits)
      else Throw "Cannot convert to a BigInt"
  | _ =>
      if isDigits amount then Normal (decimalValue amount)
      else Throw "Cannot convert to a BigInt"
  end.

(** ** The class over JavaScript values

    The annotation [: PaymentPayload] on the result of [JSON.parse] is erased
    when the class is compiled: at run time the header may hold any JSON
    document.  The module below embeds the same three methods over the
    values [JSON.parse] can return, so that a header whose JSON lacks fields,
    or holds fields of another type, has an image; the requirement comes
    from the server's own configuration and keeps its declared type. *)

Module Js.

(** A number of JavaScript that [JSON.parse] can return: a double is a
    rational number, and a numeral too large to be one reads as an infinity.
    [NaN] is not among them. *)
Inductive Number :=
| Finite (q : QArith_base.Q)
| PlusInfinity
| MinusInfinity.

(** A value obtained from a parsed document: the document itself, one of its
    parts, or [undefined] where a property is read that is not there. *)
#[warnings="-register-all"]
Inductive Value :=
| Undefined
| Null
| Boolean (b : bool)
| Num (n : Number)
| Text (s : string)
| Array (items : list Value)
| Object (fields : list (string * Value)).

Definition ofInteger (z : Z) : Number := Finite (QArith_base.inject_Z z).

(** [a === b] on numbers. *)
Definition numberEqb (a b : Number) : bool :=
  match a, b with
  | Finite p, Finite q => QArith_base.Qeq_bool p q
  | PlusInfinity, PlusInfinity => true
  | MinusInfinity, MinusInfinity => true
  | _, _ => false
  end.

(** [a < b] on numbers. *)
Definition numberLtb (a b : Number) : bool :=
  match a, b with
  | Finite p, Finite q => negb (QArith_base.Qle_bool q p)
  | MinusInfinity, Finite _ => true
  | MinusInfinity, PlusInfinity => true
  | Finite _, PlusInfinity => true
  | _, _ => false
  end.

(** [v === s] for a string [s]: strict equality converts nothing. *)
Definition strictEqualsText (v : Value) (s : string) : bool :=
  match v with
  | Text t => String.eqb t s
  | _ => false
  end.

(** [v === z] for an integer [z]. *)
Definition strictEqualsInteger (v : Value) (z : Z) : bool :=
  match v with
  | Num n => numberEqb n (ofInteger z)
  | _ => false
  end.

(** The own property [name] of an object that [JSON.parse] built. *)
Fixpoint ownField (fields : list (string * Value)) (name : string) : option Value :=
  match fields with
  | [] => None
  | (k, v) :: rest => if String.eqb k name then Some v else ownField rest name
  end.

(** The equality of [Set.prototype.has] and [add] (SameValueZero).  Arrays
    and objects are compared by identity, and every call of [JSON.parse]
    builds new ones: one that was read from a header is never the one that
    an earlier call put in the set. *)
Definition sameValueZero (a b : Value) : bool :=
  match a, b with
  | Undefined, Undefined => true
  | Null, Null => true
  | Boolean x, Boolean y => Bool.eqb x y
  | Num x, Num y => numberEqb x y
  | Text x, Text y => String.eqb x y
  | _, _ => false
  end.

(** The instance state as it is at run time: [Set.prototype.add] takes any
    value.  The list holds the members in the order they were added. *)
Record Facilitator := {
  usedNonces : list Value
}.

Definition newFacilitator : Facilitator := {| usedNonces := [] |}.

(** A [SettleResponse] at run time: [networkId] is whatever the header gave
    for [network]. *)
Record SettleResponse := {
  success : bool;
  txHash : option string;
  networkId : option Value;
  error : option string
}.

Definition failure (reason : string) : SettleResponse :=
  {| success := false; txHash := None; networkId := None; error := Some reason |}.

(** The [message] argument of [ethers.verifyTypedData] at run time. *)
Record Message := {
  messageFrom : Value;
  messageTo : Value;
  messageValue : Value;
  messageValidAfter : Value;
  messageValidBefore : Value;
  messageNonce : Value
}.

Definition M (A : Type) : Type := Facilitator -> Completion A * Facilitator.

Definition ret {A} (a : A) : M A := fun s => (Normal a, s).

Definition bind {A B} (m : M A) (k : A -> M B) : M B :=
  fun s =>
    match m s with
    | (Normal a, s') => k a s'
    | (Throw message, s') => (Throw message, s')
    end.

Definition tryCatch {A} (body : M A) (handler : string -> M A) : M A :=
  fun s =>
    match body s with
    | (Normal a, s') => (Normal a, s')
    | (Throw message, s') => handler message s'
    end.

Definition liftCompletion {A} (c : Completion A) : M A := fun s => (c, s).

(** [this.usedNonces.has(v)] *)
Definition hasNonce (v : Value) : M bool :=
  fun s => (Normal (existsb (sameValueZero v) (usedNonces s)), s).

(** [this.usedNonces.add(v)] *)
Definition addNonce (v : Value) : M unit :=
  fun s =>
    (Normal tt,
     {| usedNonces :=
          if existsb (sameValueZero v) (usedNonces s) then usedNonces s
          else usedNonces s ++ [v] |}).

Declare Scope js_scope.
Local Notation "x <- c1 ;; c2" := (bind c1 (fun x => c2))
  (at level 100, c1 at next level, right associativity) : js_scope.
Local Open Scope js_scope.

Section Js.

(** [JSON.parse(Buffer.from(paymentHeader, 'base64').toString('utf-8'))]:
    the document the header holds, or the message of the [SyntaxError]. *)
Variable parseHeader : string -> Completion Value.

(** [ethers.verifyTypedData(domain, types, message, signature)] on whatever
    the header gave for the fields and the signature: the recovered address,
    or the message of the error it throws. *)
Variable verifyTypedData : Domain -> Message -> Value -> Completion string.

(** The conversion of a string to a number (StringToNumber of ECMAScript);
    [None] stands for [NaN]. *)
Variable textToNumber : string -> option Number.

(** [Array.prototype.toString] on an array of the document: the text of its
    elements joined by commas, or the message of the [TypeError] thrown when
    an element cannot be converted. *)
Variable arrayToString : list Value -> Completion string.

(** The messages of the engine's [TypeError]s: reading a property of
    [undefined] or [null], calling what is not a function (the message
    quotes the expression called), converting an object that has no usable
    [toString]. *)
Variable cannotRead : Value -> string -> string.
Variable notAFunction : string -> string.
Variable cannotConvert : string.

(** [v.name] for the names the class reads, none of which is defined on a
    prototype: an own property of an object, [undefined] on any other value
    that has properties, a [TypeError] on [undefined] and [null]. *)
Definition getProperty (v : Value) (name : string) : Completion Value :=
  match v with
  | Undefined | Null => Throw (cannotRead v name)
  | Object fields =>
      match ownField fields name with
      | Some w => Normal w
      | None => Normal Undefined
      end
  | _ => Normal Undefined
  end.

(** [v.toLowerCase()], written [expression] in the source: only a string has
    the method; an object of the document that has a property of that name
    holds no function there. *)
Definition callToLowerCase (v : Value) (expression : string) : Completion string :=
  match v with
  | Text s => Normal (toLowerCase s)
  | Undefined | Null => Throw (cannotRead v "toLowerCase")
  | _ => Throw (notAFunction expression)
  end.

(** [ToNumber(ToPrimitive(v))]; [None] stands for [NaN].  An object of the
    document inherits [toString], which gives '[object Object]', unless it
    has a property of that name of its own, which is no function. *)
Definition toNumber (v : Value) : Completion (option Number) :=
  match v with
  | Undefined => Normal None
  | Null => Normal (Some (ofInteger 0))
  | Boolean b => Normal (Some (ofInteger (if b then 1 else 0)))
  | Num n => Normal (Some n)
  | Text s => Normal (textToNumber s)
  | Array items =>
      match arrayToString items with
      | Normal s => Normal (textToNumber s)
      | Throw message => Throw message
      end
  | Object fields =>
      match ownField fields "toString" with
      | Some _ => Throw cannotConvert
      | None => Normal None
      end
  end.

(** [v < now], where [now] is an integer: a comparison with [NaN] is
    false. *)
Definition lessThan (v : Value) (now : Z) : Completion bool :=
  match toNumber v with
  | Normal (Some n) => Normal (numberLtb n (ofInteger now))
  | Normal None => Normal false
  | Throw message => Throw message
  end.

(** The conversion of [${v}] in a template literal, for what it can throw. *)
Definition templateText (v : Value) : Completion unit :=
  match v with
  | Array items =>
      match arrayToString items with
      | Normal _ => Normal tt
      | Throw message => Throw message
      end
  | Object fields =>
      match ownField fields "toString" with
      | Some _ => Throw cannotConvert
      | None => Normal tt
      end
  | _ => Normal tt
  end.

Definition eip712Domain (requirements : PaymentRequirement) : Domain :=
  {| domainName := orDefault (e ← extra requirements; extraName e) "USD Coin";
     domainVersion := orDefault (e ← extra requirements; extraVersion e) "2";
     chainId := getChainId (network requirements);
     verifyingContract := asset requirements |}.

Definition verifyEIP3009Signature
    (payload : Value) (requirements : PaymentRequirement) : M bool :=
  tryCatch
    (let domain := eip712Domain requirements in
     from <- liftCompletion (getProperty payload "from") ;;
     to <- liftCompletion (getProperty payload "to") ;;
     value <- liftCompletion (getProperty payload "value") ;;
     validAfter <- liftCompletion (getProperty payload "validAfter") ;;
     validBefore <- liftCompletion (getProperty payload "validBefore") ;;
     nonce <- liftCompletion (getProperty payload "nonce") ;;
     let message :=
       {| messageFrom := from;
          messageTo := to;
          messageValue := value;
          messageValidAfter := validAfter;
          messageValidBefore := validBefore;
          messageNonce := nonce |} in
     signature <- liftCompletion (getProperty payload "signature") ;;
     recoveredAddress <-
       liftCompletion (verifyTypedData domain message signature) ;;
     fromLower <-
       liftCompletion (callToLowerCase from "payload.from.toLowerCase") ;;
     ret (String.eqb (toLowerCase recoveredAddress) fromLower))
    (fun _ => ret false).

(** [network] is read next to [scheme]; the source reads it only when the
    schemes agree, and reading it changes nothing. *)
Definition verify (now : Z) (paymentHeader : string)
    (paymentRequirements : PaymentRequirement) : M VerifyResponse :=
  tryCatch
    (paymentPayload <- liftCompletion (parseHeader paymentHeader) ;;
     x402Version <- liftCompletion (getProperty paymentPayload "x402Version") ;;
     if negb (strictEqualsInteger x402Version 1) then
       ret (invalid "Unsupported x402 version")
     else
       scheme' <- liftCompletion (getProperty paymentPayload "scheme") ;;
       network' <- liftCompletion (getProperty paymentPayload "network") ;;
       if negb (strictEqualsText scheme' (scheme paymentRequirements))
          || negb (strictEqualsText network' (network paymentRequirements)) then
         ret (invalid "Scheme or network mismatch")
       else if strictEqualsText scheme' "exact" then
         eip3009Payload <- liftCompletion (getProperty paymentPayload "payload") ;;
         nonce <- liftCompletion (getProperty eip3009Payload "nonce") ;;
         used <- hasNonce nonce ;;
         if used then
           ret (invalid "Nonce already used")
         else
           value <- liftCompletion (getProperty eip3009Payload "value") ;;
           if negb (strictEqualsText value
                                     (maxAmountRequired paymentRequirements)) then
             ret (invalid "Payment amount mismatch")
           else
             to <- liftCompletion (getProperty eip3009Payload "to") ;;
             toLower <-
               liftCompletion
                 (callToLowerCase to "eip3009Payload.to.toLowerCase") ;;
             if negb (String.eqb toLower
                                 (toLowerCase (payTo paymentRequirements))) then
               ret (invalid "Payment recipient mismatch")
             else
               validBefore <-
                 liftCompletion (getProperty eip3009Payload "validBefore") ;;
               isExpired <- liftCompletion (lessThan validBefore now) ;;
               if isExpired then
                 ret (invalid "Payment expired")
               else
                 isValidSignature <-
                   verifyEIP3009Signature eip3009Payload paymentRequirements ;;
                 if negb isValidSignature then
                   ret (invalid "Invalid signature")
                 else
                   ret valid
       else
         ret (invalid "Unsupported payment scheme"))
    (fun message => ret (invalid ("Verification failed: " +:+ message))).

(** The part of [settle] after [await this.verify(...)].  The five
    [console.log] lines convert what they print, which can throw. *)
Definition settleAfterVerify (random16 : nat -> nat) (paymentHeader : string)
    (verification : VerifyResponse) : M SettleResponse :=
  if negb (isValid verification) then
    ret (failure (orDefault (invalidReason verification)
                            "Payment verification failed"))
  else
    tryCatch
      (paymentPayload <- liftCompletion (parseHeader paymentHeader) ;;
       eip3009Payload <- liftCompletion (getProperty paymentPayload "payload") ;;
       nonce <- liftCompletion (getProperty eip3009Payload "nonce") ;;
       _ <- addNonce nonce ;;
       let fakeTx := fakeTxHash random16 in
       network' <- liftCompletion (getProperty paymentPayload "network") ;;
       _ <- liftCompletion (templateText network') ;;
       value <- liftCompletion (getProperty eip3009Payload "value") ;;
       _ <- liftCompletion (templateText value) ;;
       from <- liftCompletion (getProperty eip3009Payload "from") ;;
       _ <- liftCompletion (templateText from) ;;
       to <- liftCompletion (getProperty eip3009Payload "to") ;;
       _ <- liftCompletion (templateText to) ;;
       ret {| success := true;
              txHash := Some fakeTx;
              networkId := Some network';
              error := None |})
      (fun message => ret (failure ("Settlement failed: " +:+ message))).

Definition settle (random16 : nat -> nat) (now : Z) (paymentHeader : string)
    (paymentRequirements : PaymentRequirement) : M SettleResponse :=
  verification <- verify now paymentHeader paymentRequirements ;;
  settleAfterVerify random16 paymentHeader verification.

End Js.

End Js.

(** ** Declared types and run-time values *)

(** The document of an authorization of the declared type, as [JSON.parse]
    returns it. *)
Definition ofAuthorization (p : EIP3009Payload) : Js.Value :=
  Js.Object [ ("from", Js.Text (from p));
              ("to", Js.Text (to p));
              ("value", Js.Text (value p));
              ("validAfter", Js.Num (Js.ofInteger (validAfter p)));
              ("validBefore", Js.Num (Js.ofInteger (validBefore p)));
              ("nonce", Js.Text (nonce p));
              ("signature", Js.Text (signature p)) ]%string.

Definition ofPayment (pp : PaymentPayload) : Js.Value :=
  Js.Object [ ("x402Version", Js.Num (Js.ofInteger (x402Version pp)));
              ("scheme", Js.Text (payloadScheme pp));
              ("network", Js.Text (payloadNetwork pp));
              ("payload", ofAuthorization (payload pp)) ]%string.

(** The message of the declared type, as the class passes it at run time. *)
Definition ofMessage (m : Message) : Js.Message :=
  {| Js.messageFrom := Js.Text (messageFrom m);
     Js.messageTo := Js.Text (messageTo m);
     Js.messageValue := Js.Text (messageValue m);
     Js.messageValidAfter := Js.Num (Js.ofInteger (messageValidAfter m));
     Js.messageValidBefore := Js.Num (Js.ofInteger (messageValidBefore m));
     Js.messageNonce := Js.Text (messageNonce m) |}.

Definition ofSettleResponse (r : SettleResponse) : Js.SettleResponse :=
  {| Js.success := success r;
     Js.txHash := txHash r;
     Js.networkId := option_map Js.Text (networkId r);
     Js.error := error r |}.

(** A set of the declared type and a set at run time hold the same
    strings, and the latter nothing else. *)
Definition sameNonces (s : Facilitator) (js : Js.Facilitator) : Prop :=
  forall v, In v (Js.usedNonces js) <-> exists n, v = Js.Text n /\ n ∈ usedNonces s.

(** On this header the decoder at declared types gives what the parser
    gives: the document read at type [PaymentPayload], or the parser's
    error. *)
Definition readsAtDeclaredType
    (decodeHeader : string -> Completion PaymentPayload)
    (parseHeader : string -> Completion Js.Value)
    (paymentHeader : string) : Prop :=
  (forall pp,
     decodeHeader paymentHeader = Normal pp ->
     parseHeader paymentHeader = Normal (ofPayment pp))
  /\ (forall message,
        decodeHeader paymentHeader = Throw message ->
        parseHeader paymentHeader = Throw message).

(** Signature recovery at declared types is recovery at run time, on a
    message and a signature of the declared types. *)
Definition recoversAtDeclaredTypes
    (verifyTypedData : Domain -> Message -> string -> Completion string)
    (verifyTypedDataJs : Domain -> Js.Message -> Js.Value -> Completion string)
    : Prop :=
  forall domain message sig,
    verifyTypedDataJs domain (ofMessage message) (Js.Text sig)
    = verifyTypedData domain message sig.

(** ** Headers that lack fields *)

(** The header of the document [{}]. *)
Definition emptyObjectHeader : string := "e30=".

(** The header of the document [null]. *)
Definition nullHeader : string := "bnVsbA==".

(** The header of [{x402Version: 1, scheme: 'exact', network:
    'base-sepolia'}]: no [payload]. *)
Definition noPayloadHeader : string :=
  "eyJ4NDAyVmVyc2lvbiI6MSwic2NoZW1lIjoiZXhhY3QiLCJuZXR3b3JrIjoiYmFzZS1zZXBvbGlhIn0=".

Definition noPayloadDocument : Js.Value :=
  Js.Object [ ("x402Version", Js.Num (Js.ofInteger 1));
              ("scheme", Js.Text "exact");
              ("network", Js.Text "base-sepolia") ]%string.

(** The header of [{x402Version: 1, scheme: 'exact', network:
    'base-sepolia', payload: {nonce, value: '1000000'}}], with the nonce of
    the example: an authorization with no [to] and nothing after it. *)
Definition noRecipientHeader : string :=
  "eyJ4NDAyVmVyc2lvbiI6MSwic2NoZW1lIjoiZXhhY3QiLCJuZXR3b3JrIjoiYmFzZS1zZXBvbGlhIiwicGF5bG9hZCI6eyJub25jZSI6IjB4YTFhMWExYTFhMWExYTFhMWExYTFhMWExYTFhMWExYTFhMWExYTFhMWExYTFhMWExYTFhMWExYTFhMWExYTFhMSIsInZhbHVlIjoiMTAwMDAwMCJ9fQ==".

Definition noRecipientDocument : Js.Value :=
  Js.Object [ ("x402Version", Js.Num (Js.ofInteger 1));
              ("scheme", Js.Text "exact");
              ("network", Js.Text "base-sepolia");
              ("payload", Js.Object [ ("nonce", Js.Text exampleNonce);
                                      ("value", Js.Text "1000000") ]) ]%string.

(** A parser that knows the four headers above and the headers of
    [exampleDecodeHeader]; on any other it throws what that one throws. *)
Definition exampleParseHeader (paymentHeader : string) : Completion Js.Value :=
  if String.eqb paymentHeader emptyObjectHeader then Normal (Js.Object [])
  else if String.eqb paymentHeader nullHeader then Normal Js.Null
  else if String.eqb paymentHeader noPayloadHeader then Normal noPayloadDocument
  else if String.eqb paymentHeader noRecipientHeader then Normal noRecipientDocument
  else
    match exampleDecodeHeader paymentHeader with
    | Normal pp => Normal (ofPayment pp)
    | Throw message => Throw message
    end.

(** The integer a value is, if it is one. *)
Definition asInteger (v : Js.Value) : option Z :=
  match v with
  | Js.Num (Js.Finite q) =>
      if Pos.eqb (QArith_base.Qden q) 1 then Some (QArith_base.Qnum q) else None
  | _ => None
  end.

Definition asText (v : Js.Value) : option string :=
  match v with
  | Js.Text s => Some s
  | _ => None
  end.

(** The message of the declared type that a run-time message is, if every
    field has the type declared for it. *)
Definition asMessage (message : Js.Message) : option Message :=
  messageFrom' ← asText (Js.messageFrom message);
  messageTo' ← asText (Js.messageTo message);
  messageValue' ← asText (Js.messageValue message);
  messageValidAfter' ← asInteger (Js.messageValidAfter message);
  messageValidBefore' ← asInteger (Js.messageValidBefore message);
  messageNonce' ← asText (Js.messageNonce message);
  Some {| messageFrom := messageFrom';
          messageTo := messageTo';
          messageValue := messageValue';
          messageValidAfter := messageValidAfter';
          messageValidBefore := messageValidBefore';
          messageNonce := messageNonce' |}.

(** The stand-in for signature recovery of the examples, at run time: it
    refuses a message or a signature that is not of the declared type. *)
Definition exampleVerifyTypedDataJs (domain : Domain) (message : Js.Message)
    (sig : Js.Value) : Completion string :=
  match asMessage message, asText sig with
  | Some message', Some sig' => exampleVerifyTypedData domain message' sig'
  | _, _ => Throw "invalid argument"
  end.

(** A stand-in for the conversion of a string to a number that reads
    decimal numerals, the empty text as 0, and any other text as [NaN]. *)
Definition exampleTextToNumber (s : string) : option Js.Number :=
  if String.eqb s "" then Some (Js.ofInteger 0)
  else if isDigits s then Some (Js.ofInteger (decimalValue s))
  else None.

(** The messages of V8, the engine of Node.js. *)
Definition exampleCannotRead (v : Js.Value) (name : string) : string :=
  "Cannot read properties of "
  +:+ match v with Js.Null => "null" | _ => "undefined" end
  +:+ " (reading '" +:+ name +:+ "')".

Definition exampleNotAFunction (expression : string) : string :=
  expression +:+ " is not a function".

Definition exampleCannotConvert : string :=
  "Cannot convert object to primitive value".

(** A stand-in for [Array.prototype.toString] that knows the empty array
    and an array of one text; any other array is answered as one with an
    element that cannot be converted. *)
Definition exampleArrayToString (items : list Js.Value) : Completion string :=
  match items with
  | [] => Normal ""
  | [Js.Text s] => Normal s
  | _ => Throw exampleCannotConvert
  end.


(** ** The methods of the class *)

Section Facilitator.

(** [JSON.parse(Buffer.from(paymentHeader, 'base64').toString('utf-8'))],
    read at type [PaymentPayload]; [Throw] carries the [SyntaxError]'s
    message. *)
Variable decodeHeader : string -> Completion PaymentPayload.

(** [ethers.verifyTypedData(domain, types, message, signature)] for the
    fixed [TransferWithAuthorization] type: the recovered address, or the
    error it throws. *)
Variable verifyTypedData : Domain -> Message -> string -> Completion string.

Definition eip712Domain (requirements : PaymentRequirement) : Domain :=
  {| domainName := orDefault (e ← extra requirements; extraName e) "USD Coin";
     domainVersion := orDefault (e ← extra requirements; extraVersion e) "2";
     chainId := getChainId (network requirements);
     verifyingContract := asset requirements |}.

Definition eip3009Message (p : EIP3009Payload) : Message :=
  {| messageFrom := from p;
     messageTo := to p;
     messageValue := value p;
     messageValidAfter := validAfter p;
     messageValidBefore := validBefore p;
     messageNonce := nonce p |}.

Definition verifyEIP3009Signature
    (p : EIP3009Payload) (requirements : PaymentRequirement) : M bool :=
  tryCatch
    (let domain := eip712Domain requirements in
     let message := eip3009Message p in
     recoveredAddress <-
       liftCompletion (verifyTypedData domain message (signature p)) ;;
     ret (String.eqb (toLowerCase recoveredAddress) (toLowerCase (from p))))
    (fun _ => ret false).

Definition verify (now : Z) (paymentHeader : string)
    (paymentRequirements : PaymentRequirement) : M VerifyResponse :=
  tryCatch
    (paymentPayload <- liftCompletion (decodeHeader paymentHeader) ;;
     if negb (x402Version paymentPayload =? 1) then
       ret (invalid "Unsupported x402 version")
     else if negb (String.eqb (payloadScheme paymentPayload)
                              (scheme paymentRequirements))
             || negb (String.eqb (payloadNetwork paymentPayload)
                                 (network paymentRequirements)) then
       ret (invalid "Scheme or network mismatch")
     else if String.eqb (payloadScheme paymentPayload) "exact" then
       let eip3009Payload := payload paymentPayload in
       used <- hasNonce (nonce eip3009Payload) ;;
       if used then
         ret (invalid "Nonce already used")
       else if negb (String.eqb (value eip3009Payload)
                                (maxAmountRequired paymentRequirements)) then
         ret (invalid "Payment amount mismatch")
       else if negb (String.eqb (toLowerCase (to eip3009Payload))
                                (toLowerCase (payTo paymentRequirements))) then
         ret (invalid "Payment recipient mismatch")
       else if validBefore eip3009Payload <? now then
         ret (invalid "Payment expired")
       else
         isValidSignature <-
           verifyEIP3009Signature eip3009Payload paymentRequirements ;;
         if negb isValidSignature then
           ret (invalid "Invalid signature")
         else
           ret valid
     else
       ret (invalid "Unsupported payment scheme"))
    (fun message => ret (invalid ("Verification failed: " +:+ message))).

(** The part of [settle] after [await this.verify(...)]. *)
Definition settleAfterVerify (random16 : nat -> nat) (paymentHeader : string)
    (verification : VerifyResponse) : M SettleResponse :=
  if negb (isValid verification) then
    ret (failure (orDefault (invalidReason verification)
                            "Payment verification failed"))
  else
    tryCatch
      (paymentPayload <- liftCompletion (decodeHeader paymentHeader) ;;
       let eip3009Payload := payload paymentPayload in
       _ <- addNonce (nonce eip3009Payload) ;;
       let fakeTx := fakeTxHash random16 in
       ret {| success := true;
              txHash := Some fakeTx;
              networkId := Some (payloadNetwork paymentPayload);
              error := None |})
      (fun message => ret (failure ("Settlement failed: " +:+ message))).

Definition settle (random16 : nat -> nat) (now : Z) (paymentHeader : string)
    (paymentRequirements : PaymentRequirement) : M SettleResponse :=
  verification <- verify now paymentHeader paymentRequirements ;;
  settleAfterVerify random16 paymentHeader verification.


(** ** The two calls as the event loop runs them

    Both methods are [async]: the code between two [await]s runs without
    interruption, and another call may run between them.  [verify] has one
    [await] (on the signature check, whose body has none and therefore runs
    when it is called), [settle] has one (on [verify]). *)

(** Where [verify] stands when its first synchronous part ends. *)
Inductive VerifyProgress :=
| VerifyReturned (response : VerifyResponse)
| VerifyAwaiting (isValidSignature : bool).

(** [verify] up to [await this.verifyEIP3009Signature(...)]. *)
Definition verifyUntilAwait (now : Z) (paymentHeader : string)
    (paymentRequirements : PaymentRequirement) : M VerifyProgress :=
  tryCatch
    (paymentPayload <- liftCompletion (decodeHeader paymentHeader) ;;
     if negb (x402Version paymentPayload =? 1) then
       ret (VerifyReturned (invalid "Unsupported x402 version"))
     else if negb (String.eqb (payloadScheme paymentPayload)
                              (scheme paymentRequirements))
             || negb (String.eqb (payloadNetwork paymentPayload)
                                 (network paymentRequirements)) then
       ret (VerifyReturned (invalid "Scheme or network mismatch"))
     else if String.eqb (payloadScheme paymentPayload) "exact" then
       let eip3009Payload := payload paymentPayload in
       used <- hasNonce (nonce eip3009Payload) ;;
       if used then
         ret (VerifyReturned (invalid "Nonce already used"))
       else if negb (String.eqb (value eip3009Payload)
                                (maxAmountRequired paymentRequirements)) then
         ret (VerifyReturned (invalid "Payment amount mismatch"))
       else if negb (String.eqb (toLowerCase (to eip3009Payload))
                                (toLowerCase (payTo paymentRequirements))) then
         ret (VerifyReturned (invalid "Payment recipient mismatch"))
       else if validBefore eip3009Payload <? now then
         ret (VerifyReturned (invalid "Payment expired"))
       else
         isValidSignature <-
           verifyEIP3009Signature eip3009Payload paymentRequirements ;;
         ret (VerifyAwaiting isValidSignature)
     else
       ret (VerifyReturned (invalid "Unsupported payment scheme")))
    (fun message =>
       ret (VerifyReturned (invalid ("Verification failed: " +:+ message)))).

(** [verify] from the [await] to its [return]. *)
Definition verifyAfterAwait (isValidSignature : bool) : M VerifyResponse :=
  if negb isValidSignature then
    ret (invalid "Invalid signature")
  else
    ret valid.

(** One call of [settle] in flight. *)
Inductive SettleCall :=
| Invoked (random16 : nat -> nat) (now : Z) (paymentHeader : string)
    (paymentRequirements : PaymentRequirement)
| AwaitingSignature (random16 : nat -> nat) (paymentHeader : string)
    (isValidSignature : bool)
| AwaitingVerify (random16 : nat -> nat) (paymentHeader : string)
    (verification : VerifyResponse)
| Settled (response : SettleResponse)
| Rejected (message : string).

(** Runs a call up to its next [await] or to its end. *)
Definition stepCall (c : SettleCall) (s : Facilitator) : SettleCall * Facilitator :=
  match c with
  | Invoked random16 now paymentHeader paymentRequirements =>
      match verifyUntilAwait now paymentHeader paymentRequirements s with
      | (Normal (VerifyReturned response), s') =>
          (AwaitingVerify random16 paymentHeader response, s')
      | (Normal (VerifyAwaiting isValidSignature), s') =>
          (AwaitingSignature random16 paymentHeader isValidSignature, s')
      | (Throw message, s') => (Rejected message, s')
      end
  | AwaitingSignature random16 paymentHeader isValidSignature =>
      match verifyAfterAwait isValidSignature s with
      | (Normal response, s') => (AwaitingVerify random16 paymentHeader response, s')
      | (Throw message, s') => (Rejected message, s')
      end
  | AwaitingVerify random16 paymentHeader verification =>
      match settleAfterVerify random16 paymentHeader verification s with
      | (Normal response, s') => (Settled response, s')
      | (Throw message, s') => (Rejected message, s')
      end
  | Settled response => (Settled response, s)
  | Rejected message => (Rejected message, s)
  end.

(** The calls in flight and the shared instance. *)
Definition Pool : Type := list SettleCall * Facilitator.

(** The event loop resumes call number [i]. *)
Definition resume (i : nat) (p : Pool) : Pool :=
  match fst p !! i with
  | Some c => let (c', s') := stepCall c (snd p) in (<[ i := c' ]> (fst p), s')
  | None => p
  end.

Definition runSchedule (schedule : list nat) (p : Pool) : Pool :=
  fold_left (fun p i => resume i p) schedule p.

(** ** Sequences of calls, one after the other *)

Inductive Call :=
| CallVerify (now : Z) (paymentHeader : string)
    (paymentRequirements : PaymentRequirement)
| CallSettle (random16 : nat -> nat) (now : Z) (paymentHeader : string)
    (paymentRequirements : PaymentRequirement).

Definition runCall (c : Call) (s : Facilitator) : Facilitator :=
  match c with
  | CallVerify now paymentHeader paymentRequirements =>
      snd (verify now paymentHeader paymentRequirements s)
  | CallSettle random16 now paymentHeader paymentRequirements =>
      snd (settle random16 now paymentHeader paymentRequirements s)
  end.

Definition runCalls (calls : list Call) (s : Facilitator) : Facilitator :=
  fold_left (fun s c => runCall c s) calls s.

(** ** The checks of [verify], listed *)

(** The outcome of the signature check: [verifyTypedData] returned an address
    that equals [from] up to letter case. *)
Definition signatureRecovers (p : EIP3009Payload)
    (requirements : PaymentRequirement) : bool :=
  match verifyTypedData (eip712Domain requirements) (eip3009Message p)
                        (signature p) with
  | Normal recoveredAddress =>
      String.eqb (toLowerCase recoveredAddress) (toLowerCase (from p))
  | Throw _ => false
  end.

(** The checks that follow decoding, each with the reason it reports, in the
    order in which the body of [verify] makes them. *)
Definition checksInOrder (s : Facilitator) (now : Z) (pp : PaymentPayload)
    (requirements : PaymentRequirement) : list (bool * string) :=
  [ (negb (x402Version pp =? 1), "Unsupported x402 version"%string);
    (negb (String.eqb (payloadScheme pp) (scheme requirements))
     || negb (String.eqb (payloadNetwork pp) (network requirements)),
     "Scheme or network mismatch"%string);
    (negb (String.eqb (payloadScheme pp) "exact"),
     "Unsupported payment scheme"%string);
    (bool_decide (nonce (payload pp) ∈ usedNonces s),
     "Nonce already used"%string);
    (negb (String.eqb (value (payload pp)) (maxAmountRequired requirements)),
     "Payment amount mismatch"%string);
    (negb (String.eqb (toLowerCase (to (payload pp)))
                      (toLowerCase (payTo requirements))),
     "Payment recipient mismatch"%string);
    (validBefore (payload pp) <? now, "Payment expired"%string);
    (negb (signatureRecovers (payload pp) requirements),
     "Invalid signature"%string) ].

(** ** Properties *)

(** Unfolds the monad so that a method applied to a state reduces. *)
Ltac run_monad :=
  unfold tryCatch, bind, ret, liftCompletion, hasNonce, addNonce in *;
  cbn beta iota in *.

Lemma verifyEIP3009Signature_run p requirements s :
  verifyEIP3009Signature p requirements s
  = (Normal (signatureRecovers p requirements), s).
Proof.
  unfold verifyEIP3009Signature, signatureRecovers. run_monad.
  destruct (verifyTypedData _ _ _); reflexivity.
Qed.

(** A header that does not decode is reported with the error's message. *)
Lemma verify_undecoded now paymentHeader requirements s message :
  decodeHeader paymentHeader = Throw message ->
  verify now paymentHeader requirements s
  = (Normal (invalid ("Verification failed: " +:+ message)), s).
Proof.
  intros Hdecode. unfold verify. run_monad. rewrite Hdecode. reflexivity.
Qed.

(** A header that decodes is answered by the first failing check. *)
Lemma verify_decoded now paymentHeader requirements s pp :
  decodeHeader paymentHeader = Normal pp ->
  verify now paymentHeader requirements s
  = (Normal (firstFailure (checksInOrder s now pp requirements)), s).
Proof.
  intros Hdecode. unfold verify, checksInOrder. run_monad. rewrite Hdecode.
  cbn [firstFailure].
  destruct (negb (x402Version pp =? 1)); [reflexivity|].
  destruct (negb (String.eqb (payloadScheme pp) (scheme requirements))
            || negb (String.eqb (payloadNetwork pp) (network requirements)));
    [reflexivity|].
  destruct (String.eqb (payloadScheme pp) "exact"); cbn [negb]; [|reflexivity].
  destruct (bool_decide _); [reflexivity|].
  destruct (negb (String.eqb (value _) _)); [reflexivity|].
  destruct (negb (String.eqb (toLowerCase _) _)); [reflexivity|].
  destruct (validBefore _ <? now); [reflexivity|].
  rewrite verifyEIP3009Signature_run.
  destruct (signatureRecovers _ _); reflexivity.
Qed.

(** [verify] always returns, and leaves the instance as it was. *)
Lemma verify_returns now paymentHeader requirements s :
  exists response,
    verify now paymentHeader requirements s = (Normal response, s).
Proof.
  destruct (decodeHeader paymentHeader) as [pp|message] eqn:Hdecode.
  - eexists. apply (verify_decoded _ _ _ _ _ Hdecode).
  - eexists. apply (verify_undecoded _ _ _ _ _ Hdecode).
Qed.

Lemma firstFailure_valid checks :
  isValid (firstFailure checks) = true ->
  firstFailure checks = valid /\ Forall (fun c => fst c = false) checks.
Proof.
  induction checks as [|[failed reason] rest IH]; cbn; intros Hvalid.
  - split; [reflexivity|constructor].
  - destruct failed; [discriminate|].
    destruct (IH Hvalid) as [-> Hrest]. split; [reflexivity|].
    constructor; [reflexivity|exact Hrest].
Qed.

Lemma firstFailure_invalid checks :
  isValid (firstFailure checks) = false ->
  exists reason,
    firstFailure checks = invalid reason /\ reason ∈ (snd <$> checks).
Proof.
  induction checks as [|[failed reason] rest IH]; cbn; intros Hinvalid.
  - discriminate.
  - destruct failed.
    + exists reason. split; [reflexivity|]. left.
    + destruct (IH Hinvalid) as (r & -> & Hin). exists r.
      split; [reflexivity|]. right. exact Hin.
Qed.

Lemma firstFailure_here checks1 reason checks2 :
  Forall (fun c => fst c = false) checks1 ->
  firstFailure (checks1 ++ (true, reason) :: checks2) = invalid reason.
Proof.
  induction 1 as [|[failed r] rest Hfalse _ IH]; cbn in *.
  - reflexivity.
  - subst failed. exact IH.
Qed.

Lemma verifyReasonText_nonempty text :
  verifyReasonText text -> String.eqb text "" = false.
Proof.
  intros [Hin|[message ->]]; [|reflexivity].
  repeat (apply elem_of_cons in Hin; destruct Hin as [->|Hin]; [reflexivity|]).
  inversion Hin.
Qed.

(** Whatever [verify] answers is either [valid] or [invalid] with one of its
    texts. *)
Lemma verify_response now paymentHeader requirements s response :
  verify now paymentHeader requirements s = (Normal response, s) ->
  response = valid
  \/ exists text, response = invalid text /\ verifyReasonText text.
Proof.
  intros Hverify.
  destruct (decodeHeader paymentHeader) as [pp|message] eqn:Hdecode.
  - rewrite (verify_decoded _ _ _ _ _ Hdecode) in Hverify.
    assert (response = firstFailure (checksInOrder s now pp requirements))
      as -> by congruence.
    destruct (isValid (firstFailure (checksInOrder s now pp requirements)))
      eqn:Hvalid.
    + left. exact (proj1 (firstFailure_valid _ Hvalid)).
    + right. destruct (firstFailure_invalid _ Hvalid) as (text & Htext & Hin).
      exists text. split; [exact Htext|]. left. exact Hin.
  - rewrite (verify_undecoded _ _ _ _ _ Hdecode) in Hverify.
    assert (response = invalid ("Verification failed: " +:+ message))
      as -> by congruence.
    right. eexists. split; [reflexivity|]. right. eexists. reflexivity.
Qed.

Lemma settleAfterVerify_invalid random16 paymentHeader text s :
  verifyReasonText text ->
  settleAfterVerify random16 paymentHeader (invalid text) s
  = (Normal (failure text), s).
Proof.
  intros Htext. unfold settleAfterVerify, orDefault. run_monad. cbn.
  rewrite (verifyReasonText_nonempty _ Htext). reflexivity.
Qed.

Lemma settleAfterVerify_valid random16 paymentHeader pp s :
  decodeHeader paymentHeader = Normal pp ->
  settleAfterVerify random16 paymentHeader valid s
  = (Normal {| success := true;
               txHash := Some (fakeTxHash random16);
               networkId := Some (payloadNetwork pp);
               error := None |},
     {| usedNonces := {[ nonce (payload pp) ]} ∪ usedNonces s |}).
Proof.
  intros Hdecode. unfold settleAfterVerify. run_monad. cbn.
  rewrite Hdecode. reflexivity.
Qed.

(** A header that [verify] accepted had decoded. *)
Lemma verify_valid_decoded now paymentHeader requirements s :
  verify now paymentHeader requirements s = (Normal valid, s) ->
  exists pp,
    decodeHeader paymentHeader = Normal pp
    /\ Forall (fun c => fst c = false) (checksInOrder s now pp requirements).
Proof.
  intros Hverify.
  destruct (decodeHeader paymentHeader) as [pp|message] eqn:Hdecode.
  - rewrite (verify_decoded _ _ _ _ _ Hdecode) in Hverify.
    assert (firstFailure (checksInOrder s now pp requirements) = valid)
      as Hvalid by congruence.
    exists pp. split; [reflexivity|].
    refine (proj2 (firstFailure_valid _ _)). rewrite Hvalid. reflexivity.
  - rewrite (verify_undecoded _ _ _ _ _ Hdecode) in Hverify. discriminate.
Qed.

Lemma settle_unfold random16 now paymentHeader requirements s response :
  verify now paymentHeader requirements s = (Normal response, s) ->
  settle random16 now paymentHeader requirements s
  = settleAfterVerify random16 paymentHeader response s.
Proof.
  intros Hverify. unfold settle, bind. rewrite Hverify. reflexivity.
Qed.

Lemma settle_rejects random16 now paymentHeader requirements s text :
  verify now paymentHeader requirements s = (Normal (invalid text), s) ->
  settle random16 now paymentHeader requirements s = (Normal (failure text), s).
Proof.
  intros Hverify. rewrite (settle_unfold _ _ _ _ _ _ Hverify).
  apply settleAfterVerify_invalid.
  destruct (verify_response _ _ _ _ _ Hverify) as [Hv|(t & [= ->] & Ht)];
    [discriminate|exact Ht].
Qed.

Lemma settle_commits random16 now paymentHeader requirements s pp :
  decodeHeader paymentHeader = Normal pp ->
  verify now paymentHeader requirements s = (Normal valid, s) ->
  settle random16 now paymentHeader requirements s
  = (Normal {| success := true;
               txHash := Some (fakeTxHash random16);
               networkId := Some (payloadNetwork pp);
               error := None |},
     {| usedNonces := {[ nonce (payload pp) ]} ∪ usedNonces s |}).
Proof.
  intros Hdecode Hverify. rewrite (settle_unfold _ _ _ _ _ _ Hverify).
  apply settleAfterVerify_valid, Hdecode.
Qed.

(** C2. [verify] never changes the set of used nonces, whatever it answers;
    so two calls in a row with the same header, requirement and clock reading
    give the same answer. *)
Theorem verify_is_read_only now paymentHeader requirements s :
  snd (verify now paymentHeader requirements s) = s
  /\ (let first := verify now paymentHeader requirements s in
      let second := verify now paymentHeader requirements (snd first) in
      fst second = fst first /\ snd second = s).
Proof.
  destruct (verify_returns now paymentHeader requirements s) as [r Hr].
  cbn zeta. rewrite Hr. cbn [fst snd]. rewrite Hr. auto.
Qed.

(** C3. [settle] first runs [verify] on the instance as it is.  When that
    answers invalid with reason [text], [settle] answers failure with [text]
    as its error and the set of used nonces is unchanged.  When it answers
    valid, [settle] answers success and the set has gained the nonce of the
    header, once; on no other path is a nonce added. *)
Theorem settle_verifies_then_commits random16 now paymentHeader requirements s :
  exists verification,
    verify now paymentHeader requirements s = (Normal verification, s)
    /\ ((exists text,
           verification = invalid text
           /\ settle random16 now paymentHeader requirements s
              = (Normal (failure text), s))
        \/ (exists pp,
              verification = valid
              /\ decodeHeader paymentHeader = Normal pp
              /\ settle random16 now paymentHeader requirements s
                 = (Normal {| success := true;
                              txHash := Some (fakeTxHash random16);
                              networkId := Some (payloadNetwork pp);
                              error := None |},
                    {| usedNonces := {[ nonce (payload pp) ]} ∪ usedNonces s |}))).
Proof.
  destruct (verify_returns now paymentHeader requirements s) as [v Hv].
  exists v. split; [exact Hv|].
  destruct (verify_response _ _ _ _ _ Hv) as [->|(text & -> & _)].
  - right. destruct (verify_valid_decoded _ _ _ _ Hv) as (pp & Hdecode & _).
    exists pp. split; [reflexivity|]. split; [exact Hdecode|].
    apply settle_commits; assumption.
  - left. exists text. split; [reflexivity|]. apply settle_rejects, Hv.
Qed.


Lemma checks_gate now s pp requirements :
  x402Version pp = 1 ->
  payloadScheme pp = scheme requirements ->
  payloadNetwork pp = network requirements ->
  payloadScheme pp = "exact"%string ->
  firstFailure (checksInOrder s now pp requirements)
  = firstFailure (drop 3 (checksInOrder s now pp requirements)).
Proof.
  intros Hversion Hscheme Hnetwork Hexact. unfold checksInOrder.
  cbn [firstFailure drop].
  rewrite Hversion, <- Hscheme, <- Hnetwork, !String.eqb_refl, Hexact.
  reflexivity.
Qed.

(** C6, amended.  After decoding, [verify] checks in this order: protocol
    version, scheme and network, scheme 'exact', nonce not used, amount,
    recipient, expiry, signature; it stops at the first check that fails and
    reports that check's reason.  So a header whose nonce is already used is
    answered 'Nonce already used' whatever its amount, recipient, expiry and
    signature are, provided it passes the three checks made before. *)
Theorem verify_checks_in_order now paymentHeader requirements s :
  verify now paymentHeader requirements s
  = (Normal match decodeHeader paymentHeader with
            | Throw message => invalid ("Verification failed: " +:+ message)
            | Normal pp => firstFailure (checksInOrder s now pp requirements)
            end, s)
  /\ (forall pp,
        decodeHeader paymentHeader = Normal pp ->
        nonce (payload pp) ∈ usedNonces s ->
        x402Version pp = 1 ->
        payloadScheme pp = scheme requirements ->
        payloadNetwork pp = network requirements ->
        payloadScheme pp = "exact"%string ->
        verify now paymentHeader requirements s
        = (Normal (invalid "Nonce already used"), s)).
Proof.
  split.
  - destruct (decodeHeader paymentHeader) as [pp|message] eqn:Hdecode.
    + apply verify_decoded, Hdecode.
    + apply verify_undecoded, Hdecode.
  - intros pp Hdecode Hused Hversion Hscheme Hnetwork Hexact.
    rewrite (verify_decoded _ _ _ _ _ Hdecode), checks_gate by assumption.
    cbn [checksInOrder drop firstFailure].
    rewrite bool_decide_eq_true_2 by exact Hused. reflexivity.
Qed.

(** At declared types [verify] and [settle] always return a response.  A
    response of [verify] that is not valid carries one of its texts; a
    failure of [settle] carries the text [verify] gave.  A header that does
    not decode is reported with the decoder's message. *)
Lemma responses_at_declared_types random16 now paymentHeader requirements s :
  (exists verification,
     verify now paymentHeader requirements s = (Normal verification, s)
     /\ (verification = valid
         \/ exists text, verification = invalid text /\ verifyReasonText text))
  /\ (exists response s',
        settle random16 now paymentHeader requirements s = (Normal response, s')
        /\ (success response = true
            \/ exists text, response = failure text /\ verifyReasonText text))
  /\ (forall message,
        decodeHeader paymentHeader = Throw message ->
        verify now paymentHeader requirements s
        = (Normal (invalid ("Verification failed: " +:+ message)), s)).
Proof.
  destruct (verify_returns now paymentHeader requirements s) as [v Hv].
  pose proof (verify_response _ _ _ _ _ Hv) as Hresponse.
  split; [exists v; split; assumption|]. split.
  - destruct Hresponse as [->|(text & -> & Htext)].
    + destruct (verify_valid_decoded _ _ _ _ Hv) as (pp & Hdecode & _).
      do 2 eexists. split; [apply settle_commits; eassumption|].
      left. reflexivity.
    + do 2 eexists. split; [apply settle_rejects, Hv|].
      right. exists text. split; [reflexivity|exact Htext].
  - intros message Hdecode. apply verify_undecoded, Hdecode.
Qed.

(** C10. A header that decodes, has version 1 and the requirement's scheme
    and network, but a scheme other than 'exact', is answered 'Unsupported
    payment scheme', a text that stands for no reason of the taxonomy; the
    answer is the same for every set of used nonces, every clock reading and
    every authorization body, whatever the signature check would say. *)
Theorem unsupported_scheme_is_reported now paymentHeader requirements s pp :
  decodeHeader paymentHeader = Normal pp ->
  x402Version pp = 1 ->
  payloadScheme pp = scheme requirements ->
  payloadNetwork pp = network requirements ->
  payloadScheme pp <> "exact"%string ->
  verify now paymentHeader requirements s
  = (Normal (invalid "Unsupported payment scheme"), s)
  /\ specReasonOf "Unsupported payment scheme" = None
  /\ (forall now' s' paymentHeader' body,
        decodeHeader paymentHeader' = Normal (withPayload body pp) ->
        verify now' paymentHeader' requirements s'
        = (Normal (invalid "Unsupported payment scheme"), s')).
Proof.
  intros Hdecode Hversion Hscheme Hnetwork Hexact.
  assert (forall now' s' paymentHeader' body,
            decodeHeader paymentHeader' = Normal (withPayload body pp) ->
            verify now' paymentHeader' requirements s'
            = (Normal (invalid "Unsupported payment scheme"), s')) as Hany.
  { intros now' s' paymentHeader' body Hdecode'.
    rewrite (verify_decoded _ _ _ _ _ Hdecode'). unfold checksInOrder.
    cbn [firstFailure withPayload x402Version payloadScheme payloadNetwork].
    rewrite Hversion, <- Hscheme, <- Hnetwork, !String.eqb_refl.
    apply String.eqb_neq in Hexact. rewrite Hexact. reflexivity. }
  split; [|split; [reflexivity|exact Hany]].
  apply (Hany now s paymentHeader (payload pp)).
  rewrite Hdecode. destruct pp; reflexivity.
Qed.

(** C5, amended.  A payment with version 1, the requirement's scheme and
    network, the scheme being 'exact', the required amount, the required
    recipient up to letter case, an expiry not before the clock reading, a
    nonce not yet used and a signature that recovers to the payer's address
    is answered valid. *)
Theorem verify_accepts now paymentHeader requirements s pp :
  decodeHeader paymentHeader = Normal pp ->
  x402Version pp = 1 ->
  payloadScheme pp = scheme requirements ->
  payloadNetwork pp = network requirements ->
  payloadScheme pp = "exact"%string ->
  value (payload pp) = maxAmountRequired requirements ->
  toLowerCase (to (payload pp)) = toLowerCase (payTo requirements) ->
  now <= validBefore (payload pp) ->
  nonce (payload pp) ∉ usedNonces s ->
  (exists recoveredAddress,
     verifyTypedData (eip712Domain requirements) (eip3009Message (payload pp))
                     (signature (payload pp)) = Normal recoveredAddress
     /\ toLowerCase recoveredAddress = toLowerCase (from (payload pp))) ->
  verify now paymentHeader requirements s = (Normal valid, s).
Proof.
  intros Hdecode Hversion Hscheme Hnetwork Hexact Hvalue Hto Hexpiry Hfresh
         (recovered & Hrecover & Hfrom).
  rewrite (verify_decoded _ _ _ _ _ Hdecode), checks_gate by assumption.
  cbn [checksInOrder drop firstFailure]. unfold signatureRecovers.
  rewrite bool_decide_eq_false_2 by exact Hfresh.
  rewrite Hvalue, Hto, !String.eqb_refl, Hrecover, Hfrom, String.eqb_refl.
  cbn [negb]. rewrite (proj2 (Z.ltb_ge _ _) Hexpiry). reflexivity.
Qed.


(** C7. Once the checks before it have passed, the expiry check rejects
    exactly when [validBefore] is less than the clock reading: an
    authorization with [validBefore] equal to the clock reading goes on to
    the signature check, one with [validBefore] one second earlier is
    answered 'Payment expired'.  [validAfter] is never compared with the
    clock: an unexpired payment is answered by the signature check alone,
    and changing [validAfter] changes the answer only if it changes what the
    signature check says. *)
Theorem expiry_is_the_only_timing_check now paymentHeader requirements s pp :
  decodeHeader paymentHeader = Normal pp ->
  x402Version pp = 1 ->
  payloadScheme pp = scheme requirements ->
  payloadNetwork pp = network requirements ->
  payloadScheme pp = "exact"%string ->
  nonce (payload pp) ∉ usedNonces s ->
  value (payload pp) = maxAmountRequired requirements ->
  toLowerCase (to (payload pp)) = toLowerCase (payTo requirements) ->
  (validBefore (payload pp) < now
   <-> verify now paymentHeader requirements s
       = (Normal (invalid "Payment expired"), s))
  /\ (validBefore (payload pp) = now ->
      verify now paymentHeader requirements s
      = (Normal (if signatureRecovers (payload pp) requirements
                 then valid else invalid "Invalid signature"), s))
  /\ (validBefore (payload pp) = now - 1 ->
      verify now paymentHeader requirements s
      = (Normal (invalid "Payment expired"), s))
  /\ (now <= validBefore (payload pp) ->
      verify now paymentHeader requirements s
      = (Normal (if signatureRecovers (payload pp) requirements
                 then valid else invalid "Invalid signature"), s))
  /\ (forall validAfter' paymentHeader',
        decodeHeader paymentHeader'
        = Normal (withPayload (withValidAfter validAfter' (payload pp)) pp) ->
        signatureRecovers (withValidAfter validAfter' (payload pp)) requirements
        = signatureRecovers (payload pp) requirements ->
        verify now paymentHeader' requirements s
        = verify now paymentHeader requirements s).
Proof.
  intros Hdecode Hversion Hscheme Hnetwork Hexact Hfresh Hvalue Hto.
  assert (verify now paymentHeader requirements s
          = (Normal (if validBefore (payload pp) <? now
                     then invalid "Payment expired"
                     else if signatureRecovers (payload pp) requirements
                          then valid else invalid "Invalid signature"), s))
    as Hverify.
  { rewrite (verify_decoded _ _ _ _ _ Hdecode), checks_gate by assumption.
    cbn [checksInOrder drop firstFailure].
    rewrite bool_decide_eq_false_2 by exact Hfresh.
    rewrite Hvalue, Hto, !String.eqb_refl. cbn [negb].
    destruct (validBefore (payload pp) <? now); [reflexivity|].
    destruct (signatureRecovers (payload pp) requirements); reflexivity. }
  assert (now <= validBefore (payload pp) ->
          verify now paymentHeader requirements s
          = (Normal (if signatureRecovers (payload pp) requirements
                     then valid else invalid "Invalid signature"), s))
    as Hunexpired.
  { intros Hle. rewrite Hverify, (proj2 (Z.ltb_ge _ _) Hle). reflexivity. }
  assert (validBefore (payload pp) < now ->
          verify now paymentHeader requirements s
          = (Normal (invalid "Payment expired"), s)) as Hexpired.
  { intros Hlt. rewrite Hverify, (proj2 (Z.ltb_lt _ _) Hlt). reflexivity. }
  split; [split; [exact Hexpired|]|].
  { intros Hanswer. destruct (Z.ltb_spec (validBefore (payload pp)) now) as [Hlt|Hle];
      [exact Hlt|].
    rewrite (Hunexpired Hle) in Hanswer.
    destruct (signatureRecovers (payload pp) requirements); discriminate. }
  split; [intros Heq; apply Hunexpired; lia|].
  split; [intros Heq; apply Hexpired; lia|].
  split; [exact Hunexpired|].
  intros validAfter' paymentHeader' Hdecode' Hsignature.
  rewrite (verify_decoded _ _ _ _ _ Hdecode'), (verify_decoded _ _ _ _ _ Hdecode).
  unfold checksInOrder.
  cbn [withPayload withValidAfter payload x402Version payloadScheme
       payloadNetwork nonce value to validBefore] in *.
  rewrite Hsignature. reflexivity.
Qed.

(** *** Replay *)

Lemma settle_cases random16 now paymentHeader requirements s :
  (exists text,
     verify now paymentHeader requirements s = (Normal (invalid text), s)
     /\ settle random16 now paymentHeader requirements s
        = (Normal (failure text), s))
  \/ (exists pp,
        verify now paymentHeader requirements s = (Normal valid, s)
        /\ decodeHeader paymentHeader = Normal pp
        /\ Forall (fun c => fst c = false) (checksInOrder s now pp requirements)
        /\ settle random16 now paymentHeader requirements s
           = (Normal {| success := true;
                        txHash := Some (fakeTxHash random16);
                        networkId := Some (payloadNetwork pp);
                        error := None |},
              {| usedNonces := {[ nonce (payload pp) ]} ∪ usedNonces s |})).
Proof.
  destruct (verify_returns now paymentHeader requirements s) as [v Hv].
  destruct (verify_response _ _ _ _ _ Hv) as [->|(text & -> & _)].
  - right. destruct (verify_valid_decoded _ _ _ _ Hv) as (pp & Hdecode & Hall).
    exists pp. repeat split; try assumption. apply settle_commits; assumption.
  - left. exists text. split; [exact Hv|]. apply settle_rejects, Hv.
Qed.

(** No call removes a nonce. *)
Lemma runCall_grows c s : usedNonces s ⊆ usedNonces (runCall c s).
Proof.
  destruct c as [now h r|random16 now h r]; cbn [runCall].
  - destruct (verify_returns now h r s) as [v ->]. reflexivity.
  - destruct (settle_cases random16 now h r s)
      as [(text & _ & ->)|(pp & _ & _ & _ & ->)]; cbn [snd usedNonces].
    + reflexivity.
    + apply union_subseteq_r.
Qed.

Lemma runCalls_grows calls s : usedNonces s ⊆ usedNonces (runCalls calls s).
Proof.
  revert s. induction calls as [|c calls IH]; intros s; cbn.
  - reflexivity.
  - etransitivity; [apply runCall_grows|apply IH].
Qed.

(** With its nonce used, a payment is answered by one of the first four
    checks. *)
Lemma used_nonce_rejected now paymentHeader requirements s pp :
  decodeHeader paymentHeader = Normal pp ->
  nonce (payload pp) ∈ usedNonces s ->
  verify now paymentHeader requirements s
  = (Normal (firstFailure (take 3 (checksInOrder s now pp requirements)
                           ++ [(true, "Nonce already used"%string)])), s).
Proof.
  intros Hdecode Hused. rewrite (verify_decoded _ _ _ _ _ Hdecode).
  unfold checksInOrder. cbn [take app firstFailure].
  rewrite bool_decide_eq_true_2 by exact Hused. reflexivity.
Qed.

Lemma firstFailure_ends_true checks text :
  exists text',
    firstFailure (checks ++ [(true, text)]) = invalid text'
    /\ (Forall (fun c => fst c = false) checks -> text' = text).
Proof.
  induction checks as [|[failed reason] rest IH]; cbn.
  - exists text. split; [reflexivity|]. intros _. reflexivity.
  - destruct failed.
    + exists reason. split; [reflexivity|].
      intros Hall. inversion Hall as [|? ? Hhead]. discriminate.
    + destruct IH as (text' & -> & Himp). exists text'.
      split; [reflexivity|]. intros Hall. apply Himp.
      inversion Hall. assumption.
Qed.

Lemma gate_passes now s pp requirements :
  x402Version pp = 1 ->
  payloadScheme pp = scheme requirements ->
  payloadNetwork pp = network requirements ->
  payloadScheme pp = "exact"%string ->
  Forall (fun c => fst c = false) (take 3 (checksInOrder s now pp requirements)).
Proof.
  intros Hversion Hscheme Hnetwork Hexact. unfold checksInOrder. cbn [take].
  rewrite Hversion, <- Hscheme, <- Hnetwork, !String.eqb_refl, Hexact.
  repeat constructor.
Qed.


(** The first three checks read neither the instance nor the clock. *)
Lemma gate_passed s0 now0 s now pp requirements :
  Forall (fun c => fst c = false) (checksInOrder s0 now0 pp requirements) ->
  Forall (fun c => fst c = false) (take 3 (checksInOrder s now pp requirements)).
Proof.
  unfold checksInOrder. cbn [take]. intros Hall.
  inversion Hall as [|? ? Hfirst Hall1]; subst.
  inversion Hall1 as [|? ? Hsecond Hall2]; subst.
  inversion Hall2 as [|? ? Hthird _]; subst.
  repeat constructor; assumption.
Qed.

Lemma succeeded_settle random16 now paymentHeader requirements s :
  succeeded (settle random16 now paymentHeader requirements s) = true ->
  exists pp,
    decodeHeader paymentHeader = Normal pp
    /\ verify now paymentHeader requirements s = (Normal valid, s)
    /\ Forall (fun c => fst c = false) (checksInOrder s now pp requirements)
    /\ snd (settle random16 now paymentHeader requirements s)
       = {| usedNonces := {[ nonce (payload pp) ]} ∪ usedNonces s |}.
Proof.
  unfold succeeded.
  destruct (settle_cases random16 now paymentHeader requirements s)
    as [(text & _ & ->)|(pp & Hverify & Hdecode & Hall & ->)]; cbn.
  - discriminate.
  - intros _. exists pp. auto.
Qed.

(** C1, amended.  Once [settle] has answered success for a header with nonce
    n, then after any further calls of [verify] and [settle], every call of
    [verify] on a header with nonce n answers invalid and every call of
    [settle] on it answers failure with the same text, leaving the set of
    used nonces as it is.  The text is 'Nonce already used' whenever the
    header has version 1, the scheme and network of the requirement it is
    checked against, and scheme 'exact' (the checks made before the nonce is
    looked up); in particular it is for the settled header presented again
    with its requirement. *)
Theorem settled_nonce_is_rejected
    random16 now paymentHeader requirements s0 pp calls
    random16' now' paymentHeader' requirements' pp' :
  decodeHeader paymentHeader = Normal pp ->
  succeeded (settle random16 now paymentHeader requirements s0) = true ->
  decodeHeader paymentHeader' = Normal pp' ->
  nonce (payload pp') = nonce (payload pp) ->
  let s := runCalls calls
             (snd (settle random16 now paymentHeader requirements s0)) in
  (exists text,
     verify now' paymentHeader' requirements' s = (Normal (invalid text), s)
     /\ settle random16' now' paymentHeader' requirements' s
        = (Normal (failure text), s)
     /\ (x402Version pp' = 1 ->
         payloadScheme pp' = scheme requirements' ->
         payloadNetwork pp' = network requirements' ->
         payloadScheme pp' = "exact"%string ->
         text = "Nonce already used"%string))
  /\ verify now' paymentHeader requirements s
     = (Normal (invalid "Nonce already used"), s)
  /\ settle random16' now' paymentHeader requirements s
     = (Normal (failure "Nonce already used"), s).
Proof.
  intros Hdecode Hsettled Hdecode' Hnonce s.
  destruct (succeeded_settle _ _ _ _ _ Hsettled)
    as (pp0 & Hdecode0 & _ & Hall & Hstate).
  assert (pp0 = pp) as -> by congruence.
  assert (nonce (payload pp) ∈ usedNonces s) as Hused.
  { apply (runCalls_grows calls). rewrite Hstate. cbn [usedNonces].
    apply elem_of_union_l, elem_of_singleton. reflexivity. }
  split; [|split].
  - assert (nonce (payload pp') ∈ usedNonces s) as Hused' by (rewrite Hnonce; exact Hused).
    pose proof (used_nonce_rejected now' _ requirements' _ _ Hdecode' Hused')
      as Hverify.
    destruct (firstFailure_ends_true
                (take 3 (checksInOrder s now' pp' requirements'))
                "Nonce already used") as (text & Htext & Hgate).
    rewrite Htext in Hverify. exists text.
    split; [exact Hverify|]. split; [apply settle_rejects, Hverify|].
    intros Hversion Hscheme Hnetwork Hexact.
    apply Hgate, gate_passes; assumption.
  - rewrite (used_nonce_rejected now' _ requirements _ _ Hdecode Hused).
    rewrite (firstFailure_here _ _ []); [reflexivity|].
    apply (gate_passed _ _ _ _ _ _ Hall).
  - apply settle_rejects.
    rewrite (used_nonce_rejected now' _ requirements _ _ Hdecode Hused).
    rewrite (firstFailure_here _ _ []); [reflexivity|].
    apply (gate_passed _ _ _ _ _ _ Hall).
Qed.

(** *** Calls that overlap *)

Lemma verifyUntilAwait_accepted now paymentHeader requirements s :
  verify now paymentHeader requirements s = (Normal valid, s) ->
  verifyUntilAwait now paymentHeader requirements s
  = (Normal (VerifyAwaiting true), s).
Proof.
  intros Hverify.
  destruct (verify_valid_decoded _ _ _ _ Hverify) as (pp & Hdecode & Hall).
  unfold checksInOrder in Hall.
  repeat match goal with
         | H : Forall _ (_ :: _) |- _ =>
             let Hhead := fresh "Hcheck" in
             apply Forall_cons in H; destruct H as [Hhead H]; cbn [fst] in Hhead
         end.
  unfold verifyUntilAwait. run_monad. rewrite Hdecode.
  rewrite Hcheck, Hcheck0.
  apply negb_false_iff in Hcheck1. rewrite Hcheck1, Hcheck2, Hcheck3, Hcheck4, Hcheck5.
  rewrite verifyEIP3009Signature_run.
  apply negb_false_iff in Hcheck6. rewrite Hcheck6. reflexivity.
Qed.

(** [verify] is its two parts, one after the other. *)
Lemma verify_in_steps now paymentHeader requirements s :
  exists progress,
    verifyUntilAwait now paymentHeader requirements s = (Normal progress, s)
    /\ verify now paymentHeader requirements s
       = match progress with
         | VerifyReturned response => (Normal response, s)
         | VerifyAwaiting isValidSignature => verifyAfterAwait isValidSignature s
         end.
Proof.
  unfold verify, verifyUntilAwait, verifyAfterAwait. run_monad.
  destruct (decodeHeader paymentHeader) as [pp|message];
    [|eexists; split; reflexivity].
  destruct (negb (x402Version pp =? 1)); [eexists; split; reflexivity|].
  destruct (negb (String.eqb (payloadScheme pp) (scheme requirements))
            || negb (String.eqb (payloadNetwork pp) (network requirements)));
    [eexists; split; reflexivity|].
  destruct (String.eqb (payloadScheme pp) "exact");
    [|eexists; split; reflexivity].
  destruct (bool_decide _); [eexists; split; reflexivity|].
  destruct (negb (String.eqb (value _) _)); [eexists; split; reflexivity|].
  destruct (negb (String.eqb (toLowerCase _) _)); [eexists; split; reflexivity|].
  destruct (validBefore _ <? now); [eexists; split; reflexivity|].
  rewrite verifyEIP3009Signature_run.
  eexists; split; [reflexivity|].
  destruct (signatureRecovers _ _); reflexivity.
Qed.

Lemma resume_only c s :
  resume 0 ([c], s) = ([fst (stepCall c s)], snd (stepCall c s)).
Proof. unfold resume. cbn. destruct (stepCall c s). reflexivity. Qed.

(** One call run on its own, [await] after [await], is the method. *)
Lemma settle_in_steps random16 now paymentHeader requirements s :
  runSchedule [0; 0; 0]%nat ([Invoked random16 now paymentHeader requirements], s)
  = match settle random16 now paymentHeader requirements s with
    | (Normal response, s') => ([Settled response], s')
    | (Throw message, s') => ([Rejected message], s')
    end.
Proof.
  destruct (verify_in_steps now paymentHeader requirements s)
    as (progress & Hprogress & Hverify).
  destruct (verify_returns now paymentHeader requirements s) as [v Hv].
  rewrite (settle_unfold _ _ _ _ _ _ Hv).
  unfold runSchedule. cbn [fold_left].
  rewrite resume_only. cbn [stepCall]. rewrite Hprogress.
  destruct progress as [response|isValidSignature]; cbn [fst snd].
  - assert (response = v) as -> by congruence.
    rewrite resume_only. cbn [stepCall].
    destruct (settleAfterVerify random16 paymentHeader v s) as [[r|m] s'];
      cbn [fst snd]; rewrite resume_only; reflexivity.
  - rewrite resume_only. cbn [stepCall].
    rewrite <- Hverify, Hv. cbn [fst snd].
    rewrite resume_only. cbn [stepCall].
    destruct (settleAfterVerify random16 paymentHeader v s) as [[r|m] s'];
      reflexivity.
Qed.

Lemma resume_first c1 c2 s :
  resume 0 ([c1; c2], s) = ([fst (stepCall c1 s); c2], snd (stepCall c1 s)).
Proof. unfold resume. cbn. destruct (stepCall c1 s). reflexivity. Qed.

Lemma resume_second c1 c2 s :
  resume 1 ([c1; c2], s) = ([c1; fst (stepCall c2 s)], snd (stepCall c2 s)).
Proof. unfold resume. cbn. destruct (stepCall c2 s). reflexivity. Qed.

Lemma step_invoked_accepted random16 now paymentHeader requirements s :
  verify now paymentHeader requirements s = (Normal valid, s) ->
  stepCall (Invoked random16 now paymentHeader requirements) s
  = (AwaitingSignature random16 paymentHeader true, s).
Proof.
  intros Hverify. cbn [stepCall].
  rewrite (verifyUntilAwait_accepted _ _ _ _ Hverify). reflexivity.
Qed.

Lemma step_commit random16 paymentHeader pp s :
  decodeHeader paymentHeader = Normal pp ->
  stepCall (AwaitingVerify random16 paymentHeader valid) s
  = (Settled {| success := true;
                txHash := Some (fakeTxHash random16);
                networkId := Some (payloadNetwork pp);
                error := None |},
     {| usedNonces := {[ nonce (payload pp) ]} ∪ usedNonces s |}).
Proof.
  intros Hdecode. cbn [stepCall].
  rewrite (settleAfterVerify_valid _ _ _ _ Hdecode). reflexivity.
Qed.

Lemma accepted_verify now paymentHeader requirements s :
  accepted (verify now paymentHeader requirements s) = true ->
  verify now paymentHeader requirements s = (Normal valid, s).
Proof.
  unfold accepted.
  destruct (verify_returns now paymentHeader requirements s) as [v Hv].
  rewrite Hv. cbn. intros Hvalid.
  destruct (verify_response _ _ _ _ _ Hv) as [->|(text & -> & _)];
    [reflexivity|discriminate].
Qed.

(** C4, on the code.  Two calls of [settle] for headers with the same nonce,
    each of which [verify] accepts on the instance as it is, both answer
    success when the event loop starts the second before the first has come
    back from its [await]: each looks the nonce up before either adds it. *)
Theorem overlapping_settles_both_succeed
    random16 random16' now now' paymentHeader paymentHeader'
    requirements requirements' pp pp' s :
  decodeHeader paymentHeader = Normal pp ->
  decodeHeader paymentHeader' = Normal pp' ->
  nonce (payload pp') = nonce (payload pp) ->
  accepted (verify now paymentHeader requirements s) = true ->
  accepted (verify now' paymentHeader' requirements' s) = true ->
  exists response response',
    runSchedule [0; 1; 0; 1; 0; 1]%nat
      ([Invoked random16 now paymentHeader requirements;
        Invoked random16' now' paymentHeader' requirements'], s)
    = ([Settled response; Settled response'],
       {| usedNonces := {[ nonce (payload pp) ]} ∪ usedNonces s |})
    /\ success response = true
    /\ success response' = true.
Proof.
  intros Hdecode Hdecode' Hnonce Haccepted Haccepted'.
  apply accepted_verify in Haccepted, Haccepted'.
  unfold runSchedule. cbn [fold_left].
  rewrite resume_first, (step_invoked_accepted _ _ _ _ _ Haccepted).
  cbn [fst snd].
  rewrite resume_second, (step_invoked_accepted _ _ _ _ _ Haccepted').
  cbn [fst snd].
  rewrite resume_first, resume_second. cbn [stepCall verifyAfterAwait negb fst snd ret].
  rewrite resume_first, (step_commit _ _ _ _ Hdecode). cbn [fst snd].
  rewrite resume_second, (step_commit _ _ _ _ Hdecode'). cbn [fst snd usedNonces].
  exists {| success := true;
            txHash := Some (fakeTxHash random16);
            networkId := Some (payloadNetwork pp);
            error := None |},
         {| success := true;
            txHash := Some (fakeTxHash random16');
            networkId := Some (payloadNetwork pp');
            error := None |}.
  split; [|split; reflexivity].
  rewrite Hnonce. do 2 f_equal.
  apply set_eq. intros x. rewrite !elem_of_union. tauto.
Qed.

(** Run one after the other, the same two calls end with one success. *)
Lemma serial_settles_one_succeeds
    random16 random16' now now' paymentHeader requirements s :
  accepted (verify now paymentHeader requirements s) = true ->
  exists response s',
    runSchedule [0; 0; 0; 1; 1; 1]%nat
      ([Invoked random16 now paymentHeader requirements;
        Invoked random16' now' paymentHeader requirements], s)
    = ([Settled response; Settled (failure "Nonce already used")], s')
    /\ success response = true.
Proof.
  intros Haccepted.
  assert (succeeded (settle random16 now paymentHeader requirements s) = true)
    as Hsettled.
  { apply accepted_verify in Haccepted.
    destruct (verify_valid_decoded _ _ _ _ Haccepted) as (pp & Hdecode & _).
    unfold succeeded. rewrite (settle_commits _ _ _ _ _ _ Hdecode Haccepted).
    reflexivity. }
  destruct (succeeded_settle _ _ _ _ _ Hsettled)
    as (pp & Hdecode & Hverify & Hall & Hstate).
  pose proof (settle_commits random16 _ _ _ _ _ Hdecode Hverify) as Hfirst.
  pose proof (settle_in_steps random16 now paymentHeader requirements s) as Hsteps.
  rewrite Hfirst in Hsteps.
  pose proof (settle_in_steps random16' now' paymentHeader requirements
                {| usedNonces := {[ nonce (payload pp) ]} ∪ usedNonces s |})
    as Hsteps'.
  assert (verify now' paymentHeader requirements
            {| usedNonces := {[ nonce (payload pp) ]} ∪ usedNonces s |}
          = (Normal (invalid "Nonce already used"),
             {| usedNonces := {[ nonce (payload pp) ]} ∪ usedNonces s |}))
    as Hreplay.
  { rewrite (used_nonce_rejected now' _ requirements _ _ Hdecode).
    - rewrite (firstFailure_here _ _ []); [reflexivity|].
      apply (gate_passed _ _ _ _ _ _ Hall).
    - cbn [usedNonces]. apply elem_of_union_l, elem_of_singleton. reflexivity. }
  rewrite (settle_rejects _ _ _ _ _ _ Hreplay) in Hsteps'.
  exists {| success := true;
            txHash := Some (fakeTxHash random16);
            networkId := Some (payloadNetwork pp);
            error := None |},
         {| usedNonces := {[ nonce (payload pp) ]} ∪ usedNonces s |}.
  split; [|reflexivity].
  set (c1 := Invoked random16 now paymentHeader requirements) in *.
  set (c2 := Invoked random16' now' paymentHeader requirements) in *.
  unfold runSchedule in *. cbn [fold_left] in *.
  rewrite !resume_only in Hsteps, Hsteps'. rewrite !resume_first.
  match type of Hsteps with
  | ([fst ?X], _) = _ => destruct X as [call1 s1]
  end.
  cbn [fst snd] in *. injection Hsteps as -> ->.
  rewrite !resume_second.
  match type of Hsteps' with
  | ([fst ?X], _) = _ => destruct X as [call2 s2]
  end.
  cbn [fst snd] in *. injection Hsteps' as -> ->. reflexivity.
Qed.


(** Overlapping or not, no part of a call removes a nonce. *)
Lemma stepCall_grows c s : usedNonces s ⊆ usedNonces (snd (stepCall c s)).
Proof.
  destruct c as [random16 now h r|random16 h b|random16 h v|r|m];
    cbn [stepCall].
  - destruct (verify_in_steps now h r s) as (progress & -> & _).
    destruct progress; reflexivity.
  - unfold verifyAfterAwait. destruct (negb b); reflexivity.
  - unfold settleAfterVerify. run_monad.
    destruct (negb (isValid v)); [reflexivity|].
    destruct (decodeHeader h); cbn [snd usedNonces];
      [apply union_subseteq_r|reflexivity].
  - reflexivity.
  - reflexivity.
Qed.

Lemma resume_grows i (p : Pool) : usedNonces (snd p) ⊆ usedNonces (snd (resume i p)).
Proof.
  unfold resume. destruct (fst p !! i) as [c|]; [|reflexivity].
  pose proof (stepCall_grows c (snd p)) as Hgrows.
  destruct (stepCall c (snd p)). exact Hgrows.
Qed.

Lemma runSchedule_grows schedule (p : Pool) :
  usedNonces (snd p) ⊆ usedNonces (snd (runSchedule schedule p)).
Proof.
  revert p. induction schedule as [|i schedule IH]; intros p; cbn.
  - reflexivity.
  - etransitivity; [apply (resume_grows i)|apply IH].
Qed.

(** *** Chain identifiers *)

Lemma getChainId_table :
  getChainId "base-sepolia" = ChainNumber 84532
  /\ getChainId "base" = ChainNumber 8453
  /\ getChainId "ethereum" = ChainNumber 1
  /\ getChainId "sepolia" = ChainNumber 11155111.
Proof. repeat split; reflexivity. Qed.

(** A name that is neither in the table nor inherited reads as [undefined],
    and [|| 1] gives 1. *)
Lemma getChainId_fallback network :
  ownProperty chainIds network = None ->
  existsb (String.eqb network) objectPrototypeMembers = false ->
  getChainId network = ChainNumber 1.
Proof.
  intros Hown Hinherited. unfold getChainId, readProperty.
  rewrite Hown, Hinherited. reflexivity.
Qed.

Lemma getChainId_inherited network :
  ownProperty chainIds network = None ->
  existsb (String.eqb network) objectPrototypeMembers = true ->
  getChainId network = ChainInherited network.
Proof.
  intros Hown Hinherited. unfold getChainId, readProperty.
  rewrite Hown, Hinherited. reflexivity.
Qed.

(** C9, on the code.  'constructor' is not a key of the table, yet
    [chainIds['constructor']] is the function every object inherits, which is
    truthy: [getChainId] returns it and not 1.  The same holds for each of
    the inherited names. *)
Theorem getChainId_of_inherited_name :
  ownProperty chainIds "constructor" = None
  /\ getChainId "constructor" = ChainInherited "constructor"
  /\ Forall (fun member => ownProperty chainIds member = None
                           /\ getChainId member = ChainInherited member)
            objectPrototypeMembers.
Proof.
  split; [reflexivity|]. split; [reflexivity|].
  repeat constructor.
Qed.

(** With a signature library that refuses a chain identifier that is not a
    number, a requirement for such a network is never paid: every
    authorization is answered 'Invalid signature'. *)
Lemma inherited_chainId_is_refused now paymentHeader requirements s pp member :
  (forall domain message sig inherited,
     chainId domain = ChainInherited inherited ->
     exists e, verifyTypedData domain message sig = Throw e) ->
  getChainId (network requirements) = ChainInherited member ->
  decodeHeader paymentHeader = Normal pp ->
  isValid (firstFailure (take 7 (checksInOrder s now pp requirements))) = true ->
  verify now paymentHeader requirements s
  = (Normal (invalid "Invalid signature"), s).
Proof.
  intros Hrefuses Hchain Hdecode Hpassed.
  rewrite (verify_decoded _ _ _ _ _ Hdecode).
  apply firstFailure_valid in Hpassed. destruct Hpassed as [_ Hall].
  change (checksInOrder s now pp requirements)
    with (take 7 (checksInOrder s now pp requirements)
          ++ [(negb (signatureRecovers (payload pp) requirements),
               "Invalid signature"%string)]).
  assert (signatureRecovers (payload pp) requirements = false) as ->.
  { unfold signatureRecovers.
    destruct (Hrefuses (eip712Domain requirements)
                       (eip3009Message (payload pp))
                       (signature (payload pp)) member Hchain) as [e ->].
    reflexivity. }
  rewrite (firstFailure_here _ _ [] Hall). reflexivity.
Qed.

(** ** Further properties of the class *)

(** What it means that every check passed. *)
Lemma checks_all_passed s now pp requirements :
  Forall (fun c => fst c = false) (checksInOrder s now pp requirements) ->
  x402Version pp = 1
  /\ payloadScheme pp = scheme requirements
  /\ payloadNetwork pp = network requirements
  /\ payloadScheme pp = "exact"%string
  /\ (nonce (payload pp) ∉ usedNonces s)
  /\ value (payload pp) = maxAmountRequired requirements
  /\ toLowerCase (to (payload pp)) = toLowerCase (payTo requirements)
  /\ now <= validBefore (payload pp)
  /\ signatureRecovers (payload pp) requirements = true.
Proof.
  unfold checksInOrder. intros Hall.
  repeat match goal with
         | H : Forall _ (_ :: _) |- _ =>
             let Hhead := fresh "Hcheck" in
             apply Forall_cons in H; destruct H as [Hhead H]; cbn [fst] in Hhead
         end.
  apply negb_false_iff, Z.eqb_eq in Hcheck.
  apply orb_false_iff in Hcheck0. destruct Hcheck0 as [Hscheme Hnetwork].
  apply negb_false_iff, String.eqb_eq in Hscheme, Hnetwork, Hcheck1, Hcheck3, Hcheck4.
  apply bool_decide_eq_false in Hcheck2.
  apply Z.ltb_ge in Hcheck5. apply negb_false_iff in Hcheck6.
  repeat split; assumption.
Qed.

Lemma length_string_of_list_ascii l :
  String.length (string_of_list_ascii l) = List.length l.
Proof. induction l as [|c l IH]; cbn; [reflexivity|]. rewrite IH. reflexivity. Qed.

Lemma hexDigit_is_hex k : isHexDigit (hexDigit (k mod 16)) = true.
Proof.
  assert (k mod 16 < 16)%nat as Hlt by (apply Nat.mod_upper_bound; discriminate).
  destruct (k mod 16)%nat as [|n]; [reflexivity|].
  do 15 (destruct n as [|n]; [reflexivity|]). lia.
Qed.

Lemma fakeTxHash_shape random16 : isHexText 64 (fakeTxHash random16).
Proof.
  unfold isHexText, fakeTxHash. eexists. split; [reflexivity|]. split.
  - rewrite length_string_of_list_ascii, List.length_map, List.length_seq.
    reflexivity.
  - rewrite list_ascii_of_string_of_list_ascii.
    generalize (seq 0 64). intros l.
    induction l as [|i l IH]; cbn [List.map forallb]; [reflexivity|].
    rewrite hexDigit_is_hex, IH. reflexivity.
Qed.

(** X1. [settle] answers in one of two shapes.  A success carries a
    transaction hash of the form 0x and 64 hexadecimal digits, whatever the
    random source, the network of the requirement as [networkId], and no
    error.  A failure carries an error text and neither hash nor network. *)
Theorem settle_response_shape random16 now paymentHeader requirements s :
  match settle random16 now paymentHeader requirements s with
  | (Normal response, _) =>
      if success response
      then (exists hash, txHash response = Some hash /\ isHexText 64 hash)
           /\ networkId response = Some (network requirements)
           /\ error response = None
      else txHash response = None
           /\ networkId response = None
           /\ exists text, error response = Some text
  | (Throw _, _) => False
  end.
Proof.
  destruct (settle_cases random16 now paymentHeader requirements s)
    as [(text & _ & ->)|(pp & _ & _ & Hall & ->)]; cbn.
  - repeat split. exists text. reflexivity.
  - destruct (checks_all_passed _ _ _ _ Hall) as (_ & _ & Hnetwork & _).
    rewrite Hnetwork. repeat split.
    exists (fakeTxHash random16). split; [reflexivity|apply fakeTxHash_shape].
Qed.

(** X2. A nonce gets into the set of used nonces only by a call of [settle]
    whose payment passed every check: whatever calls were made, each used
    nonce was there at the start or is the nonce of a settled header with
    version 1, scheme 'exact', the network, amount and recipient of its
    requirement, an expiry not before the clock reading of that call, and a
    signature that recovers to its payer. *)
Theorem used_nonces_were_paid calls s n :
  n ∈ usedNonces (runCalls calls s) ->
  n ∈ usedNonces s
  \/ exists random16 now paymentHeader requirements pp,
       CallSettle random16 now paymentHeader requirements ∈ calls
       /\ decodeHeader paymentHeader = Normal pp
       /\ nonce (payload pp) = n
       /\ x402Version pp = 1
       /\ payloadScheme pp = "exact"%string
       /\ payloadNetwork pp = network requirements
       /\ value (payload pp) = maxAmountRequired requirements
       /\ toLowerCase (to (payload pp)) = toLowerCase (payTo requirements)
       /\ now <= validBefore (payload pp)
       /\ signatureRecovers (payload pp) requirements = true.
Proof.
  revert s. induction calls as [|c calls IH]; intros s Hused; cbn in Hused.
  - left. exact Hused.
  - destruct (IH _ Hused) as [Hbefore|Hlater].
    + destruct c as [now h r|random16 now h r]; cbn [runCall] in Hbefore.
      * destruct (verify_returns now h r s) as [v Hv].
        rewrite Hv in Hbefore. left. exact Hbefore.
      * destruct (settle_cases random16 now h r s)
          as [(text & _ & Hsettle)|(pp & _ & Hdecode & Hall & Hsettle)];
          rewrite Hsettle in Hbefore; cbn [snd usedNonces] in Hbefore.
        { left. exact Hbefore. }
        apply elem_of_union in Hbefore. destruct Hbefore as [Hnew|Hold];
          [|left; exact Hold].
        apply elem_of_singleton in Hnew. right.
        destruct (checks_all_passed _ _ _ _ Hall)
          as (Hversion & _ & Hnetwork & Hexact & _ & Hvalue & Hto & Hexpiry & Hsig).
        exists random16, now, h, r, pp.
        split; [left|]. repeat split; auto.
    + right. destruct Hlater as (random16 & now & h & r & pp & Hin & Hrest).
      exists random16, now, h, r, pp. split; [right; exact Hin|exact Hrest].
Qed.

(** X3. The set of used nonces grows by at most one nonce for each call of
    [settle], and not at all by calls of [verify]. *)
Theorem used_nonces_bounded_by_settles calls s :
  (size (usedNonces (runCalls calls s))
   <= size (usedNonces s)
      + List.length (List.filter (fun c => match c with
                                           | CallSettle _ _ _ _ => true
                                           | CallVerify _ _ _ => false
                                           end) calls))%nat.
Proof.
  revert s. induction calls as [|c calls IH]; intros s; cbn [runCalls fold_left].
  - cbn. lia.
  - fold (runCalls calls (runCall c s)). etransitivity; [apply IH|].
    destruct c as [now h r|random16 now h r]; cbn [List.filter runCall].
    + destruct (verify_returns now h r s) as [v ->]. reflexivity.
    + destruct (settle_cases random16 now h r s)
        as [(text & _ & ->)|(pp & _ & _ & _ & ->)];
        cbn [snd usedNonces List.length].
      * lia.
      * pose proof (size_union_alt ({[ nonce (payload pp) ]} : gset string)
                                   (usedNonces s)) as Hsize.
        rewrite size_singleton in Hsize.
        pose proof (subseteq_size (usedNonces s ∖ {[ nonce (payload pp) ]})
                                  (usedNonces s)) as Hdiff.
        assert (usedNonces s ∖ {[ nonce (payload pp) ]} ⊆ usedNonces s) as Hsub
          by apply subseteq_difference_l, reflexivity.
        specialize (Hdiff Hsub). lia.
Qed.

Lemma verify_same_checks now now' paymentHeader paymentHeader'
    requirements requirements' s pp pp' :
  decodeHeader paymentHeader = Normal pp ->
  decodeHeader paymentHeader' = Normal pp' ->
  List.map fst (checksInOrder s now pp requirements)
  = List.map fst (checksInOrder s now' pp' requirements') ->
  verify now paymentHeader requirements s
  = verify now' paymentHeader' requirements' s.
Proof.
  intros Hdecode Hdecode' Hsame.
  rewrite (verify_decoded _ _ _ _ _ Hdecode), (verify_decoded _ _ _ _ _ Hdecode').
  unfold checksInOrder in *. cbn [List.map fst] in Hsame.
  injection Hsame as -> -> -> -> -> -> -> ->. reflexivity.
Qed.

(** X4. The recipient is compared without regard to letter case, and is no
    part of the signed domain: a requirement whose [payTo] is replaced by a
    text with the same lower-case form gets the same answer from [verify]
    for every header, clock reading and set of used nonces. *)
Theorem payTo_case_is_ignored payTo' now paymentHeader requirements s :
  toLowerCase payTo' = toLowerCase (payTo requirements) ->
  verify now paymentHeader (withPayTo payTo' requirements) s
  = verify now paymentHeader requirements s.
Proof.
  intros Hcase.
  destruct (decodeHeader paymentHeader) as [pp|message] eqn:Hdecode.
  - apply (verify_same_checks _ _ _ _ _ _ _ pp pp Hdecode Hdecode).
    unfold checksInOrder, signatureRecovers, eip712Domain.
    cbn [withPayTo scheme network maxAmountRequired payTo asset extra].
    rewrite Hcase. reflexivity.
  - rewrite !(verify_undecoded _ _ _ _ _ Hdecode). reflexivity.
Qed.

(** X5. A requirement without [extra], with an [extra] that has no name and
    no version, or with empty ones, is signed for under the domain name
    'USD Coin' and version '2': [verify] answers it as it answers the
    requirement that states these two values. *)
Theorem domain_defaults now paymentHeader requirements s :
  let stated :=
    withExtra (Some {| extraName := Some "USD Coin"%string;
                       extraVersion := Some "2"%string |}) requirements in
  verify now paymentHeader (withExtra None requirements) s
  = verify now paymentHeader stated s
  /\ verify now paymentHeader
       (withExtra (Some {| extraName := None; extraVersion := None |})
                  requirements) s
     = verify now paymentHeader stated s
  /\ verify now paymentHeader
       (withExtra (Some {| extraName := Some ""%string;
                           extraVersion := Some ""%string |})
                  requirements) s
     = verify now paymentHeader stated s.
Proof.
  cbn zeta.
  destruct (decodeHeader paymentHeader) as [pp|message] eqn:Hdecode.
  - repeat split;
      apply (verify_same_checks _ _ _ _ _ _ _ pp pp Hdecode Hdecode);
      reflexivity.
  - rewrite !(verify_undecoded _ _ _ _ _ Hdecode). repeat split.
Qed.

(** X6. A network that is neither in the table nor an inherited name is
    signed for under chain 1, the chain of 'ethereum': a payment for such a
    network is answered exactly as the same authorization, with the same
    signature, is answered when payment and requirement both name
    'ethereum'. *)
Theorem unknown_network_shares_ethereum_domain
    now paymentHeader paymentHeader' requirements s pp :
  ownProperty chainIds (network requirements) = None ->
  existsb (String.eqb (network requirements)) objectPrototypeMembers = false ->
  decodeHeader paymentHeader = Normal pp ->
  payloadNetwork pp = network requirements ->
  decodeHeader paymentHeader' = Normal (withPayloadNetwork "ethereum" pp) ->
  verify now paymentHeader requirements s
  = verify now paymentHeader' (withNetwork "ethereum" requirements) s.
Proof.
  intros Hown Hinherited Hdecode Hnetwork Hdecode'.
  apply (verify_same_checks _ _ _ _ _ _ _ _ _ Hdecode Hdecode').
  unfold checksInOrder, signatureRecovers, eip712Domain.
  cbn [withNetwork withPayloadNetwork scheme network maxAmountRequired payTo
       asset extra x402Version payloadScheme payloadNetwork payload].
  rewrite (getChainId_fallback _ Hown Hinherited), Hnetwork, !String.eqb_refl.
  reflexivity.
Qed.

(** X7. [getChainId] returns one of the four numbers of its table or, for an
    inherited name, that member; it never returns 0 or [undefined], and for
    a name of neither kind it returns 1. *)
Theorem getChainId_range network :
  (getChainId network = ChainNumber 84532 /\ network = "base-sepolia"%string)
  \/ (getChainId network = ChainNumber 8453 /\ network = "base"%string)
  \/ (getChainId network = ChainNumber 11155111 /\ network = "sepolia"%string)
  \/ (getChainId network = ChainInherited network
      /\ existsb (String.eqb network) objectPrototypeMembers = true)
  \/ (getChainId network = ChainNumber 1
      /\ (network = "ethereum"%string
          \/ (ownProperty chainIds network = None
              /\ existsb (String.eqb network) objectPrototypeMembers = false))).
Proof.
  unfold getChainId, readProperty, chainIds. cbn [ownProperty].
  destruct (String.eqb_spec "base-sepolia" network) as [<-|_]; [auto|].
  destruct (String.eqb_spec "base" network) as [<-|_]; [auto|].
  destruct (String.eqb_spec "ethereum" network) as [<-|_]; [auto 10|].
  destruct (String.eqb_spec "sepolia" network) as [<-|_]; [auto 10|].
  destruct (existsb (String.eqb network) objectPrototypeMembers);
    auto 10.
Qed.

(** X14. Settling one payment does not change the answer to a payment with
    another nonce: [verify] reads the set of used nonces only at the nonce
    of the header it is given. *)
Theorem settling_leaves_other_nonces_alone
    random16 now paymentHeader requirements s
    now' paymentHeader' requirements' pp' :
  decodeHeader paymentHeader' = Normal pp' ->
  (forall pp, decodeHeader paymentHeader = Normal pp ->
              nonce (payload pp) <> nonce (payload pp')) ->
  fst (verify now' paymentHeader' requirements'
              (snd (settle random16 now paymentHeader requirements s)))
  = fst (verify now' paymentHeader' requirements' s).
Proof.
  intros Hdecode' Hother.
  destruct (settle_cases random16 now paymentHeader requirements s)
    as [(text & _ & ->)|(pp & _ & Hdecode & _ & ->)]; cbn [snd]; [reflexivity|].
  rewrite !(verify_decoded _ _ _ _ _ Hdecode'). cbn [fst]. f_equal.
  unfold checksInOrder. cbn [usedNonces].
  rewrite (bool_decide_ext
             (nonce (payload pp') ∈ {[nonce (payload pp)]} ∪ usedNonces s)
             (nonce (payload pp') ∈ usedNonces s)); [reflexivity|].
  rewrite elem_of_union, elem_of_singleton.
  specialize (Hother pp Hdecode). split; [|auto].
  intros [Heq|Hin]; [congruence|exact Hin].
Qed.

(** X18. [verify] answers valid only for a payment that meets every
    condition: the header decodes, the version is 1, scheme and network are
    those of the requirement and the scheme is 'exact', the nonce is not yet
    used, amount and recipient are the required ones, the authorization has
    not expired, and the signature recovers to the payer's address. *)
Theorem valid_answer_is_sound now paymentHeader requirements s :
  accepted (verify now paymentHeader requirements s) = true ->
  exists pp,
    decodeHeader paymentHeader = Normal pp
    /\ x402Version pp = 1
    /\ payloadScheme pp = scheme requirements
    /\ payloadNetwork pp = network requirements
    /\ payloadScheme pp = "exact"%string
    /\ (nonce (payload pp) ∉ usedNonces s)
    /\ value (payload pp) = maxAmountRequired requirements
    /\ toLowerCase (to (payload pp)) = toLowerCase (payTo requirements)
    /\ now <= validBefore (payload pp)
    /\ exists recoveredAddress,
         verifyTypedData (eip712Domain requirements)
                         (eip3009Message (payload pp)) (signature (payload pp))
         = Normal recoveredAddress
         /\ toLowerCase recoveredAddress = toLowerCase (from (payload pp)).
Proof.
  intros Haccepted. apply accepted_verify in Haccepted.
  destruct (verify_valid_decoded _ _ _ _ Haccepted) as (pp & Hdecode & Hall).
  destruct (checks_all_passed _ _ _ _ Hall)
    as (Hversion & Hscheme & Hnetwork & Hexact & Hfresh & Hvalue & Hto
        & Hexpiry & Hsignature).
  exists pp. repeat (split; [assumption|]).
  unfold signatureRecovers in Hsignature.
  destruct (verifyTypedData _ _ _) as [recovered|]; [|discriminate].
  exists recovered. split; [reflexivity|].
  apply String.eqb_eq, Hsignature.
Qed.

End Facilitator.

(** ** Decimal texts *)

Lemma append_cons x (a b : string) : (String x a +:+ b = String x (a +:+ b))%string.
Proof. reflexivity. Qed.

Lemma append_assoc_string (a b c : string) :
  ((a +:+ b) +:+ c = a +:+ (b +:+ c))%string.
Proof.
  induction a as [|x a IH]; [reflexivity|].
  rewrite !append_cons, IH. reflexivity.
Qed.

Lemma length_append_string (a b : string) :
  String.length (a +:+ b) = (String.length a + String.length b)%nat.
Proof.
  induction a as [|x a IH]; [reflexivity|].
  rewrite append_cons. cbn [String.length]. rewrite IH. reflexivity.
Qed.

Lemma list_ascii_of_append (a b : string) :
  list_ascii_of_string (a +:+ b)
  = list_ascii_of_string a ++ list_ascii_of_string b.
Proof.
  induction a as [|x a IH]; [reflexivity|].
  rewrite append_cons. cbn [list_ascii_of_string]. rewrite IH. reflexivity.
Qed.

Lemma decimalValueFrom_append acc (a b : string) :
  decimalValueFrom acc (a +:+ b) = decimalValueFrom (decimalValueFrom acc a) b.
Proof.
  revert acc. induction a as [|x a IH]; intros acc; [reflexivity|].
  rewrite append_cons. cbn [decimalValueFrom]. apply IH.
Qed.

Lemma digitChar_spec d :
  0 <= d < 10 ->
  isDigit (digitChar d) = true
  /\ Z.of_nat (nat_of_ascii (digitChar d)) - 48 = d.
Proof.
  intros Hd.
  assert (d = 0 \/ d = 1 \/ d = 2 \/ d = 3 \/ d = 4 \/ d = 5 \/ d = 6
          \/ d = 7 \/ d = 8 \/ d = 9) as Hcases by lia.
  repeat (destruct Hcases as [->|Hcases]; [split; reflexivity|]).
  subst d. split; reflexivity.
Qed.

Lemma digitsOf_append fuel n acc :
  digitsOf fuel n acc = (digitsOf fuel n "" +:+ acc)%string.
Proof.
  revert n acc. induction fuel as [|fuel IH]; intros n acc; cbn [digitsOf].
  - reflexivity.
  - destruct (n / 10 =? 0); [reflexivity|].
    rewrite (IH (n / 10) (String (digitChar (n mod 10)) acc)).
    rewrite (IH (n / 10) (String (digitChar (n mod 10)) "")).
    rewrite append_assoc_string. reflexivity.
Qed.

(** The printer writes the digits of a number that its fuel covers: a
    non-empty text of digits that reads back as the number and is no longer
    than any power of ten above the number requires. *)
Lemma digitsOf_spec fuel n :
  (0 < fuel)%nat ->
  0 <= n < 10 ^ Z.of_nat fuel ->
  digitsOf fuel n "" <> ""%string
  /\ forallb isDigit (list_ascii_of_string (digitsOf fuel n "")) = true
  /\ decimalValue (digitsOf fuel n "") = n
  /\ forall k, (0 < k)%nat -> n < 10 ^ Z.of_nat k ->
               (String.length (digitsOf fuel n "") <= k)%nat.
Proof.
  revert n. induction fuel as [|fuel IH]; intros n Hfuel Hn; [lia|].
  cbn [digitsOf].
  assert (0 <= n mod 10 < 10) as Hdigit by (apply Z.mod_pos_bound; lia).
  destruct (digitChar_spec _ Hdigit) as [Hisdigit Hvalue].
  destruct (Z.eqb_spec (n / 10) 0) as [Hsmall|Hlarge].
  - assert (n mod 10 = n) as Hmod.
    { pose proof (Z.div_mod n 10 ltac:(lia)) as Hdm. lia. }
    split; [discriminate|].
    split; [cbn [list_ascii_of_string forallb]; rewrite Hisdigit; reflexivity|].
    split; [unfold decimalValue; cbn [decimalValueFrom]; lia|].
    intros k Hk _. cbn [String.length]. lia.
  - assert (0 < n / 10) as Hpos.
    { pose proof (Z.div_pos n 10 ltac:(lia) ltac:(lia)). lia. }
    assert (n / 10 < 10 ^ Z.of_nat fuel) as Hbound.
    { apply Z.div_lt_upper_bound; [lia|].
      replace (Z.of_nat (S fuel)) with (Z.succ (Z.of_nat fuel)) in Hn by lia.
      rewrite Z.pow_succ_r in Hn by lia. lia. }
    assert (0 < fuel)%nat as Hfuel'.
    { destruct fuel; [|lia]. cbn in Hbound. lia. }
    destruct (IH (n / 10) Hfuel' ltac:(lia)) as (Hnonempty & Hdigits & Hreads & Hlength).
    rewrite digitsOf_append.
    split.
    { destruct (digitsOf fuel (n / 10) ""); [contradiction|discriminate]. }
    split.
    { rewrite list_ascii_of_append, forallb_app, Hdigits.
      cbn [list_ascii_of_string forallb]. rewrite Hisdigit. reflexivity. }
    split.
    { unfold decimalValue in *. rewrite decimalValueFrom_append, Hreads.
      cbn [decimalValueFrom].
      pose proof (Z.div_mod n 10 ltac:(lia)) as Hdm. lia. }
    intros k Hk Hnk. rewrite length_append_string. cbn [String.length].
    destruct k as [|k]; [lia|].
    destruct k as [|k].
    { cbn in Hnk. pose proof (Z.div_small n 10 ltac:(lia)). lia. }
    assert (String.length (digitsOf fuel (n / 10) "") <= S k)%nat; [|lia].
    apply Hlength; [lia|].
    apply Z.div_lt_upper_bound; [lia|].
    replace (Z.of_nat (S (S k))) with (Z.succ (Z.of_nat (S k))) in Hnk by lia.
    rewrite Z.pow_succ_r in Hnk by lia. lia.
Qed.

Lemma fuel_covers n :
  0 <= n -> n < 10 ^ Z.of_nat (S (Z.to_nat (Z.log2 n))).
Proof.
  intros Hn. pose proof (Z.log2_nonneg n) as Hlog.
  replace (Z.of_nat (S (Z.to_nat (Z.log2 n)))) with (Z.succ (Z.log2 n)) by lia.
  destruct (Z.eq_dec n 0) as [->|Hpos]; [reflexivity|].
  destruct (Z.log2_spec n ltac:(lia)) as [_ Hupper].
  eapply Z.lt_le_trans; [exact Hupper|].
  apply Z.pow_le_mono_l. lia.
Qed.

(** [toString] of a [BigInt] that is not negative. *)
Lemma bigIntToString_nonnegative n :
  0 <= n ->
  isDigits (bigIntToString n) = true
  /\ decimalValue (bigIntToString n) = n
  /\ forall k, (0 < k)%nat -> n < 10 ^ Z.of_nat k ->
               (String.length (bigIntToString n) <= k)%nat.
Proof.
  intros Hn. unfold bigIntToString, isDigits.
  rewrite (proj2 (Z.ltb_ge n 0) Hn).
  destruct (digitsOf_spec (S (Z.to_nat (Z.log2 n))) n ltac:(lia))
    as (Hnonempty & Hdigits & Hreads & Hlength).
  { split; [exact Hn|apply fuel_covers, Hn]. }
  rewrite Hdigits. apply String.eqb_neq in Hnonempty. rewrite Hnonempty.
  auto.
Qed.

Lemma padStart_digits k (t : string) :
  (String.length t <= k)%nat ->
  forallb isDigit (list_ascii_of_string t) = true ->
  String.length (padStart k "0" t) = k
  /\ forallb isDigit (list_ascii_of_string (padStart k "0" t)) = true
  /\ decimalValue (padStart k "0" t) = decimalValue t.
Proof.
  intros Hlength Hdigits. unfold padStart.
  generalize (k - String.length t)%nat at 2 3 as zeros.
  rewrite length_append_string, length_string_of_list_ascii, repeat_length.
  intros zeros. split; [lia|].
  rewrite list_ascii_of_append, list_ascii_of_string_of_list_ascii, forallb_app,
    Hdigits.
  unfold decimalValue. rewrite decimalValueFrom_append.
  induction zeros as [|zeros [IHdigits IHvalue]]; [split; reflexivity|].
  cbn [repeat forallb string_of_list_ascii decimalValueFrom].
  split; [exact IHdigits|exact IHvalue].
Qed.

(** ** Properties of the client *)

Section ClientProperties.

Variable decodeHeader : string -> Completion PaymentPayload.
Variable verifyTypedData : Domain -> Message -> string -> Completion string.
Variable signTypedData : Client.Wallet -> Domain -> Message -> Completion string.
Variable encodeHeader : PaymentPayload -> string.
Variable bigIntOfString : string -> Completion Z.

Lemma createPayment_unfold now randomByte wallet requirement unsigned :
  Client.createPayment signTypedData encodeHeader now randomByte wallet requirement
  = match signTypedData wallet (eip712Domain requirement)
            (eip3009Message
               (payload (Client.createdPayment now randomByte wallet
                                               requirement unsigned))) with
    | Throw e => Throw e
    | Normal signature' =>
        Normal (encodeHeader (Client.createdPayment now randomByte wallet
                                                    requirement signature'))
    end.
Proof.
  unfold Client.createPayment, Client.createdPayment, eip712Domain, eip3009Message.
  cbn [payload from to value validAfter validBefore nonce].
  change (Client.getChainId (network requirement))
    with (getChainId (network requirement)).
  destruct (signTypedData _ _ _); reflexivity.
Qed.

(** X8. The client derives the chain identifier of every network as the
    facilitator does, and [createPayment] signs the very domain and message
    that the facilitator rebuilds from the requirement and the decoded
    payment; it returns the encoded payment, or throws what signing throws. *)
Theorem client_signs_what_facilitator_checks
    now randomByte wallet requirement unsigned :
  (forall network, Client.getChainId network = getChainId network)
  /\ Client.createPayment signTypedData encodeHeader now randomByte wallet requirement
     = match signTypedData wallet (eip712Domain requirement)
               (eip3009Message
                  (payload (Client.createdPayment now randomByte wallet
                                                  requirement unsigned))) with
       | Throw e => Throw e
       | Normal signature' =>
           Normal (encodeHeader (Client.createdPayment now randomByte wallet
                                                       requirement signature'))
       end.
Proof.
  split.
  - intros network. unfold Client.getChainId, getChainId. reflexivity.
  - apply createPayment_unfold.
Qed.

Lemma createPayment_signed now randomByte wallet requirement signature' :
  signTypedData wallet (eip712Domain requirement)
    (eip3009Message
       (payload (Client.createdPayment now randomByte wallet requirement signature')))
  = Normal signature' ->
  Client.createPayment signTypedData encodeHeader now randomByte wallet requirement
  = Normal (encodeHeader (Client.createdPayment now randomByte wallet
                                                requirement signature')).
Proof.
  intros Hsigned.
  rewrite (createPayment_unfold _ _ _ _ signature'), Hsigned. reflexivity.
Qed.

(** The checks of a created payment against its own requirement: version,
    scheme and network, amount and recipient cannot fail. *)
Lemma created_payment_checks s serverNow now randomByte wallet requirement signature' :
  firstFailure
    (checksInOrder verifyTypedData s serverNow
       (Client.createdPayment now randomByte wallet requirement signature')
       requirement)
  = firstFailure
      [ (negb (String.eqb (scheme requirement) "exact"),
         "Unsupported payment scheme"%string);
        (bool_decide
           (orDefault (requirementNonce requirement) (Client.randomNonce randomByte)
            ∈ usedNonces s),
         "Nonce already used"%string);
        (now + maxTimeoutSeconds requirement <? serverNow,
         "Payment expired"%string);
        (negb (signatureRecovers verifyTypedData
                 (payload (Client.createdPayment now randomByte wallet
                                                 requirement signature'))
                 requirement),
         "Invalid signature"%string) ].
Proof.
  unfold checksInOrder, Client.createdPayment.
  cbn [firstFailure x402Version payloadScheme payloadNetwork payload value to
       nonce validBefore].
  rewrite !String.eqb_refl. cbn [negb orb Z.eqb Pos.eqb].
  destruct (negb (String.eqb (scheme requirement) "exact")); [reflexivity|].
  destruct (bool_decide _); reflexivity.
Qed.

(** X9. End to end: a payment that [createPayment] built for a requirement
    of scheme 'exact', carried by a header that decodes to what was encoded,
    with a nonce not yet used and a signature that recovers to the wallet's
    address, is answered valid and settles as long as the facilitator's
    clock is not past the client's clock plus [maxTimeoutSeconds]; from the
    next second on it is answered 'Payment expired'. *)
Theorem created_payment_is_accepted
    now randomByte wallet requirement signature' serverNow random16 s :
  let created :=
    Client.createdPayment now randomByte wallet requirement signature' in
  scheme requirement = "exact"%string ->
  signTypedData wallet (eip712Domain requirement)
                (eip3009Message (payload created)) = Normal signature' ->
  decodeHeader (encodeHeader created) = Normal created ->
  (exists recoveredAddress,
     verifyTypedData (eip712Domain requirement)
                     (eip3009Message (payload created)) signature'
     = Normal recoveredAddress
     /\ toLowerCase recoveredAddress = toLowerCase (Client.address wallet)) ->
  nonce (payload created) ∉ usedNonces s ->
  exists paymentHeader,
    Client.createPayment signTypedData encodeHeader now randomByte wallet requirement
    = Normal paymentHeader
    /\ (serverNow <= now + maxTimeoutSeconds requirement ->
        verify decodeHeader verifyTypedData serverNow paymentHeader requirement s
        = (Normal valid, s)
        /\ succeeded (settle decodeHeader verifyTypedData random16 serverNow
                             paymentHeader requirement s) = true)
    /\ (now + maxTimeoutSeconds requirement < serverNow ->
        verify decodeHeader verifyTypedData serverNow paymentHeader requirement s
        = (Normal (invalid "Payment expired"), s)).
Proof.
  intros created Hexact Hsigned Hdecode (recovered & Hrecover & Hfrom) Hfresh.
  exists (encodeHeader created).
  split; [apply createPayment_signed, Hsigned|].
  assert (signatureRecovers verifyTypedData (payload created) requirement = true)
    as Hsignature.
  { unfold signatureRecovers.
    change (signature (payload created)) with signature'.
    change (from (payload created)) with (Client.address wallet).
    rewrite Hrecover, Hfrom. apply String.eqb_refl. }
  assert (forall t,
            verify decodeHeader verifyTypedData t (encodeHeader created)
                   requirement s
            = (Normal (if now + maxTimeoutSeconds requirement <? t
                       then invalid "Payment expired" else valid), s))
    as Hverify.
  { intros t.
    rewrite (verify_decoded _ _ _ _ _ _ _ Hdecode).
    unfold created in *. rewrite created_payment_checks. cbn [firstFailure].
    rewrite Hexact, Hsignature. cbn [String.eqb Ascii.eqb Bool.eqb negb].
    rewrite bool_decide_eq_false_2 by exact Hfresh.
    destruct (now + maxTimeoutSeconds requirement <? t); reflexivity. }
  split.
  - intros Hwindow. specialize (Hverify serverNow).
    rewrite (proj2 (Z.ltb_ge _ _) Hwindow) in Hverify.
    split; [exact Hverify|].
    unfold succeeded.
    rewrite (settle_commits _ _ _ _ _ _ _ _ Hdecode Hverify). reflexivity.
  - intros Hlate. rewrite Hverify, (proj2 (Z.ltb_lt _ _) Hlate). reflexivity.
Qed.

(** X10. Whatever the state of the facilitator and its clock, a payment that
    [createPayment] built is never refused for its version, scheme or
    network, amount or recipient when checked against the requirement it was
    built for: [verify] answers valid or one of 'Unsupported payment
    scheme', 'Nonce already used', 'Payment expired', 'Invalid signature'. *)
Theorem created_payment_outcomes
    now randomByte wallet requirement signature' serverNow s :
  let created :=
    Client.createdPayment now randomByte wallet requirement signature' in
  decodeHeader (encodeHeader created) = Normal created ->
  exists response,
    verify decodeHeader verifyTypedData serverNow (encodeHeader created)
           requirement s = (Normal response, s)
    /\ response ∈ [ valid;
                    invalid "Unsupported payment scheme";
                    invalid "Nonce already used";
                    invalid "Payment expired";
                    invalid "Invalid signature" ].
Proof.
  intros created Hdecode. eexists. split.
  - rewrite (verify_decoded _ _ _ _ _ _ _ Hdecode). unfold created.
    rewrite created_payment_checks. reflexivity.
  - cbn [firstFailure].
    destruct (negb (String.eqb (scheme requirement) "exact"));
      [right; left|].
    destruct (bool_decide _); [do 2 right; left|].
    destruct (_ <? serverNow); [do 3 right; left|].
    destruct (negb _); [do 4 right; left|left].
Qed.

(** X11. A requirement that names a nonce gives it to every payment built for
    it: once one of them has settled, every payment built for that
    requirement afterwards, by any wallet at any time, is answered 'Nonce
    already used'. *)
Theorem requirement_nonce_is_spent_once
    now randomByte wallet signature' now' randomByte' wallet' signature''
    requirement sharedNonce random16 settleNow s0 calls serverNow :
  let first := Client.createdPayment now randomByte wallet requirement signature' in
  let second :=
    Client.createdPayment now' randomByte' wallet' requirement signature'' in
  requirementNonce requirement = Some sharedNonce ->
  sharedNonce <> ""%string ->
  decodeHeader (encodeHeader first) = Normal first ->
  decodeHeader (encodeHeader second) = Normal second ->
  succeeded (settle decodeHeader verifyTypedData random16 settleNow
                    (encodeHeader first) requirement s0) = true ->
  let s :=
    runCalls decodeHeader verifyTypedData calls
      (snd (settle decodeHeader verifyTypedData random16 settleNow
                   (encodeHeader first) requirement s0)) in
  nonce (payload second) = sharedNonce
  /\ verify decodeHeader verifyTypedData serverNow (encodeHeader second)
            requirement s
     = (Normal (invalid "Nonce already used"), s).
Proof.
  intros first second Hshared Hnonempty Hdecode Hdecode' Hsettled s.
  assert (forall p, p = first \/ p = second -> nonce (payload p) = sharedNonce)
    as Hnonce.
  { intros p [->| ->]; unfold first, second, Client.createdPayment;
      cbn [payload nonce]; rewrite Hshared; unfold orDefault;
      apply String.eqb_neq in Hnonempty; rewrite Hnonempty; reflexivity. }
  split; [apply Hnonce; right; reflexivity|].
  destruct (succeeded_settle _ _ _ _ _ _ _ Hsettled)
    as (pp & Hdecode0 & _ & Hall & Hstate).
  assert (pp = first) as -> by congruence.
  destruct (checks_all_passed _ _ _ _ _ Hall) as (_ & _ & _ & Hexact & _).
  assert (sharedNonce ∈ usedNonces s) as Hused.
  { apply (runCalls_grows decodeHeader verifyTypedData calls). rewrite Hstate.
    cbn [usedNonces]. rewrite (Hnonce first) by (left; reflexivity).
    apply elem_of_union_l, elem_of_singleton. reflexivity. }
  rewrite (verify_decoded _ _ _ _ _ _ _ Hdecode').
  unfold second. rewrite created_payment_checks. cbn [firstFailure].
  change (scheme requirement) with (payloadScheme first). rewrite Hexact.
  cbn [String.eqb Ascii.eqb Bool.eqb negb].
  rewrite Hshared. unfold orDefault.
  apply String.eqb_neq in Hnonempty. rewrite Hnonempty.
  rewrite bool_decide_eq_true_2 by exact Hused. reflexivity.
Qed.

Lemma byteHex_is_hex b : forallb isHexDigit (Client.byteHex b) = true.
Proof.
  unfold Client.byteHex. cbn [forallb].
  rewrite hexDigit_is_hex.
  assert (b / 16 = (b / 16) mod 16 \/ 16 <= b / 16)%nat as [Heq|Hlarge].
  { destruct (Nat.lt_ge_cases (b / 16) 16) as [Hlt|Hge]; [left|right; exact Hge].
    symmetry. apply Nat.mod_small, Hlt. }
  - rewrite Heq, hexDigit_is_hex. reflexivity.
  - unfold hexDigit. rewrite nth_overflow; [reflexivity|].
    change (List.length (list_ascii_of_string "0123456789abcdef")) with 16%nat.
    exact Hlarge.
Qed.

Lemma hex_of_bytes (byte : nat -> nat) (l : list nat) :
  List.length (List.concat (List.map (fun i => Client.byteHex (byte i)) l))
  = (2 * List.length l)%nat
  /\ forallb isHexDigit
       (List.concat (List.map (fun i => Client.byteHex (byte i)) l)) = true.
Proof.
  induction l as [|i l [IHlength IHhex]]; [split; reflexivity|].
  cbn [List.map List.concat].
  rewrite List.length_app, forallb_app, byteHex_is_hex, IHhex, IHlength.
  split; [cbn [Client.byteHex List.length]; lia|reflexivity].
Qed.

(** X12. Without a nonce in the requirement, the payment gets a fresh one of
    the form 0x and 64 hexadecimal digits, the text of a 32-byte value,
    whatever bytes are drawn. *)
Theorem created_nonce_is_bytes32 now randomByte wallet requirement signature' :
  requirementNonce requirement = None ->
  nonce (payload (Client.createdPayment now randomByte wallet requirement
                                        signature'))
  = Client.randomNonce randomByte
  /\ isHexText 64 (Client.randomNonce randomByte).
Proof.
  intros Hnone. split.
  { unfold Client.createdPayment. cbn [payload nonce]. rewrite Hnone.
    reflexivity. }
  unfold isHexText, Client.randomNonce. eexists. split; [reflexivity|].
  rewrite length_string_of_list_ascii, list_ascii_of_string_of_list_ascii.
  destruct (hex_of_bytes (fun i => (randomByte i mod 256)%nat) (seq 0 32))
    as [Hlength Hhex].
  rewrite Hlength, Hhex, List.length_seq. split; reflexivity.
Qed.

(** X13. [formatAmount] of an amount that is not negative writes the whole
    units, a point and exactly six digits; read back, units times one
    million plus the six digits is the amount, so nothing is lost. *)
Theorem formatAmount_round_trip amount v :
  bigIntOfString amount = Normal v ->
  0 <= v ->
  exists units fraction,
    Client.formatAmount bigIntOfString amount
    = Normal (units +:+ "." +:+ fraction)%string
    /\ isDigits units = true
    /\ isDigits fraction = true
    /\ String.length fraction = 6%nat
    /\ decimalValue units * 1000000 + decimalValue fraction = v.
Proof.
  intros Hparsed Hv. unfold Client.formatAmount. rewrite Hparsed.
  change (10 ^ Z.of_nat 6) with 1000000.
  rewrite Z.quot_div_nonneg, Z.rem_mod_nonneg by lia.
  assert (0 <= v / 1000000) as Hunits by (apply Z.div_pos; lia).
  assert (0 <= v mod 1000000 < 1000000) as Hfraction
    by (apply Z.mod_pos_bound; lia).
  destruct (bigIntToString_nonnegative _ Hunits) as (Hdigits & Hreads & _).
  destruct (bigIntToString_nonnegative (v mod 1000000) ltac:(lia))
    as (Hdigits' & Hreads' & Hlength').
  unfold isDigits in Hdigits'. apply andb_true_iff in Hdigits'.
  destruct Hdigits' as [_ Hdigits'].
  destruct (padStart_digits 6 (bigIntToString (v mod 1000000)))
    as (Hlength & Hpadded & Hsame).
  { apply Hlength'; [lia|]. change (10 ^ Z.of_nat 6) with 1000000. lia. }
  { exact Hdigits'. }
  do 2 eexists. split; [reflexivity|].
  split; [exact Hdigits|]. split.
  { unfold isDigits. rewrite Hpadded.
    destruct (padStart 6 "0" (bigIntToString (v mod 1000000)));
      [discriminate Hlength|reflexivity]. }
  split; [exact Hlength|].
  rewrite Hsame, Hreads, Hreads'.
  pose proof (Z.div_mod v 1000000 ltac:(lia)). lia.
Qed.

(** X15. [formatAmount] is made for amounts that are not negative: for a
    negative amount that is not a whole number of units the six places after
    the point are not six digits, because the remainder keeps the sign (-5
    is written 0.0000-5). *)
Theorem formatAmount_of_negative_amount amount v :
  bigIntOfString amount = Normal v ->
  v < 0 ->
  Z.rem v 1000000 <> 0 ->
  exists units fraction,
    Client.formatAmount bigIntOfString amount
    = Normal (units +:+ "." +:+ fraction)%string
    /\ isDigits fraction = false.
Proof.
  intros Hparsed Hnegative Hremainder. unfold Client.formatAmount.
  rewrite Hparsed. change (10 ^ Z.of_nat 6) with 1000000.
  do 2 eexists. split; [reflexivity|].
  assert (Z.rem v 1000000 < 0) as Hsign.
  { pose proof (Z.rem_nonpos v 1000000 ltac:(lia) ltac:(lia)). lia. }
  unfold isDigits, padStart, bigIntToString.
  rewrite (proj2 (Z.ltb_lt _ _) Hsign).
  rewrite list_ascii_of_append, forallb_app.
  cbn [list_ascii_of_string forallb]. 
  replace (isDigit "-") with false by reflexivity.
  rewrite andb_false_l, !andb_false_r. reflexivity.
Qed.

Variable newWallet : string -> Completion Client.Wallet.
Variable fetch : string -> option string -> Completion Client.Response.
Variable serverUrl : string.

(** Destructs what a [match] of the goal inspects, until none is left. *)
Ltac destruct_matches :=
  repeat match goal with
         | |- context [match ?x with _ => _ end] => destruct x eqn:?
         end.

(** X16. [makeX402Request] sends no request, or the plain one, or the plain
    one followed by one that carries a payment.  It sends the payment only
    when the wallet could be made, the first answer had status 402 and a
    body that lists at least one requirement, the amount of the first
    requirement could be printed, and [createPayment] built the header for
    that first requirement. *)
Theorem payment_follows_a_402 now randomByte endpoint privateKey :
  let url := (serverUrl +:+ endpoint)%string in
  let run :=
    Client.makeX402Request signTypedData encodeHeader bigIntOfString
      newWallet fetch serverUrl now randomByte endpoint privateKey in
  fst run = []
  \/ fst run = [Client.Get url None]
  \/ exists wallet initialResponse requirement others paymentHeader,
       fst run = [Client.Get url None; Client.Get url (Some paymentHeader)]
       /\ newWallet privateKey = Normal wallet
       /\ fetch url None = Normal initialResponse
       /\ Client.status initialResponse = 402
       /\ Client.json initialResponse
          = Normal (Client.BodyObject (Some (requirement :: others)))
       /\ (exists text,
             Client.formatAmount bigIntOfString (maxAmountRequired requirement)
             = Normal text)
       /\ Client.createPayment signTypedData encodeHeader now randomByte
                               wallet requirement
          = Normal paymentHeader.
Proof.
  cbn zeta. unfold Client.makeX402Request.
  destruct (newWallet privateKey) as [wallet|]; [|left; reflexivity].
  destruct (fetch (serverUrl +:+ endpoint)%string None) as [initial|] eqn:Hfetch;
    [|right; left; reflexivity].
  destruct (Z.eqb_spec (Client.status initial) 402) as [Hstatus|_]; cbn [negb];
    [|right; left; destruct (Client.json initial); reflexivity].
  destruct (Client.json initial) as [[|[[|requirement others]|]]|] eqn:Hjson;
    try (right; left; reflexivity).
  destruct (Client.formatAmount _ _) as [text|] eqn:Hamount;
    [|right; left; reflexivity].
  destruct (Client.createPayment _ _ _ _ _ _) as [paymentHeader|] eqn:Hcreated;
    [|right; left; reflexivity].
  right; right. exists wallet, initial, requirement, others, paymentHeader.
  split.
  { destruct_matches; reflexivity. }
  repeat split; try assumption; try reflexivity. exists text. exact Hamount.
Qed.


End ClientProperties.

(** ** Properties of the class over JavaScript values *)

Section JsProperties.

Variable parseHeader : string -> Completion Js.Value.
Variable verifyTypedData : Domain -> Js.Message -> Js.Value -> Completion string.
Variable textToNumber : string -> option Js.Number.
Variable arrayToString : list Js.Value -> Completion string.
Variable cannotRead : Js.Value -> string -> string.
Variable notAFunction : string -> string.
Variable cannotConvert : string.

Local Abbreviation getProperty := (Js.getProperty cannotRead).
Local Abbreviation verifyJs :=
  (Js.verify parseHeader verifyTypedData textToNumber arrayToString
             cannotRead notAFunction cannotConvert).
Local Abbreviation settleJs :=
  (Js.settle parseHeader verifyTypedData textToNumber arrayToString
             cannotRead notAFunction cannotConvert).
Local Abbreviation settleAfterVerifyJs :=
  (Js.settleAfterVerify parseHeader arrayToString cannotRead cannotConvert).

Ltac js_unfold :=
  cbv [Js.verify Js.settle Js.settleAfterVerify Js.verifyEIP3009Signature
       Js.tryCatch Js.bind Js.liftCompletion Js.ret Js.hasNonce Js.addNonce].

Ltac js_step :=
  match goal with
  | |- context [match ?c with Normal _ => _ | Throw _ => _ end] =>
      destruct c eqn:?
  | |- context [if ?b then _ else _] => destruct b eqn:?
  end; cbn beta iota.

Ltac fixed_text :=
  left; repeat (apply elem_of_cons; first [left; reflexivity | right]).

Lemma Js_verify_response now paymentHeader requirements s :
  exists verification,
    verifyJs now paymentHeader requirements s = (Normal verification, s)
    /\ (verification = valid
        \/ exists text, verification = invalid text /\ verifyReasonText text).
Proof.
  js_unfold. cbn beta iota.
  repeat js_step.
  all: eexists; split; [reflexivity|].
  all: try (left; reflexivity).
  all: right; eexists; split; [reflexivity|].
  all: try (right; eexists; reflexivity).
  all: fixed_text.
Qed.

Lemma strictEqualsText_true v s :
  Js.strictEqualsText v s = true -> v = Js.Text s.
Proof.
  destruct v; cbn; try discriminate.
  intros Heq. apply String.eqb_eq in Heq. congruence.
Qed.

Lemma callToLowerCase_normal v expression lower :
  Js.callToLowerCase cannotRead notAFunction v expression = Normal lower ->
  exists s, v = Js.Text s /\ lower = toLowerCase s.
Proof.
  destruct v; cbn; try discriminate.
  intros [= <-]. eexists. split; reflexivity.
Qed.

Ltac js_step_in H :=
  match type of H with
  | context [match ?c with Normal _ => _ | Throw _ => _ end] =>
      destruct c eqn:?
  | context [if ?b then _ else _] => destruct b eqn:?
  end; cbn beta iota in H.

(** What a valid answer of [verify] tells about the document. *)
Lemma Js_verify_valid now paymentHeader requirements s verification s' :
  verifyJs now paymentHeader requirements s = (Normal verification, s') ->
  isValid verification = true ->
  exists document body nonce to from,
    parseHeader paymentHeader = Normal document
    /\ getProperty document "scheme" = Normal (Js.Text "exact")
    /\ getProperty document "network" = Normal (Js.Text (network requirements))
    /\ getProperty document "payload" = Normal body
    /\ getProperty body "nonce" = Normal nonce
    /\ existsb (Js.sameValueZero nonce) (Js.usedNonces s) = false
    /\ getProperty body "value"
       = Normal (Js.Text (maxAmountRequired requirements))
    /\ getProperty body "to" = Normal (Js.Text to)
    /\ getProperty body "from" = Normal (Js.Text from).
Proof.
  intros Hverify Hvalid. revert Hverify. js_unfold. cbn beta iota.
  intros Hverify.
  repeat js_step_in Hverify;
    injection Hverify as <- <-; try discriminate Hvalid.
  all: repeat match goal with
         | H : negb _ = false |- _ => apply negb_false_iff in H
         | H : _ || _ = false |- _ => apply orb_false_elim in H; destruct H
         | H : Js.strictEqualsText _ _ = true |- _ =>
             apply strictEqualsText_true in H
         | H : Js.callToLowerCase _ _ _ _ = Normal _ |- _ =>
             apply callToLowerCase_normal in H; destruct H as (? & -> & ->)
         end.
  all: repeat match goal with
              | H : ?v = Js.Text _ |- _ => is_var v; subst v
              end.
  all: try match goal with
       | Hp : getProperty ?d "payload" = Normal ?b,
         Hn : getProperty ?b "nonce" = Normal ?n,
         Ht : getProperty ?b "to" = Normal (Js.Text ?t),
         Hf : getProperty ?b "from" = Normal (Js.Text ?f) |- _ =>
           exists d, b, n, t, f
       end.
  all: repeat split; first [reflexivity | assumption | congruence].
Qed.

(** After a valid answer, [settle] adds the nonce the document holds and
    succeeds: none of its conversions throws. *)
Lemma Js_settle_commits random16 now paymentHeader requirements s :
  verifyJs now paymentHeader requirements s = (Normal valid, s) ->
  exists nonce,
    settleJs random16 now paymentHeader requirements s
    = (Normal {| Js.success := true;
                 Js.txHash := Some (fakeTxHash random16);
                 Js.networkId := Some (Js.Text (network requirements));
                 Js.error := None |},
       {| Js.usedNonces := Js.usedNonces s ++ [nonce] |}).
Proof.
  intros Hverify.
  destruct (Js_verify_valid _ _ _ _ _ _ Hverify eq_refl)
    as (document & body & nonce & to & from & Hparse & _ & Hnetwork
        & Hpayload & Hnonce & Hfresh & Hvalue & Hto & Hfrom).
  exists nonce.
  cbv [Js.settle Js.bind]. rewrite Hverify.
  cbv [Js.settleAfterVerify Js.tryCatch Js.bind Js.liftCompletion Js.ret
       Js.addNonce].
  cbn [isValid valid negb].
  rewrite Hparse, Hpayload, Hnonce, Hnetwork, Hvalue, Hfrom, Hto, Hfresh.
  reflexivity.
Qed.

Lemma Js_settle_rejects random16 now paymentHeader requirements s text :
  verifyJs now paymentHeader requirements s = (Normal (invalid text), s) ->
  verifyReasonText text ->
  settleJs random16 now paymentHeader requirements s
  = (Normal (Js.failure text), s).
Proof.
  intros Hverify Htext.
  cbv [Js.settle Js.bind]. rewrite Hverify.
  cbv [Js.settleAfterVerify Js.ret]. cbn [isValid invalid negb invalidReason].
  unfold orDefault. rewrite (verifyReasonText_nonempty _ Htext). reflexivity.
Qed.

Lemma Js_settle_response random16 now paymentHeader requirements s :
  exists response s',
    settleJs random16 now paymentHeader requirements s = (Normal response, s')
    /\ (Js.success response = true
        \/ exists text, response = Js.failure text /\ verifyReasonText text).
Proof.
  destruct (Js_verify_response now paymentHeader requirements s)
    as (verification & Hverify & [->|(text & -> & Htext)]).
  - destruct (Js_settle_commits random16 _ _ _ _ Hverify) as (nonce & Hsettle).
    do 2 eexists. split; [exact Hsettle|]. left. reflexivity.
  - do 2 eexists. split; [apply Js_settle_rejects; eassumption|].
    right. exists text. split; [reflexivity|exact Htext].
Qed.

Lemma Js_verify_unparsed now paymentHeader requirements s message :
  parseHeader paymentHeader = Throw message ->
  verifyJs now paymentHeader requirements s
  = (Normal (invalid ("Verification failed: " +:+ message)), s).
Proof.
  intros Hparse. js_unfold. cbn beta iota. rewrite Hparse. reflexivity.
Qed.

Ltac js_object Hparse :=
  js_unfold; cbn beta iota; rewrite Hparse; cbn [Js.getProperty].

Lemma Js_verify_no_version now paymentHeader requirements s fields :
  parseHeader paymentHeader = Normal (Js.Object fields) ->
  Js.ownField fields "x402Version" = None ->
  verifyJs now paymentHeader requirements s
  = (Normal (invalid "Unsupported x402 version"), s).
Proof.
  intros Hparse Hversion. js_object Hparse. rewrite Hversion. reflexivity.
Qed.

Lemma Js_verify_no_scheme now paymentHeader requirements s fields :
  parseHeader paymentHeader = Normal (Js.Object fields) ->
  Js.ownField fields "x402Version" = Some (Js.Num (Js.ofInteger 1)) ->
  Js.ownField fields "scheme" = None \/ Js.ownField fields "network" = None ->
  verifyJs now paymentHeader requirements s
  = (Normal (invalid "Scheme or network mismatch"), s).
Proof.
  intros Hparse Hversion Hmissing. js_object Hparse. rewrite Hversion.
  cbn [Js.strictEqualsInteger Js.numberEqb Js.ofInteger negb].
  change (QArith_base.Qeq_bool (QArith_base.inject_Z 1) (QArith_base.inject_Z 1))
    with true.
  cbn [negb].
  destruct Hmissing as [Hmissing|Hmissing]; rewrite Hmissing.
  - destruct (Js.ownField fields "network"); reflexivity.
  - destruct (Js.ownField fields "scheme"); cbn [Js.strictEqualsText negb];
      rewrite orb_true_r; reflexivity.
Qed.

(** A document that is an object, checked field by field: what [verify]
    answers when the field a check reads is not there. *)
Lemma Js_verify_missing_fields now paymentHeader requirements s fields :
  parseHeader paymentHeader = Normal (Js.Object fields) ->
  Js.ownField fields "x402Version" = Some (Js.Num (Js.ofInteger 1)) ->
  Js.ownField fields "scheme" = Some (Js.Text "exact") ->
  Js.ownField fields "network" = Some (Js.Text (network requirements)) ->
  scheme requirements = "exact"%string ->
  (Js.ownField fields "payload" = None ->
   verifyJs now paymentHeader requirements s
   = (Normal (invalid ("Verification failed: "
                       +:+ cannotRead Js.Undefined "nonce")), s))
  /\ (forall body nonce,
        Js.ownField fields "payload" = Some (Js.Object body) ->
        getProperty (Js.Object body) "nonce" = Normal nonce ->
        existsb (Js.sameValueZero nonce) (Js.usedNonces s) = false ->
        (Js.ownField body "value" = None ->
         verifyJs now paymentHeader requirements s
         = (Normal (invalid "Payment amount mismatch"), s))
        /\ (Js.ownField body "value"
            = Some (Js.Text (maxAmountRequired requirements)) ->
            (Js.ownField body "to" = None ->
             verifyJs now paymentHeader requirements s
             = (Normal (invalid ("Verification failed: "
                                 +:+ cannotRead Js.Undefined "toLowerCase")), s))
            /\ (forall to,
                  Js.ownField body "to" = Some (Js.Text to) ->
                  toLowerCase to = toLowerCase (payTo requirements) ->
                  (Js.ownField body "validBefore" = None ->
                   verifyJs now paymentHeader requirements s
                   = (Normal valid, s)
                   \/ verifyJs now paymentHeader requirements s
                      = (Normal (invalid "Invalid signature"), s))
                  /\ (forall validBefore,
                        getProperty (Js.Object body) "validBefore"
                        = Normal validBefore ->
                        Js.lessThan textToNumber arrayToString cannotConvert
                                    validBefore now = Normal false ->
                        Js.ownField body "from" = None ->
                        verifyJs now paymentHeader requirements s
                        = (Normal (invalid "Invalid signature"), s))))).
Proof.
  intros Hparse Hversion Hscheme Hnetwork Hexact.
  js_object Hparse. rewrite Hversion, Hscheme, Hnetwork. cbn beta iota.
  change (Js.strictEqualsInteger (Js.Num (Js.ofInteger 1)) 1) with true.
  cbn [Js.strictEqualsText]. rewrite Hexact, !String.eqb_refl.
  cbn [negb orb]. change (("exact" =? "exact")%string) with true.
  cbn beta iota.
  split.
  - intros Hpayload. rewrite Hpayload. reflexivity.
  - intros body nonce Hpayload Hnonce Hfresh. rewrite Hpayload.
    cbn beta iota. cbn [Js.getProperty]. rewrite Hnonce. cbn beta iota.
    rewrite Hfresh. split.
    + intros Hvalue. rewrite Hvalue. reflexivity.
    + intros Hvalue. rewrite Hvalue. cbn beta iota.
      cbn [Js.strictEqualsText]. rewrite String.eqb_refl. cbn [negb].
      split.
      * intros Hto. rewrite Hto. reflexivity.
      * intros to Hto Hlower. rewrite Hto. cbn beta iota.
        cbn [Js.callToLowerCase]. rewrite Hlower, String.eqb_refl.
        cbn [negb]. split.
        -- intros Hbefore. rewrite Hbefore. cbn beta iota.
           cbn [Js.lessThan Js.toNumber].
           repeat js_step; first [left; reflexivity | right; reflexivity].
        -- intros validBefore Hbefore Hlive Hfrom.
           cbn [Js.getProperty] in Hbefore. rewrite Hbefore, Hlive, Hfrom.
           cbn beta iota. cbn [Js.callToLowerCase].
           repeat (js_step; cbn [negb]); reflexivity.
Qed.

(** C8, amended.  Over every document a header can hold, [verify] and
    [settle] return a response and never throw.  A response of [verify] that
    is not valid carries one of eight fixed texts ('Unsupported payment
    scheme' among them) or 'Verification failed: ' followed by the message of
    the error caught; a failure of [settle] carries the text [verify] gave
    and leaves the set as it was.  A header that is not JSON is reported in
    the last form with the parser's message.  A document that lacks fields
    is reported by the first check that reads a missing field: no
    [x402Version], 'Unsupported x402 version'; no [scheme] or [network],
    'Scheme or network mismatch'; no [payload], under 'exact',
    'Verification failed: ' with the message of the [TypeError] thrown by
    reading [nonce]; no [value], 'Payment amount mismatch'; no [to],
    'Verification failed: ' with the message of the [TypeError] thrown by
    reading [toLowerCase]; with no [validBefore] the payment is never
    expired; no [from], 'Invalid signature'. *)
Theorem failures_are_returned random16 now paymentHeader requirements s :
  (exists verification,
     verifyJs now paymentHeader requirements s = (Normal verification, s)
     /\ (verification = valid
         \/ exists text, verification = invalid text /\ verifyReasonText text))
  /\ (exists response s',
        settleJs random16 now paymentHeader requirements s
        = (Normal response, s')
        /\ ((Js.success response = true
             /\ verifyJs now paymentHeader requirements s = (Normal valid, s))
            \/ exists text,
                 response = Js.failure text
                 /\ s' = s
                 /\ verifyJs now paymentHeader requirements s
                    = (Normal (invalid text), s)
                 /\ verifyReasonText text))
  /\ (forall message,
        parseHeader paymentHeader = Throw message ->
        verifyJs now paymentHeader requirements s
        = (Normal (invalid ("Verification failed: " +:+ message)), s))
  /\ (forall fields,
        parseHeader paymentHeader = Normal (Js.Object fields) ->
        (Js.ownField fields "x402Version" = None ->
         verifyJs now paymentHeader requirements s
         = (Normal (invalid "Unsupported x402 version"), s))
        /\ (Js.ownField fields "x402Version"
            = Some (Js.Num (Js.ofInteger 1)) ->
            (Js.ownField fields "scheme" = None
             \/ Js.ownField fields "network" = None ->
             verifyJs now paymentHeader requirements s
             = (Normal (invalid "Scheme or network mismatch"), s))
            /\ (Js.ownField fields "scheme" = Some (Js.Text "exact") ->
                Js.ownField fields "network"
                = Some (Js.Text (network requirements)) ->
                scheme requirements = "exact"%string ->
                (Js.ownField fields "payload" = None ->
                 verifyJs now paymentHeader requirements s
                 = (Normal (invalid ("Verification failed: "
                                     +:+ cannotRead Js.Undefined "nonce")), s))
                /\ (forall body nonce,
                      Js.ownField fields "payload" = Some (Js.Object body) ->
                      getProperty (Js.Object body) "nonce" = Normal nonce ->
                      existsb (Js.sameValueZero nonce) (Js.usedNonces s)
                      = false ->
                      (Js.ownField body "value" = None ->
                       verifyJs now paymentHeader requirements s
                       = (Normal (invalid "Payment amount mismatch"), s))
                      /\ (Js.ownField body "value"
                          = Some (Js.Text (maxAmountRequired requirements)) ->
                          (Js.ownField body "to" = None ->
                           verifyJs now paymentHeader requirements s
                           = (Normal
                                (invalid
                                   ("Verification failed: "
                                    +:+ cannotRead Js.Undefined "toLowerCase")),
                              s))
                          /\ (forall to,
                                Js.ownField body "to" = Some (Js.Text to) ->
                                toLowerCase to
                                = toLowerCase (payTo requirements) ->
                                (Js.ownField body "validBefore" = None ->
                                 verifyJs now paymentHeader requirements s
                                 = (Normal valid, s)
                                 \/ verifyJs now paymentHeader requirements s
                                    = (Normal (invalid "Invalid signature"), s))
                                /\ (forall validBefore,
                                      getProperty (Js.Object body) "validBefore"
                                      = Normal validBefore ->
                                      Js.lessThan textToNumber arrayToString
                                                  cannotConvert validBefore now
                                      = Normal false ->
                                      Js.ownField body "from" = None ->
                                      verifyJs now paymentHeader requirements s
                                      = (Normal (invalid "Invalid signature"),
                                         s)))))))).
Proof.
  split; [apply Js_verify_response|]. split; [|split].
  - destruct (Js_verify_response now paymentHeader requirements s)
      as (verification & Hverify & [->|(text & -> & Htext)]).
    + destruct (Js_settle_commits random16 _ _ _ _ Hverify)
        as (nonce & Hsettle).
      do 2 eexists. split; [exact Hsettle|]. left.
      split; [reflexivity|exact Hverify].
    + exists (Js.failure text), s.
      split; [apply Js_settle_rejects; assumption|].
      right. exists text. repeat split; assumption.
  - intros message Hparse. apply Js_verify_unparsed, Hparse.
  - intros fields Hparse. split.
    + intros Hversion. eapply Js_verify_no_version; eassumption.
    + intros Hversion. split.
      * intros Hmissing. eapply Js_verify_no_scheme; eassumption.
      * intros Hscheme Hnetwork Hexact.
        eapply Js_verify_missing_fields; eassumption.
Qed.

End JsProperties.

(** ** The two embeddings agree

    On a header whose document has the declared shape, and on one that
    is not JSON, the class over JavaScript values answers as the class at
    declared types does. *)

Section Agreement.

Variable decodeHeader : string -> Completion PaymentPayload.
Variable verifyTypedData : Domain -> Message -> string -> Completion string.
Variable parseHeader : string -> Completion Js.Value.
Variable verifyTypedDataJs : Domain -> Js.Message -> Js.Value -> Completion string.
Variable textToNumber : string -> option Js.Number.
Variable arrayToString : list Js.Value -> Completion string.
Variable cannotRead : Js.Value -> string -> string.
Variable notAFunction : string -> string.
Variable cannotConvert : string.

Lemma strictEqualsInteger_ofInteger z k :
  Js.strictEqualsInteger (Js.Num (Js.ofInteger z)) k = (z =? k).
Proof.
  cbn [Js.strictEqualsInteger Js.numberEqb Js.ofInteger].
  unfold QArith_base.Qeq_bool, QArith_base.inject_Z.
  cbn [QArith_base.Qnum QArith_base.Qden]. rewrite !Z.mul_1_r. reflexivity.
Qed.

Lemma numberLtb_ofInteger a b :
  Js.numberLtb (Js.ofInteger a) (Js.ofInteger b) = (a <? b).
Proof.
  cbn [Js.numberLtb Js.ofInteger].
  unfold QArith_base.Qle_bool, QArith_base.inject_Z.
  cbn [QArith_base.Qnum QArith_base.Qden]. rewrite !Z.mul_1_r.
  symmetry. apply Z.ltb_antisym.
Qed.

Lemma sameNonces_has s js n :
  sameNonces s js ->
  existsb (Js.sameValueZero (Js.Text n)) (Js.usedNonces js)
  = bool_decide (n ∈ usedNonces s).
Proof.
  intros Hsame. destruct (bool_decide (n ∈ usedNonces s)) eqn:Hin.
  - apply bool_decide_eq_true_1 in Hin. apply existsb_exists.
    exists (Js.Text n). split.
    + apply Hsame. exists n. split; [reflexivity|exact Hin].
    + cbn. apply String.eqb_refl.
  - apply bool_decide_eq_false_1 in Hin.
    destruct (existsb _ _) eqn:Hexists; [|reflexivity].
    apply existsb_exists in Hexists. destruct Hexists as (v & Hv & Heq).
    apply Hsame in Hv. destruct Hv as (m & -> & Hm).
    cbn in Heq. apply String.eqb_eq in Heq. subst m. contradiction.
Qed.

Lemma sameNonces_add s js n :
  sameNonces s js ->
  n ∉ usedNonces s ->
  sameNonces {| usedNonces := {[ n ]} ∪ usedNonces s |}
             {| Js.usedNonces := Js.usedNonces js ++ [Js.Text n] |}.
Proof.
  intros Hsame Hfresh v. cbn [usedNonces Js.usedNonces].
  rewrite in_app_iff. split.
  - intros [Hv|[<-|[]]].
    + apply Hsame in Hv. destruct Hv as (m & -> & Hm).
      exists m. split; [reflexivity|]. apply elem_of_union_r, Hm.
    + exists n. split; [reflexivity|].
      apply elem_of_union_l, elem_of_singleton. reflexivity.
  - intros (m & -> & Hm). apply elem_of_union in Hm.
    destruct Hm as [Hm|Hm].
    + apply elem_of_singleton in Hm. subst m. right. left. reflexivity.
    + left. apply Hsame. exists m. split; [reflexivity|exact Hm].
Qed.

(** Reads the properties of a document that is written out. *)
Ltac read_fields :=
  cbn beta iota;
  repeat match goal with
         | |- context [Js.getProperty ?c ?v ?name] =>
             let r := eval cbn in (Js.getProperty c v name) in
             progress change (Js.getProperty c v name) with r;
             cbn beta iota
         end.

Lemma verify_agrees now paymentHeader requirements s js :
  readsAtDeclaredType decodeHeader parseHeader paymentHeader ->
  recoversAtDeclaredTypes verifyTypedData verifyTypedDataJs ->
  sameNonces s js ->
  exists verification,
    verify decodeHeader verifyTypedData now paymentHeader requirements s
    = (Normal verification, s)
    /\ Js.verify parseHeader verifyTypedDataJs textToNumber arrayToString
                 cannotRead notAFunction cannotConvert
                 now paymentHeader requirements js
       = (Normal verification, js).
Proof.
  intros [parse_decoded parse_undecoded] recover_declared Hsame.
  destruct (decodeHeader paymentHeader) as [pp|message] eqn:Hdecode.
  - eexists. split; [apply verify_decoded, Hdecode|].
    cbv [Js.verify Js.verifyEIP3009Signature Js.tryCatch Js.bind
         Js.liftCompletion Js.ret Js.hasNonce].
    cbn beta iota. rewrite (parse_decoded _ eq_refl).
    unfold checksInOrder. cbn [firstFailure].
    read_fields. rewrite strictEqualsInteger_ofInteger.
    destruct (negb (x402Version pp =? 1)); [reflexivity|].
    read_fields. cbn [Js.strictEqualsText].
    destruct (negb (String.eqb (payloadScheme pp) (scheme requirements))
              || negb (String.eqb (payloadNetwork pp) (network requirements)));
      [reflexivity|].
    destruct (String.eqb (payloadScheme pp) "exact"); cbn [negb];
      [|reflexivity].
    read_fields. rewrite (sameNonces_has _ _ _ Hsame).
    destruct (bool_decide _); [reflexivity|].
    read_fields. cbn [Js.strictEqualsText].
    destruct (negb (String.eqb (value _) _)); [reflexivity|].
    read_fields. cbn [Js.callToLowerCase].
    destruct (negb (String.eqb (toLowerCase _) _)); [reflexivity|].
    read_fields. cbn [Js.lessThan Js.toNumber]. rewrite numberLtb_ofInteger.
    destruct (validBefore _ <? now); [reflexivity|].
    read_fields.
    match goal with
    | |- context [verifyTypedDataJs ?d ?m ?sig] =>
        change (verifyTypedDataJs d m sig)
          with (verifyTypedDataJs (eip712Domain requirements)
                  (ofMessage (eip3009Message (payload pp)))
                  (Js.Text (signature (payload pp))))
    end.
    rewrite recover_declared. unfold signatureRecovers.
    destruct (verifyTypedData _ _ _) as [recoveredAddress|message];
      [|reflexivity].
    cbn beta iota. destruct (String.eqb _ _); reflexivity.
  - eexists. split; [apply verify_undecoded, Hdecode|].
    cbv [Js.verify Js.tryCatch Js.bind Js.liftCompletion Js.ret].
    rewrite (parse_undecoded _ eq_refl). reflexivity.
Qed.

Lemma settle_agrees random16 now paymentHeader requirements s js :
  readsAtDeclaredType decodeHeader parseHeader paymentHeader ->
  recoversAtDeclaredTypes verifyTypedData verifyTypedDataJs ->
  sameNonces s js ->
  exists response s' js',
    settle decodeHeader verifyTypedData random16 now paymentHeader
           requirements s
    = (Normal response, s')
    /\ Js.settle parseHeader verifyTypedDataJs textToNumber arrayToString
                 cannotRead notAFunction cannotConvert
                 random16 now paymentHeader requirements js
       = (Normal (ofSettleResponse response), js')
    /\ sameNonces s' js'.
Proof.
  intros Hreads Hrecovers Hsame.
  destruct (verify_agrees now paymentHeader requirements s js
                          Hreads Hrecovers Hsame)
    as (verification & Hverify & HverifyJs).
  destruct Hreads as [parse_decoded _].
  destruct (settle_cases decodeHeader verifyTypedData random16 now
                         paymentHeader requirements s)
    as [(text & Hinvalid & Hsettle)|(pp & Hvalid & Hdecode & Hall & Hsettle)].
  - rewrite Hinvalid in Hverify. injection Hverify as <-.
    exists (failure text), s, js. split; [exact Hsettle|].
    split; [|exact Hsame].
    apply (Js_settle_rejects _ _ _ _ _ _ _ _ _ _ _ _ _ HverifyJs).
    destruct (verify_response _ _ _ _ _ _ _ Hinvalid)
      as [Hv|(t & [= ->] & Ht)]; [discriminate|exact Ht].
  - rewrite Hvalid in Hverify. injection Hverify as <-.
    do 3 eexists. split; [exact Hsettle|].
    assert (nonce (payload pp) ∉ usedNonces s) as Hfresh.
    { pose proof (Forall_lookup_1 _ _ 3%nat _ Hall eq_refl) as Hcheck.
      cbn in Hcheck. apply bool_decide_eq_false_1 in Hcheck. exact Hcheck. }
    split; [|apply sameNonces_add; [exact Hsame|exact Hfresh]].
    cbv [Js.settle Js.bind]. rewrite HverifyJs.
    cbv [Js.settleAfterVerify Js.tryCatch Js.bind Js.liftCompletion Js.ret
         Js.addNonce].
    cbn [isValid valid negb]. rewrite (parse_decoded _ Hdecode).
    read_fields. rewrite (sameNonces_has _ _ _ Hsame).
    rewrite (bool_decide_eq_false_2 _ Hfresh). reflexivity.
Qed.

End Agreement.

(** ** The worked payment, evaluated *)

(** The instance after the example payment has been settled. *)
Lemma example_settles :
  settle exampleDecodeHeader exampleVerifyTypedData exampleRandom16 exampleNow
         exampleHeader exampleRequirement newFacilitator
  = (Normal {| success := true;
               txHash := Some "0x0123456789abcdef0123456789abcdef0123456789abcdef0123456789abcdef"%string;
               networkId := Some "base-sepolia"%string;
               error := None |},
     {| usedNonces := {[ exampleNonce ]} ∪ ∅ |}).
Proof. vm_compute. reflexivity. Qed.

(** C1, as stated, fails: after the example payment is settled, a header
    with the same nonce and version 2 is not answered 'Nonce already used'
    but 'Unsupported x402 version', by [verify] and by [settle]. *)
Lemma settled_nonce_other_reason :
  let settled :=
    settle exampleDecodeHeader exampleVerifyTypedData exampleRandom16 exampleNow
           exampleHeader exampleRequirement newFacilitator in
  succeeded settled = true
  /\ exampleDecodeHeader exampleHeaderVersion2 = Normal examplePaymentVersion2
  /\ nonce (payload examplePaymentVersion2) = nonce (payload examplePayment)
  /\ nonce (payload examplePayment) ∈ usedNonces (snd settled)
  /\ verify exampleDecodeHeader exampleVerifyTypedData exampleNow
            exampleHeaderVersion2 exampleRequirement (snd settled)
     = (Normal (invalid "Unsupported x402 version"), snd settled)
  /\ settle exampleDecodeHeader exampleVerifyTypedData exampleRandom16 exampleNow
            exampleHeaderVersion2 exampleRequirement (snd settled)
     = (Normal (failure "Unsupported x402 version"), snd settled)
  /\ String.eqb "Unsupported x402 version" "Nonce already used" = false.
Proof.
  cbn zeta. rewrite example_settles. cbn [snd].
  repeat split; try (vm_compute; reflexivity).
  all: cbn [usedNonces]; apply elem_of_union_l, elem_of_singleton; reflexivity.
Qed.

(** The amended C1 on the example: the settled header, after two more calls,
    and the version 2 header with the same nonce. *)
Lemma settled_nonce_is_rejected_example :
  let s :=
    runCalls exampleDecodeHeader exampleVerifyTypedData
      [CallVerify exampleNow exampleHeader exampleRequirement;
       CallSettle exampleRandom16 exampleNow exampleHeaderStream streamRequirement]
      (snd (settle exampleDecodeHeader exampleVerifyTypedData exampleRandom16
                   exampleNow exampleHeader exampleRequirement newFacilitator)) in
  (exists text,
     verify exampleDecodeHeader exampleVerifyTypedData (exampleNow + 60)
            exampleHeaderVersion2 exampleRequirement s
     = (Normal (invalid text), s)
     /\ settle exampleDecodeHeader exampleVerifyTypedData exampleRandom16
               (exampleNow + 60) exampleHeaderVersion2 exampleRequirement s
        = (Normal (failure text), s)
     /\ (x402Version examplePaymentVersion2 = 1 ->
         payloadScheme examplePaymentVersion2 = scheme exampleRequirement ->
         payloadNetwork examplePaymentVersion2 = network exampleRequirement ->
         payloadScheme examplePaymentVersion2 = "exact"%string ->
         text = "Nonce already used"%string))
  /\ verify exampleDecodeHeader exampleVerifyTypedData (exampleNow + 60)
            exampleHeader exampleRequirement s
     = (Normal (invalid "Nonce already used"), s)
  /\ settle exampleDecodeHeader exampleVerifyTypedData exampleRandom16
            (exampleNow + 60) exampleHeader exampleRequirement s
     = (Normal (failure "Nonce already used"), s).
Proof.
  apply (settled_nonce_is_rejected
           exampleDecodeHeader exampleVerifyTypedData
           exampleRandom16 exampleNow exampleHeader exampleRequirement
           newFacilitator examplePayment
           [CallVerify exampleNow exampleHeader exampleRequirement;
            CallSettle exampleRandom16 exampleNow exampleHeaderStream
                       streamRequirement]
           exampleRandom16 (exampleNow + 60) exampleHeaderVersion2
           exampleRequirement examplePaymentVersion2);
    vm_compute; reflexivity.
Defined.

(** C4 on the example: the example payment submitted twice at once is
    settled twice. *)
Lemma overlapping_settles_example :
  exists response response',
    runSchedule exampleDecodeHeader exampleVerifyTypedData [0; 1; 0; 1; 0; 1]%nat
      ([Invoked exampleRandom16 exampleNow exampleHeader exampleRequirement;
        Invoked exampleRandom16 exampleNow exampleHeader exampleRequirement],
       newFacilitator)
    = ([Settled response; Settled response'],
       {| usedNonces := {[ nonce (payload examplePayment) ]}
                        ∪ usedNonces newFacilitator |})
    /\ success response = true
    /\ success response' = true.
Proof.
  apply (overlapping_settles_both_succeed
           exampleDecodeHeader exampleVerifyTypedData
           exampleRandom16 exampleRandom16 exampleNow exampleNow
           exampleHeader exampleHeader exampleRequirement exampleRequirement
           examplePayment examplePayment newFacilitator);
    vm_compute; reflexivity.
Defined.

(** C5, as stated, fails: a payment offered and made under the scheme
    'stream' meets every condition of the claim and is refused. *)
Lemma matching_payment_refused :
  exampleDecodeHeader exampleHeaderStream = Normal examplePaymentStream
  /\ x402Version examplePaymentStream = 1
  /\ payloadScheme examplePaymentStream = scheme streamRequirement
  /\ payloadNetwork examplePaymentStream = network streamRequirement
  /\ value (payload examplePaymentStream) = maxAmountRequired streamRequirement
  /\ toLowerCase (to (payload examplePaymentStream))
     = toLowerCase (payTo streamRequirement)
  /\ exampleNow <= validBefore (payload examplePaymentStream)
  /\ bool_decide (nonce (payload examplePaymentStream) ∈ usedNonces newFacilitator)
     = false
  /\ (exists recoveredAddress,
        exampleVerifyTypedData (eip712Domain streamRequirement)
          (eip3009Message (payload examplePaymentStream))
          (signature (payload examplePaymentStream)) = Normal recoveredAddress
        /\ toLowerCase recoveredAddress
           = toLowerCase (from (payload examplePaymentStream)))
  /\ verify exampleDecodeHeader exampleVerifyTypedData exampleNow
            exampleHeaderStream streamRequirement newFacilitator
     = (Normal (invalid "Unsupported payment scheme"), newFacilitator).
Proof.
  repeat split; try (vm_compute; reflexivity).
  - vm_compute. discriminate.
  - exists (from exampleAuthorization). split; vm_compute; reflexivity.
Qed.

(** The amended C5 on the example payment. *)
Lemma verify_accepts_example :
  verify exampleDecodeHeader exampleVerifyTypedData exampleNow
         exampleHeader exampleRequirement newFacilitator
  = (Normal valid, newFacilitator).
Proof.
  apply (verify_accepts exampleDecodeHeader exampleVerifyTypedData
           exampleNow exampleHeader exampleRequirement newFacilitator
           examplePayment); try (vm_compute; reflexivity).
  - vm_compute. discriminate.
  - apply not_elem_of_empty.
  - exists (from exampleAuthorization). split; vm_compute; reflexivity.
Defined.

(** C6, as stated, fails: with the example nonce already used, the header
    with version 2 is answered 'Unsupported x402 version', and the example
    header checked against the 'stream' requirement is answered 'Scheme or
    network mismatch'; neither is answered 'Nonce already used'. *)
Lemma used_nonce_not_checked_first :
  let s := {| usedNonces := {[ exampleNonce ]} |} in
  bool_decide (nonce (payload examplePaymentVersion2) ∈ usedNonces s) = true
  /\ verify exampleDecodeHeader exampleVerifyTypedData exampleNow
            exampleHeaderVersion2 exampleRequirement s
     = (Normal (invalid "Unsupported x402 version"), s)
  /\ verify exampleDecodeHeader exampleVerifyTypedData exampleNow
            exampleHeader streamRequirement s
     = (Normal (invalid "Scheme or network mismatch"), s)
  /\ String.eqb "Unsupported x402 version" "Nonce already used" = false
  /\ String.eqb "Scheme or network mismatch" "Nonce already used" = false.
Proof. cbn zeta. repeat split; vm_compute; reflexivity. Qed.

(** The amended C6 on the example: with the example nonce already used, the
    example header is answered 'Nonce already used'. *)
Lemma verify_checks_in_order_example :
  verify exampleDecodeHeader exampleVerifyTypedData exampleNow exampleHeader
         exampleRequirement {| usedNonces := {[ exampleNonce ]} |}
  = (Normal (invalid "Nonce already used"), {| usedNonces := {[ exampleNonce ]} |}).
Proof.
  apply (proj2 (verify_checks_in_order exampleDecodeHeader exampleVerifyTypedData
                  exampleNow exampleHeader exampleRequirement
                  {| usedNonces := {[ exampleNonce ]} |}) examplePayment);
    try (vm_compute; reflexivity).
  all: cbn [usedNonces]; apply elem_of_singleton; reflexivity.
Defined.

(** C7 on the example: the clock reads the second at which the example
    authorization expires, which is long after its [validAfter]. *)
Lemma expiry_example :
  verify exampleDecodeHeader exampleVerifyTypedData 1700000300 exampleHeader
         exampleRequirement newFacilitator
  = (Normal valid, newFacilitator)
  /\ verify exampleDecodeHeader exampleVerifyTypedData 1700000301 exampleHeader
            exampleRequirement newFacilitator
     = (Normal (invalid "Payment expired"), newFacilitator).
Proof.
  split.
  - refine (proj1 (proj2 (expiry_is_the_only_timing_check
                            exampleDecodeHeader exampleVerifyTypedData
                            1700000300 exampleHeader exampleRequirement
                            newFacilitator examplePayment
                            _ _ _ _ _ _ _ _)) _);
      try (vm_compute; reflexivity).
    apply not_elem_of_empty.
  - refine (proj1 (proj2 (proj2 (expiry_is_the_only_timing_check
                            exampleDecodeHeader exampleVerifyTypedData
                            1700000301 exampleHeader exampleRequirement
                            newFacilitator examplePayment
                            _ _ _ _ _ _ _ _))) _);
      try (vm_compute; reflexivity).
    apply not_elem_of_empty.
Defined.

(** C10 on the example: the payment under the scheme 'stream'. *)
Lemma unsupported_scheme_example :
  verify exampleDecodeHeader exampleVerifyTypedData exampleNow
         exampleHeaderStream streamRequirement newFacilitator
  = (Normal (invalid "Unsupported payment scheme"), newFacilitator).
Proof.
  refine (proj1 (unsupported_scheme_is_reported
                   exampleDecodeHeader exampleVerifyTypedData exampleNow
                   exampleHeaderStream streamRequirement newFacilitator
                   examplePaymentStream _ _ _ _ _));
    try (vm_compute; reflexivity).
  vm_compute. discriminate.
Defined.

(** ** The further properties, evaluated *)

(** X2 on the example: after the example payment is settled, its nonce is in
    the set because of that call. *)
Lemma used_nonces_were_paid_example :
  exampleNonce ∈ usedNonces newFacilitator
  \/ exists random16 now paymentHeader requirements pp,
       CallSettle random16 now paymentHeader requirements
       ∈ [CallVerify exampleNow exampleHeader exampleRequirement;
          CallSettle exampleRandom16 exampleNow exampleHeader exampleRequirement]
       /\ exampleDecodeHeader paymentHeader = Normal pp
       /\ nonce (payload pp) = exampleNonce
       /\ x402Version pp = 1
       /\ payloadScheme pp = "exact"%string
       /\ payloadNetwork pp = network requirements
       /\ value (payload pp) = maxAmountRequired requirements
       /\ toLowerCase (to (payload pp)) = toLowerCase (payTo requirements)
       /\ now <= validBefore (payload pp)
       /\ signatureRecovers exampleVerifyTypedData (payload pp) requirements
          = true.
Proof.
  apply (used_nonces_were_paid exampleDecodeHeader exampleVerifyTypedData
           [CallVerify exampleNow exampleHeader exampleRequirement;
            CallSettle exampleRandom16 exampleNow exampleHeader exampleRequirement]
           newFacilitator exampleNonce).
  refine (bool_decide_unpack _ _). vm_compute. exact I.
Defined.

(** X4 on the example: the recipient written in capital letters. *)
Lemma payTo_case_is_ignored_example :
  verify exampleDecodeHeader exampleVerifyTypedData exampleNow exampleHeader
         (withPayTo "0X742D35CC6634C0532925A3B844BC454E4438F44E" exampleRequirement)
         newFacilitator
  = verify exampleDecodeHeader exampleVerifyTypedData exampleNow exampleHeader
           exampleRequirement newFacilitator.
Proof.
  apply (payTo_case_is_ignored exampleDecodeHeader exampleVerifyTypedData
           "0X742D35CC6634C0532925A3B844BC454E4438F44E" exampleNow exampleHeader
           exampleRequirement newFacilitator).
  vm_compute. reflexivity.
Defined.

(** X6 on the example: the payment made for 'polygon', a network the table
    does not know. *)
Lemma unknown_network_example :
  verify clientDecodeHeader exampleVerifyTypedData exampleNow polygonHeader
         polygonRequirement newFacilitator
  = verify clientDecodeHeader exampleVerifyTypedData exampleNow ethereumHeader
           (withNetwork "ethereum" polygonRequirement) newFacilitator.
Proof.
  apply (unknown_network_shares_ethereum_domain
           clientDecodeHeader exampleVerifyTypedData exampleNow
           polygonHeader ethereumHeader polygonRequirement newFacilitator
           polygonPayment); vm_compute; reflexivity.
Defined.

(** X9 on the example: the example wallet builds the example payment, and
    the facilitator reads it at the last second of its window and one second
    later. *)
Lemma created_payment_is_accepted_example :
  exists paymentHeader,
    Client.createPayment exampleSignTypedData clientEncodeHeader exampleNow
                         exampleRandomByte exampleWallet exampleRequirement
    = Normal paymentHeader
    /\ (1700000300 <= exampleNow + maxTimeoutSeconds exampleRequirement ->
        verify clientDecodeHeader exampleVerifyTypedData 1700000300
               paymentHeader exampleRequirement newFacilitator
        = (Normal valid, newFacilitator)
        /\ succeeded (settle clientDecodeHeader exampleVerifyTypedData
                             exampleRandom16 1700000300 paymentHeader
                             exampleRequirement newFacilitator) = true)
    /\ (exampleNow + maxTimeoutSeconds exampleRequirement < 1700000300 ->
        verify clientDecodeHeader exampleVerifyTypedData 1700000300
               paymentHeader exampleRequirement newFacilitator
        = (Normal (invalid "Payment expired"), newFacilitator)).
Proof.
  apply (created_payment_is_accepted
           clientDecodeHeader exampleVerifyTypedData exampleSignTypedData
           clientEncodeHeader exampleNow exampleRandomByte exampleWallet
           exampleRequirement exampleSignature 1700000300 exampleRandom16
           newFacilitator); try (vm_compute; reflexivity).
  - exists (from exampleAuthorization). split; vm_compute; reflexivity.
  - apply not_elem_of_empty.
Defined.

(** X10 on the example: the payment of the second wallet, read in time. *)
Lemma created_payment_outcomes_example :
  exists response,
    verify clientDecodeHeader exampleVerifyTypedData 1700000200
           (clientEncodeHeader
              (Client.createdPayment 1700000100 exampleRandomByte secondWallet
                                     requirementWithNonce secondSignature))
           requirementWithNonce newFacilitator
    = (Normal response, newFacilitator)
    /\ response ∈ [ valid;
                    invalid "Unsupported payment scheme";
                    invalid "Nonce already used";
                    invalid "Payment expired";
                    invalid "Invalid signature" ].
Proof.
  apply (created_payment_outcomes
           clientDecodeHeader exampleVerifyTypedData clientEncodeHeader
           1700000100 exampleRandomByte secondWallet requirementWithNonce
           secondSignature 1700000200 newFacilitator).
  vm_compute. reflexivity.
Defined.

(** X11 on the example: the example wallet's payment for the requirement with
    a nonce settles, then the second wallet's payment is refused. *)
Lemma requirement_nonce_is_spent_once_example :
  let s :=
    runCalls clientDecodeHeader exampleVerifyTypedData
      [CallVerify 1700000050 exampleHeader requirementWithNonce]
      (snd (settle clientDecodeHeader exampleVerifyTypedData exampleRandom16
                   exampleNow
                   (clientEncodeHeader
                      (Client.createdPayment exampleNow exampleRandomByte
                         exampleWallet requirementWithNonce exampleSignature))
                   requirementWithNonce newFacilitator)) in
  nonce (payload
           (Client.createdPayment 1700000100 exampleRandomByte secondWallet
                                  requirementWithNonce secondSignature))
  = exampleNonce
  /\ verify clientDecodeHeader exampleVerifyTypedData 1700000200
            (clientEncodeHeader
               (Client.createdPayment 1700000100 exampleRandomByte secondWallet
                                      requirementWithNonce secondSignature))
            requirementWithNonce s
     = (Normal (invalid "Nonce already used"), s).
Proof.
  apply (requirement_nonce_is_spent_once
           clientDecodeHeader exampleVerifyTypedData clientEncodeHeader
           exampleNow exampleRandomByte exampleWallet exampleSignature
           1700000100 exampleRandomByte secondWallet secondSignature
           requirementWithNonce exampleNonce exampleRandom16 exampleNow
           newFacilitator
           [CallVerify 1700000050 exampleHeader requirementWithNonce]
           1700000200); try (vm_compute; reflexivity).
  vm_compute. discriminate.
Defined.

(** X12 on the example: random bytes that are all 0xa1. *)
Lemma created_nonce_is_bytes32_example :
  nonce (payload (Client.createdPayment exampleNow exampleRandomByte
                    exampleWallet exampleRequirement exampleSignature))
  = Client.randomNonce exampleRandomByte
  /\ isHexText 64 (Client.randomNonce exampleRandomByte).
Proof.
  apply (created_nonce_is_bytes32 exampleNow exampleRandomByte exampleWallet
           exampleRequirement exampleSignature).
  reflexivity.
Defined.

(** X13 on the example: one and a half units. *)
Lemma formatAmount_round_trip_example :
  exists units fraction,
    Client.formatAmount exampleBigIntOfString "1500000"
    = Normal (units +:+ "." +:+ fraction)%string
    /\ isDigits units = true
    /\ isDigits fraction = true
    /\ String.length fraction = 6%nat
    /\ decimalValue units * 1000000 + decimalValue fraction = 1500000.
Proof.
  apply (formatAmount_round_trip exampleBigIntOfString "1500000" 1500000).
  - vm_compute. reflexivity.
  - lia.
Defined.

(** X14 on the example: settling the example payment does not change the
    answer to the payment with another nonce. *)
Lemma settling_leaves_other_nonces_alone_example :
  fst (verify clientDecodeHeader exampleVerifyTypedData exampleNow
              otherNonceHeader exampleRequirement
              (snd (settle clientDecodeHeader exampleVerifyTypedData
                           exampleRandom16 exampleNow exampleHeader
                           exampleRequirement newFacilitator)))
  = fst (verify clientDecodeHeader exampleVerifyTypedData exampleNow
                otherNonceHeader exampleRequirement newFacilitator).
Proof.
  apply (settling_leaves_other_nonces_alone
           clientDecodeHeader exampleVerifyTypedData
           exampleRandom16 exampleNow exampleHeader exampleRequirement
           newFacilitator exampleNow otherNonceHeader exampleRequirement
           otherNoncePayment).
  - vm_compute. reflexivity.
  - intros pp Hdecode.
    vm_compute in Hdecode. injection Hdecode as <-.
    vm_compute. discriminate.
Defined.

(** X15 on the example: five units below zero. *)
Lemma formatAmount_of_negative_amount_example :
  exists units fraction,
    Client.formatAmount exampleBigIntOfString "-5"
    = Normal (units +:+ "." +:+ fraction)%string
    /\ isDigits fraction = false.
Proof.
  apply (formatAmount_of_negative_amount exampleBigIntOfString "-5" (-5)).
  - vm_compute. reflexivity.
  - lia.
  - vm_compute. discriminate.
Defined.

(** X18 on the example payment. *)
Lemma valid_answer_is_sound_example :
  exists pp,
    exampleDecodeHeader exampleHeader = Normal pp
    /\ x402Version pp = 1
    /\ payloadScheme pp = scheme exampleRequirement
    /\ payloadNetwork pp = network exampleRequirement
    /\ payloadScheme pp = "exact"%string
    /\ (nonce (payload pp) ∉ usedNonces newFacilitator)
    /\ value (payload pp) = maxAmountRequired exampleRequirement
    /\ toLowerCase (to (payload pp)) = toLowerCase (payTo exampleRequirement)
    /\ exampleNow <= validBefore (payload pp)
    /\ exists recoveredAddress,
         exampleVerifyTypedData (eip712Domain exampleRequirement)
           (eip3009Message (payload pp)) (signature (payload pp))
         = Normal recoveredAddress
         /\ toLowerCase recoveredAddress = toLowerCase (from (payload pp)).
Proof.
  apply (valid_answer_is_sound exampleDecodeHeader exampleVerifyTypedData
           exampleNow exampleHeader exampleRequirement newFacilitator).
  vm_compute. reflexivity.
Defined.

(** ** The class over JavaScript values, evaluated *)

(** C8, as stated, fails.  The header of [{}] lacks every field and is
    answered 'Unsupported x402 version'; the header with no [payload] is
    answered 'Scheme or network mismatch' under the requirement of the
    scheme 'stream' and with the message of a [TypeError] under the example
    requirement: a header that lacks fields has no reason of its own.  The
    payment under 'stream' is answered, by [verify] and by [settle], with a
    text that stands for no reason of the taxonomy. *)
Lemma missing_fields_not_malformed :
  Js.verify exampleParseHeader exampleVerifyTypedDataJs exampleTextToNumber
            exampleArrayToString exampleCannotRead exampleNotAFunction
            exampleCannotConvert
            exampleNow emptyObjectHeader exampleRequirement Js.newFacilitator
  = (Normal (invalid "Unsupported x402 version"), Js.newFacilitator)
  /\ specReasonOf "Unsupported x402 version" = Some unsupportedVersion
  /\ Js.verify exampleParseHeader exampleVerifyTypedDataJs exampleTextToNumber
               exampleArrayToString exampleCannotRead exampleNotAFunction
               exampleCannotConvert
               exampleNow noPayloadHeader streamRequirement Js.newFacilitator
     = (Normal (invalid "Scheme or network mismatch"), Js.newFacilitator)
  /\ specReasonOf "Scheme or network mismatch" = Some schemeOrNetworkMismatch
  /\ Js.verify exampleParseHeader exampleVerifyTypedDataJs exampleTextToNumber
               exampleArrayToString exampleCannotRead exampleNotAFunction
               exampleCannotConvert
               exampleNow noPayloadHeader exampleRequirement Js.newFacilitator
     = (Normal
          (invalid
             "Verification failed: Cannot read properties of undefined (reading 'nonce')"),
        Js.newFacilitator)
  /\ Js.verify exampleParseHeader exampleVerifyTypedDataJs exampleTextToNumber
               exampleArrayToString exampleCannotRead exampleNotAFunction
               exampleCannotConvert
               exampleNow exampleHeaderStream streamRequirement
               Js.newFacilitator
     = (Normal (invalid "Unsupported payment scheme"), Js.newFacilitator)
  /\ Js.settle exampleParseHeader exampleVerifyTypedDataJs exampleTextToNumber
               exampleArrayToString exampleCannotRead exampleNotAFunction
               exampleCannotConvert exampleRandom16
               exampleNow exampleHeaderStream streamRequirement
               Js.newFacilitator
     = (Normal (Js.failure "Unsupported payment scheme"), Js.newFacilitator)
  /\ specReasonOf "Unsupported payment scheme" = None.
Proof. repeat split; vm_compute; reflexivity. Qed.

(** C8, amended, on the examples: the header of the authorization that
    holds a nonce and a value and nothing else passes the checks up to the
    recipient, where reading [toLowerCase] of [undefined] throws; the header
    of [null] already throws where [x402Version] is read; the example
    payment is settled. *)
Lemma failures_are_returned_example :
  Js.verify exampleParseHeader exampleVerifyTypedDataJs exampleTextToNumber
            exampleArrayToString exampleCannotRead exampleNotAFunction
            exampleCannotConvert
            exampleNow noRecipientHeader exampleRequirement Js.newFacilitator
  = (Normal
       (invalid
          "Verification failed: Cannot read properties of undefined (reading 'toLowerCase')"),
     Js.newFacilitator)
  /\ Js.verify exampleParseHeader exampleVerifyTypedDataJs exampleTextToNumber
               exampleArrayToString exampleCannotRead exampleNotAFunction
               exampleCannotConvert
               exampleNow nullHeader exampleRequirement Js.newFacilitator
     = (Normal
          (invalid
             "Verification failed: Cannot read properties of null (reading 'x402Version')"),
        Js.newFacilitator)
  /\ Js.settle exampleParseHeader exampleVerifyTypedDataJs exampleTextToNumber
               exampleArrayToString exampleCannotRead exampleNotAFunction
               exampleCannotConvert exampleRandom16
               exampleNow exampleHeader exampleRequirement Js.newFacilitator
     = (Normal {| Js.success := true;
                  Js.txHash := Some (fakeTxHash exampleRandom16);
                  Js.networkId := Some (Js.Text "base-sepolia");
                  Js.error := None |},
        {| Js.usedNonces := [Js.Text exampleNonce] |}).
Proof.
  destruct (failures_are_returned
              exampleParseHeader exampleVerifyTypedDataJs exampleTextToNumber
              exampleArrayToString exampleCannotRead exampleNotAFunction
              exampleCannotConvert exampleRandom16
              exampleNow noRecipientHeader exampleRequirement
              Js.newFacilitator) as (_ & _ & _ & Hfields).
  destruct (Hfields _ eq_refl) as (_ & Hversion).
  destruct (Hversion eq_refl) as (_ & Hexact).
  destruct (Hexact eq_refl eq_refl eq_refl) as (_ & Hbody).
  destruct (Hbody _ _ eq_refl eq_refl eq_refl) as (_ & Hvalue).
  destruct (Hvalue eq_refl) as (Hto & _).
  split; [exact (Hto eq_refl)|].
  split; vm_compute; reflexivity.
Defined.

(** The stand-in for recovery at run time is, on a message and a signature
    of the declared types, the stand-in at declared types. *)
Lemma example_recovery_agrees domain message sig :
  exampleVerifyTypedDataJs domain (ofMessage message) (Js.Text sig)
  = exampleVerifyTypedData domain message sig.
Proof.
  destruct message. unfold exampleVerifyTypedDataJs, asMessage, ofMessage.
  cbn [Js.messageFrom Js.messageTo Js.messageValue Js.messageValidAfter
       Js.messageValidBefore Js.messageNonce asText asInteger Js.ofInteger
       QArith_base.inject_Z QArith_base.Qden QArith_base.Qnum Pos.eqb
       mbind option_bind].
  reflexivity.
Qed.

(** The two embeddings on the example payment: both settle it, with the
    same response, and both sets then hold its nonce and nothing else. *)
Lemma example_settles_at_run_time :
  exists response s' js',
    settle exampleDecodeHeader exampleVerifyTypedData exampleRandom16
           exampleNow exampleHeader exampleRequirement newFacilitator
    = (Normal response, s')
    /\ Js.settle exampleParseHeader exampleVerifyTypedDataJs
                 exampleTextToNumber exampleArrayToString exampleCannotRead
                 exampleNotAFunction exampleCannotConvert exampleRandom16
                 exampleNow exampleHeader exampleRequirement Js.newFacilitator
       = (Normal (ofSettleResponse response), js')
    /\ sameNonces s' js'.
Proof.
  apply (settle_agrees exampleDecodeHeader exampleVerifyTypedData
                       exampleParseHeader exampleVerifyTypedDataJs
                       exampleTextToNumber exampleArrayToString
                       exampleCannotRead exampleNotAFunction
                       exampleCannotConvert).
  - split.
    + intros pp Hdecode. vm_compute in Hdecode. injection Hdecode as <-.
      vm_compute. reflexivity.
    + intros message Hdecode. vm_compute in Hdecode. discriminate.
  - intros domain message sig. apply example_recovery_agrees.
  - intros v. cbn. split; [intros []|].
    intros (n & _ & Hn). apply not_elem_of_empty in Hn. exact Hn.
Qed.
